(** * Order / Payment / Refund lifecycle of the FollowersCart backend

    A shallow embedding of the route handlers of [routes/auth.js] that drive
    [Order.status] ([POST /refundRequests], [PATCH /updateRefund/:id],
    [POST /createPayment], [PATCH /updatePayment/:id]) together with the three
    Mongoose schemas they go through ([models/order.js], [models/Payment.js],
    [models/Refund.js]), and the properties of the lifecycle stated over
    them.

    Conventions of the embedding:
    - a request body is a record of JavaScript values, one per property the
      handler destructures; an absent property is [JUndefined];
    - a collection is a finite map from [_id] to document;
    - a handler is a function from the store to the store it leaves behind
      and the HTTP response it sends; an exception raised inside the
      handler's [try] block keeps the writes made before it, as in the
      source, and is turned into a response by the handler's [catch];
    - timestamps ([createdAt], [updatedAt], [paymentDate]) and the text of the
      notification mails are not part of the store and are left out;
      [sendEmail] catches every error of the transporter and returns a result
      value, so only the evaluation of a mail template can raise.

    The second part covers the Order routes of the same file
    ([POST /createOrder], [GET /getOrder/:id], [DELETE /deleteOrder/:id],
    [PATCH /updateOrder/:id]), the blog posts ([models/BlogPost.js] with its
    [pre("save")] hook, [POST /blogPosts], [GET /blogPosts/:id]) and the two
    e-mail patterns of the schemas. A string is the sequence of its code
    units, one character each, so [String.length] is [.length]. *)

From Stdlib Require Import ZArith String Ascii List Bool.
From stdpp Require Import base option gmap strings fin_maps.
Import ListNotations.

Local Open Scope string_scope.
Local Open Scope Z_scope.

(** ** JavaScript values and the runtime *)

(** The values a JSON body (or a URL-encoded form) puts in a property that
    the handlers read: a scalar, [null], or nothing at all. Numbers are the
    integers, those a JavaScript number holds exactly (of magnitude up to
    2^53); nested objects and arrays are not modelled. *)
Inductive jsval : Type :=
| JUndefined
| JNull
| JBool (b : bool)
| JNum (n : Z)
| JStr (s : string).

(** [ToBoolean]: what [!v] and [v || d] test. *)
Definition truthy (v : jsval) : bool :=
  match v with
  | JUndefined | JNull => false
  | JBool b => b
  | JNum n => negb (n =? 0)
  | JStr s => negb (String.eqb s "")
  end.

(** [a || b]. *)
Definition js_or (a b : jsval) : jsval := if truthy a then a else b.

(** [v === "lit"]. *)
Definition is_str (v : jsval) (lit : string) : bool :=
  match v with
  | JStr s => String.eqb s lit
  | _ => false
  end.

(** [arr.includes(v)] for an array of string literals. *)
Definition includes (arr : list string) (v : jsval) : bool :=
  existsb (is_str v) arr.

(** ** Regular expressions

    The two [match] patterns of the schemas are anchored at both ends and
    use classes, groups and counted repetition only, so they denote regular
    languages and [re.test(s)] is membership of the whole string, decided
    here with derivatives. *)
Module RegExp.
Inductive t : Type :=
| Never
| Empty
| Class (c : ascii -> bool)
| Seq (a b : t)
| Or (a b : t)
| Star (a : t).

Fixpoint nullable (r : t) : bool :=
  match r with
  | Never => false
  | Empty => true
  | Class _ => false
  | Seq a b => nullable a && nullable b
  | Or a b => nullable a || nullable b
  | Star _ => true
  end.

(** [Seq] and [Or] that drop the branches that cannot match. *)
Definition seq (a b : t) : t :=
  match a, b with
  | Never, _ | _, Never => Never
  | Empty, _ => b
  | _, _ => Seq a b
  end.

Definition or (a b : t) : t :=
  match a, b with
  | Never, _ => b
  | _, Never => a
  | _, _ => Or a b
  end.

Fixpoint deriv (x : ascii) (r : t) : t :=
  match r with
  | Never | Empty => Never
  | Class c => if c x then Empty else Never
  | Seq a b =>
      or (seq (deriv x a) b) (if nullable a then deriv x b else Never)
  | Or a b => or (deriv x a) (deriv x b)
  | Star a => seq (deriv x a) (Star a)
  end.

Fixpoint matches (r : t) (s : string) : bool :=
  match s with
  | EmptyString => nullable r
  | String x s' => matches (deriv x r) s'
  end.

(** [a+], [a?], [a{n}], [a{lo,lo+more}] *)
Definition plus (a : t) : t := Seq a (Star a).
Definition opt (a : t) : t := Or Empty a.
Fixpoint times (n : nat) (a : t) : t :=
  match n with
  | O => Empty
  | S n => Seq a (times n a)
  end.
Fixpoint upto (n : nat) (a : t) : t :=
  match n with
  | O => Empty
  | S n => opt (Seq a (upto n a))
  end.
Definition between (lo more : nat) (a : t) : t :=
  Seq (times lo a) (upto more a).

Definition in_range (lo hi : N) (x : ascii) : bool :=
  ((lo <=? N_of_ascii x) && (N_of_ascii x <=? hi))%N.

Definition is_char (c x : ascii) : bool := Ascii.eqb c x.

(** [\w]: [A-Za-z0-9_] *)
Definition word (x : ascii) : bool :=
  in_range 65 90 x || in_range 97 122 x || in_range 48 57 x
  || is_char "_" x.

Definition char (c : ascii) : t := Class (is_char c).

(** [/^...$/.test(s)] *)
Definition test (r : t) (s : string) : bool := matches r s.
End RegExp.

(** [/^(\w+([.-]?\w+)*@\w+([.-]?\w+)*(\.\w{2,3})+)$/] of [Order.email]. *)
Definition orderEmailRe : RegExp.t :=
  let w := RegExp.Class RegExp.word in
  let dot_dash :=
    RegExp.Class (fun x => RegExp.is_char "." x || RegExp.is_char "-" x) in
  let wplus := RegExp.plus w in
  let tail := RegExp.Star (RegExp.Seq (RegExp.opt dot_dash) wplus) in
  RegExp.Seq wplus
    (RegExp.Seq tail
       (RegExp.Seq (RegExp.char "@")
          (RegExp.Seq wplus
             (RegExp.Seq tail
                (RegExp.plus
                   (RegExp.Seq (RegExp.char ".") (RegExp.between 2 1 w))))))).

(** [/^[\w-\.]+@([\w-]+\.)+[\w-]{2,4}$/] of [Payment.clientEmail]. *)
Definition paymentEmailRe : RegExp.t :=
  let w_dash_dot :=
    RegExp.Class (fun x => RegExp.word x || RegExp.is_char "-" x
                           || RegExp.is_char "." x) in
  let w_dash :=
    RegExp.Class (fun x => RegExp.word x || RegExp.is_char "-" x) in
  RegExp.Seq (RegExp.plus w_dash_dot)
    (RegExp.Seq (RegExp.char "@")
       (RegExp.Seq
          (RegExp.plus (RegExp.Seq (RegExp.plus w_dash) (RegExp.char ".")))
          (RegExp.between 2 2 w_dash))).

(** [_id] values: the 96-bit number an ObjectId stands for. *)
Definition ObjectId : Type := N.

(** The parts of the JavaScript runtime and of the MongoDB driver that the
    schemas call and whose text is not in this repository. *)
Class Runtime : Type := {
  (** [new ObjectId(s)]: [None] when the constructor throws. *)
  ObjectId_ofString : string -> option ObjectId;
  (** [Number(s)] for a non-empty string: [None] when it is [NaN]. *)
  Number_ofString : string -> option Z;
  (** [String(n)]. *)
  Number_toString : Z -> string;
  (** [s.trim()]. *)
  String_trim : string -> string;
  (** [s.toLowerCase()]. *)
  String_toLowerCase : string -> string
}.

(** [mongoose.Types.ObjectId.isValid(id)] for a string (a route parameter):
    the strings the constructor accepts. *)
Definition ObjectId_isValid `{Runtime} (id : string) : bool :=
  match ObjectId_ofString id with
  | Some _ => true
  | None => false
  end.

(** ** Exceptions *)

Inductive exn : Type :=
| ValidationError   (** Mongoose: a document or an update fails its schema *)
| CastError         (** Mongoose: a query or update value cannot be cast *)
| DuplicateKey      (** driver: unique index violated, [err.code === 11000] *)
| TypeError.        (** JavaScript: property read on [null] *)

(** [err.code === 11000]. *)
Definition is_code_11000 (e : exn) : bool :=
  match e with
  | DuplicateKey => true
  | _ => false
  end.

Inductive result (A : Type) : Type :=
| Ok (a : A)
| Throw (e : exn).
Arguments Ok {A} a.
Arguments Throw {A} e.

Definition result_bind {A B} (r : result A) (k : A -> result B) : result B :=
  match r with
  | Ok a => k a
  | Throw e => Throw e
  end.

Declare Scope result_scope.
Delimit Scope result_scope with result.
Notation "x <- r ;; k" := (result_bind r (fun x => k))
  (at level 100, r at next level, right associativity) : result_scope.

(** Inside [validate()] a cast error is reported as a validation error. *)
Definition as_validation {A} (r : result A) : result A :=
  match r with
  | Ok a => Ok a
  | Throw _ => Throw ValidationError
  end.

(** ** Schema types: casts, setters, validators *)

Section Casts.
Context `{Runtime}.

(** Cast to ObjectId: [null] and [undefined] pass through (as [None]),
    anything else goes through its [toString()] into the constructor. *)
Definition castObjectId (v : jsval) : result (option ObjectId) :=
  let parse s :=
    match ObjectId_ofString s with
    | Some i => Ok (Some i)
    | None => Throw CastError
    end in
  match v with
  | JUndefined | JNull => Ok None
  | JBool b => parse (if b then "true" else "false")
  | JNum n => parse (Number_toString n)
  | JStr s => parse s
  end.

(** Cast to String: never fails on a scalar. *)
Definition castString (v : jsval) : option string :=
  match v with
  | JUndefined | JNull => None
  | JBool b => Some (if b then "true" else "false")
  | JNum n => Some (Number_toString n)
  | JStr s => Some s
  end.

(** Cast to Number: the empty string becomes [null], other strings and
    booleans go through [Number()], and [NaN] is a cast error. *)
Definition castNumber (v : jsval) : result (option Z) :=
  match v with
  | JUndefined | JNull => Ok None
  | JBool b => Ok (Some (if b then 1 else 0))
  | JNum n => Ok (Some n)
  | JStr s =>
      if String.eqb s "" then Ok None
      else match Number_ofString s with
           | Some n => Ok (Some n)
           | None => Throw CastError
           end
  end.

(** The [trim: true] setter: [if (v) return v.trim(); return v]. *)
Definition set_trim (v : option string) : option string :=
  match v with
  | Some s => if String.eqb s "" then Some s else Some (String_trim s)
  | None => None
  end.

(** The [lowercase: true] setter: [if (v) return v.toLowerCase()]. *)
Definition set_lowercase (v : option string) : option string :=
  match v with
  | Some s => if String.eqb s "" then Some s else Some (String_toLowerCase s)
  | None => None
  end.
End Casts.

(** [required: true] on a String path: present and not empty. *)
Definition required_string (v : option string) : result string :=
  match v with
  | Some s => if String.eqb s "" then Throw ValidationError else Ok s
  | None => Throw ValidationError
  end.

(** [required: true] on a Number or ObjectId path: present. *)
Definition required_value {A} (v : option A) : result A :=
  match v with
  | Some a => Ok a
  | None => Throw ValidationError
  end.

(** [enum: [...]]: the validator lets [null] through. *)
Definition enum_ok (vals : list string) (v : option string) : bool :=
  match v with
  | Some s => existsb (String.eqb s) vals
  | None => true
  end.

(** [match: re]: the validator lets [null] and the empty string through. *)
Definition match_ok (test : string -> bool) (s : string) : bool :=
  if String.eqb s "" then true else test s.

(** A validator that answers [false] is a [ValidationError]. *)
Definition check (b : bool) : result unit :=
  if b then Ok tt else Throw ValidationError.

(** ** Documents *)

(** A document of a collection: the values of its paths, under its [_id]. *)
Definition doc (A : Type) : Type := ObjectId * A.
Definition _id {A} (d : doc A) : ObjectId := fst d.
Definition fields {A} (d : doc A) : A := snd d.

(** models/order.js *)
Module Order.
Record t : Type := mk {
  name : string;
  email : string;
  phoneNumber : string;
  postLink : option string;
  profileLink : string;
  requiredFollowers : Z;
  platform : string;
  socialId : option string;
  service : string;
  price : Z;
  status : string
}.

Definition platform_enum : list string :=
  ["Instagram"; "TikTok"; "YouTube"; "Facebook"; "Twitter"; "Other"].

Definition service_enum : list string :=
  ["Followers"; "Likes"; "Views"; "Subscribers"; "Comments"; "Shares";
   "Watch Time"; "Live Stream"; "Page Likes"; "Female Followers";
   "English Followers"; "Reels Views"; "Story Views"; "Other"].

Definition status_enum : list string :=
  ["Pending"; "Payment Pending"; "In Progress"; "Completed"; "Cancelled";
   "Refunded"; "Failed"].

(** [order.status = s]. *)
Definition set_status (s : string) (o : t) : t :=
  mk (name o) (email o) (phoneNumber o) (postLink o)
     (profileLink o) (requiredFollowers o) (platform o) (socialId o)
     (service o) (price o) s.

(** [order.userId]: the schema above declares no [userId] path, so a
    document of this model has no accessor of that name and the property
    read gives [undefined]. *)
Definition userId (o : t) : jsval := JUndefined.

(** The validators of every path but [status], as [save()] runs them on
    the stored values. *)
Definition paths_valid (o : t) : bool :=
  negb (String.eqb (name o) "")
  && negb (String.eqb (email o) "") && match_ok (RegExp.test orderEmailRe) (email o)
  && negb (String.eqb (phoneNumber o) "")
  && negb (String.eqb (profileLink o) "")
  && (1 <=? requiredFollowers o)
  && negb (String.eqb (platform o) "")
  && existsb (String.eqb (platform o)) platform_enum
  && negb (String.eqb (service o) "")
  && existsb (String.eqb (service o)) service_enum
  && (0 <=? price o).

(** The validators of [status]: required, and in the enum. *)
Definition status_valid (s : string) : bool :=
  negb (String.eqb s "") && existsb (String.eqb s) status_enum.

Definition validate (o : t) : bool :=
  paths_valid o && status_valid (status o).
End Order.

(** models/Payment.js *)
Module Payment.
Record t : Type := mk {
  orderId : ObjectId;
  clientName : string;
  clientEmail : string;
  amount : Z;
  paymentMethod : string;
  transactionId : string;
  screenshotUrl : option string;
  remarks : option string;
  status : option string
}.

Definition paymentMethod_enum : list string :=
  ["easypaisa"; "jazzcash"; "bankTransfer"; "paypal"; "googlePay"].

Definition status_enum : list string := ["Pending"; "Approved"; "Rejected"].

Definition remarks_default : string := "No remarks.".
Definition status_default : string := "Pending".
End Payment.

(** models/Refund.js *)
Module Refund.
Record t : Type := mk {
  userId : ObjectId;
  orderId : ObjectId;
  clientName : string;
  clientEmail : string;
  amount : Z;
  reason : string;
  status : option string;
  adminRemarks : option string
}.

Definition status_enum : list string := ["Pending"; "Approved"; "Rejected"].

Definition adminRemarks_default : string := "".
End Refund.

(** ** The store and the handler monad *)

Record Store : Type := mkStore {
  orders : gmap ObjectId Order.t;
  payments : gmap ObjectId Payment.t;
  refunds : gmap ObjectId Refund.t
}.

Definition set_orders (f : gmap ObjectId Order.t -> gmap ObjectId Order.t)
    (st : Store) : Store :=
  mkStore (f (orders st)) (payments st) (refunds st).

Definition set_payments
    (f : gmap ObjectId Payment.t -> gmap ObjectId Payment.t)
    (st : Store) : Store :=
  mkStore (orders st) (f (payments st)) (refunds st).

Definition set_refunds (f : gmap ObjectId Refund.t -> gmap ObjectId Refund.t)
    (st : Store) : Store :=
  mkStore (orders st) (payments st) (f (refunds st)).

(** A computation inside a handler's [try]: it may write to the store and
    then either gives a value or throws; what was written stays written. *)
Definition M (A : Type) : Type := Store -> Store * result A.

Definition ret {A} (a : A) : M A := fun st => (st, Ok a).

Definition bind {A B} (m : M A) (k : A -> M B) : M B :=
  fun st =>
    match m st with
    | (st', Ok a) => k a st'
    | (st', Throw e) => (st', Throw e)
    end.

(** A pure step that may throw. *)
Definition lift {A} (r : result A) : M A := fun st => (st, r).

Declare Scope handler_scope.
Delimit Scope handler_scope with handler.
Notation "x <- m ;; k" := (bind m (fun x => k))
  (at level 100, m at next level, right associativity) : handler_scope.

(** ** HTTP responses *)

Inductive payload : Type :=
| NoPayload
| ErrorPayload (e : exn)                          (** [error: err.message] *)
| PaymentPayload (p : doc Payment.t)              (** [payment: ...] *)
| RefundPayload (r : doc Refund.t)                (** [request: ...] *)
| PopulatedRefundPayload (r : doc Refund.t) (o : option (doc Order.t)).
                                                  (** [refundRequest] *)

Record Response : Type := mkResponse {
  code : Z;
  msg : string;
  data : payload
}.

(** [res.status(c).json({ msg })]. *)
Definition respond (c : Z) (m : string) : Response := mkResponse c m NoPayload.

(** A handler: the [try] block, and the [catch] that answers for it. *)
Definition handler (try : M Response) (catch : exn -> Response)
    (st : Store) : Store * Response :=
  match try st with
  | (st', Ok r) => (st', r)
  | (st', Throw e) => (st', catch e)
  end.

(** The error kinds of the specification, as the status codes the handlers
    send for them. *)
Definition InvalidArgument : Z := 400.
Definition NotFound : Z := 404.
Definition Conflict : Z := 409.
Definition ServerError : Z := 500.

(** ** Request bodies *)

(** [req.body] of [POST /refundRequests]. *)
Module RefundReq.
Record t : Type := mk {
  orderId : jsval;
  clientEmail : jsval;
  clientName : jsval;
  amount : jsval;
  reason : jsval
}.
End RefundReq.

(** [req.body] of [PATCH /updateRefund/:id]. *)
Module RefundReview.
Record t : Type := mk {
  status : jsval;
  adminRemarks : jsval
}.
End RefundReview.

(** [req.body] of [POST /createPayment] and of [PATCH /updatePayment/:id]:
    the properties that are paths of the Payment schema (strict mode drops
    the others). [PATCH /updatePayment/:id] hands its body to
    [findByIdAndUpdate] as it is: a body of this type names paths only,
    which Mongoose turns into a [$set]; a body that has an update operator
    ([$inc], [$max], ...) among its keys is not of this type. *)
Module PaymentReq.
Record t : Type := mk {
  orderId : jsval;
  clientName : jsval;
  clientEmail : jsval;
  amount : jsval;
  paymentMethod : jsval;
  transactionId : jsval;
  screenshotUrl : jsval;
  remarks : jsval;
  status : jsval
}.

(** [{ ...body, status: status || "Pending" }], the object the handler
    hands to [Payment.create]. *)
Definition with_status (s : jsval) (b : t) : t :=
  mk (orderId b) (clientName b) (clientEmail b) (amount b)
     (paymentMethod b) (transactionId b) (screenshotUrl b) (remarks b) s.
End PaymentReq.

(** ** Model operations (Mongoose) *)

Section Models.
Context `{Runtime}.

Local Open Scope result_scope.

(** *** Order *)

(** [Order.findById(id)] for an id that is already an ObjectId. *)
Definition Order_findById_oid (i : ObjectId) : M (option (doc Order.t)) :=
  fun st => (st, Ok (pair i <$> orders st !! i)).

(** [Order.findById(v)] for a value of the request: the filter is cast
    first, and a value that is no ObjectId rejects with a [CastError]. *)
Definition Order_findById (v : jsval) : M (option (doc Order.t)) :=
  fun st =>
    match castObjectId v with
    | Throw e => (st, Throw e)
    | Ok None => (st, Ok None)
    | Ok (Some i) => (st, Ok (pair i <$> orders st !! i))
    end.

(** [order.status = s] on a document in hand. *)
Definition Order_set_status (s : string) (o : doc Order.t) : doc Order.t :=
  (_id o, Order.set_status s (fields o)).

(** [order.save()]: validates the document, then writes it. *)
Definition Order_save (o : doc Order.t) : M unit :=
  fun st =>
    if Order.validate (fields o)
    then (set_orders (insert (_id o) (fields o)) st, Ok tt)
    else (st, Throw ValidationError).

(** [Order.findByIdAndUpdate(id, { status: s })], no options: no
    validator runs, the path is set as given, and the document as it was
    before the update (or [null]) is the result. [i] is the cast id,
    [None] for [null]. *)
Definition Order_findByIdAndUpdate_status (i : option ObjectId)
    (s : string) : M (option (doc Order.t)) :=
  fun st =>
    match i with
    | None => (st, Ok None)
    | Some i =>
        match orders st !! i with
        | Some o =>
            (set_orders (insert i (Order.set_status s o)) st,
             Ok (Some (i, o)))
        | None => (st, Ok None)
        end
    end.

(** *** Payment *)

(** The two unique indexes of the collection, [transactionId_1] (from
    [unique: true] on the path) and [transactionId_1_paymentMethod_1]
    (from [PaymentSchema.index]): does writing [(txn, method)] into the
    document [self] collide with another document? *)
Definition Payment_unique_conflict (ps : gmap ObjectId Payment.t)
    (self : ObjectId) (txn method : string) : bool :=
  existsb
    (fun ip : ObjectId * Payment.t =>
       negb (N.eqb (fst ip) self)
       && (String.eqb (Payment.transactionId (snd ip)) txn
           || (String.eqb (Payment.transactionId (snd ip)) txn
               && String.eqb (Payment.paymentMethod (snd ip)) method)))
    (map_to_list ps).

Definition Payment_cast_orderId (v : jsval) : result ObjectId :=
  o <- castObjectId v ;; required_value o.

Definition Payment_cast_clientName (v : jsval) : result string :=
  required_string (set_trim (castString v)).

Definition Payment_cast_clientEmail (v : jsval) : result string :=
  e <- required_string (set_trim (set_lowercase (castString v))) ;;
  _ <- check (match_ok (RegExp.test paymentEmailRe) e) ;;
  Ok e.

Definition Payment_cast_amount (v : jsval) : result Z :=
  a <- castNumber v ;;
  a <- required_value a ;;
  _ <- check (0 <=? a) ;;
  Ok a.

Definition Payment_cast_paymentMethod (v : jsval) : result string :=
  m <- required_string (set_trim (castString v)) ;;
  _ <- check (enum_ok Payment.paymentMethod_enum (Some m)) ;;
  Ok m.

Definition Payment_cast_transactionId (v : jsval) : result string :=
  required_string (set_trim (castString v)).

Definition Payment_cast_screenshotUrl (v : jsval) : result (option string) :=
  Ok (set_trim (castString v)).

Definition Payment_cast_remarks (v : jsval) : result (option string) :=
  Ok (set_trim (castString v)).

Definition Payment_cast_status (v : jsval) : result (option string) :=
  let s := castString v in
  _ <- check (enum_ok Payment.status_enum s) ;;
  Ok s.

(** [new Payment(b)] followed by [validate()]: casts, setters, defaults
    (for [undefined] only) and validators, path by path. *)
Definition Payment_document (b : PaymentReq.t) : result Payment.t :=
  as_validation (
    oid <- Payment_cast_orderId (PaymentReq.orderId b) ;;
    cn <- Payment_cast_clientName (PaymentReq.clientName b) ;;
    ce <- Payment_cast_clientEmail (PaymentReq.clientEmail b) ;;
    am <- Payment_cast_amount (PaymentReq.amount b) ;;
    pm <- Payment_cast_paymentMethod (PaymentReq.paymentMethod b) ;;
    tx <- Payment_cast_transactionId (PaymentReq.transactionId b) ;;
    ss <- Payment_cast_screenshotUrl (PaymentReq.screenshotUrl b) ;;
    rm <- match PaymentReq.remarks b with
          | JUndefined => Ok (Some Payment.remarks_default)
          | v => Payment_cast_remarks v
          end ;;
    s <- match PaymentReq.status b with
         | JUndefined => Ok (Some Payment.status_default)
         | v => Payment_cast_status v
         end ;;
    Ok (Payment.mk oid cn ce am pm tx ss rm s)).

(** [Payment.create(b)]: the document gets a fresh [_id], is validated,
    and is inserted unless a unique index refuses it. *)
Definition Payment_create (b : PaymentReq.t) : M (doc Payment.t) :=
  fun st =>
    let i := fresh (dom (payments st)) in
    match Payment_document b with
    | Throw e => (st, Throw e)
    | Ok p =>
        if Payment_unique_conflict (payments st) i
             (Payment.transactionId p) (Payment.paymentMethod p)
        then (st, Throw DuplicateKey)
        else (set_payments (insert i p) st, Ok (i, p))
    end.

(** One path of an update document: absent ([undefined]) is no part of
    the update, anything else is cast and validated like on [create]
    ([runValidators: true]). *)
Definition patch {A} (cast : jsval -> result A) (v : jsval)
    : result (option A) :=
  match v with
  | JUndefined => Ok None
  | _ => a <- cast v ;; Ok (Some a)
  end.

(** The update document [u], which names paths only (a [$set]), cast and
    validated: what it does to a stored document. It is cast before the
    query is sent, whether or not a document matches. *)
Definition Payment_castUpdate (u : PaymentReq.t)
    : result (Payment.t -> Payment.t) :=
  oid <- patch Payment_cast_orderId (PaymentReq.orderId u) ;;
  cn <- patch Payment_cast_clientName (PaymentReq.clientName u) ;;
  ce <- patch Payment_cast_clientEmail (PaymentReq.clientEmail u) ;;
  am <- patch Payment_cast_amount (PaymentReq.amount u) ;;
  pm <- patch Payment_cast_paymentMethod (PaymentReq.paymentMethod u) ;;
  tx <- patch Payment_cast_transactionId (PaymentReq.transactionId u) ;;
  ss <- patch Payment_cast_screenshotUrl (PaymentReq.screenshotUrl u) ;;
  rm <- patch Payment_cast_remarks (PaymentReq.remarks u) ;;
  s <- patch Payment_cast_status (PaymentReq.status u) ;;
  Ok (fun p =>
        Payment.mk
          (default (Payment.orderId p) oid)
          (default (Payment.clientName p) cn)
          (default (Payment.clientEmail p) ce)
          (default (Payment.amount p) am)
          (default (Payment.paymentMethod p) pm)
          (default (Payment.transactionId p) tx)
          (default (Payment.screenshotUrl p) ss)
          (default (Payment.remarks p) rm)
          (default (Payment.status p) s)).

(** [Payment.findByIdAndUpdate(id, u, { new: true, runValidators: true })]:
    the updated document, or [null] when no document has this id. The
    unique indexes are consulted when the update moves the document's
    index keys. *)
Definition Payment_findByIdAndUpdate (id : string) (u : PaymentReq.t)
    : M (option (doc Payment.t)) :=
  fun st =>
    match ObjectId_ofString id with
    | None => (st, Throw CastError)
    | Some i =>
        match Payment_castUpdate u with
        | Throw e => (st, Throw e)
        | Ok f =>
            match payments st !! i with
            | None => (st, Ok None)
            | Some p =>
                let p' := f p in
                let moved :=
                  negb (String.eqb (Payment.transactionId p')
                          (Payment.transactionId p)
                        && String.eqb (Payment.paymentMethod p')
                             (Payment.paymentMethod p)) in
                if moved
                   && Payment_unique_conflict (payments st) i
                        (Payment.transactionId p') (Payment.paymentMethod p')
                then (st, Throw DuplicateKey)
                else (set_payments (insert i p') st, Ok (Some (i, p')))
            end
        end
    end.

(** *** Refund *)

(** [new Refund({ userId, orderId, clientEmail, clientName, amount,
    reason, status })] followed by [validate()]. *)
Definition Refund_cast_amount (v : jsval) : result Z :=
  a <- castNumber v ;; required_value a.

Definition Refund_document
    (userId orderId clientEmail clientName amount reason status : jsval)
    : result Refund.t :=
  as_validation (
    uid <- (u <- castObjectId userId ;; required_value u) ;;
    oid <- (o <- castObjectId orderId ;; required_value o) ;;
    cn <- required_string (castString clientName) ;;
    ce <- required_string (castString clientEmail) ;;
    am <- Refund_cast_amount amount ;;
    rs <- required_string (castString reason) ;;
    s <- match status with
         | JUndefined => Ok (Some "Pending"%string)
         | v => let s := castString v in
                _ <- check (enum_ok Refund.status_enum s) ;; Ok s
         end ;;
    Ok (Refund.mk uid oid cn ce am rs s
          (Some Refund.adminRemarks_default))).

(** [Refund.create({...})]. *)
Definition Refund_create
    (userId orderId clientEmail clientName amount reason status : jsval)
    : M (doc Refund.t) :=
  fun st =>
    let i := fresh (dom (refunds st)) in
    match Refund_document userId orderId clientEmail clientName amount
            reason status with
    | Throw e => (st, Throw e)
    | Ok r => (set_refunds (insert i r) st, Ok (i, r))
    end.

(** The update [{ status, adminRemarks }], cast and validated. *)
Definition Refund_castUpdate (u : RefundReview.t)
    : result (Refund.t -> Refund.t) :=
  s <- patch (fun v => let s := castString v in
                       _ <- check (enum_ok Refund.status_enum s) ;; Ok s)
         (RefundReview.status u) ;;
  ar <- patch (fun v => Ok (castString v)) (RefundReview.adminRemarks u) ;;
  Ok (fun r =>
        Refund.mk (Refund.userId r) (Refund.orderId r)
          (Refund.clientName r) (Refund.clientEmail r) (Refund.amount r)
          (Refund.reason r)
          (default (Refund.status r) s)
          (default (Refund.adminRemarks r) ar)).

(** [Refund.findByIdAndUpdate(id, { status, adminRemarks },
    { new: true, runValidators: true })]. *)
Definition Refund_findByIdAndUpdate (id : string) (u : RefundReview.t)
    : M (option (doc Refund.t)) :=
  fun st =>
    match ObjectId_ofString id with
    | None => (st, Throw CastError)
    | Some i =>
        match Refund_castUpdate u with
        | Throw e => (st, Throw e)
        | Ok f =>
            match refunds st !! i with
            | None => (st, Ok None)
            | Some r =>
                (set_refunds (insert i (f r)) st, Ok (Some (i, f r)))
            end
        end
    end.

(** [.populate("orderId")]: the referenced Order document in place of
    its id, [null] when there is none. *)
Definition populate_orderId (r : doc Refund.t)
    : M (option (doc Order.t)) :=
  Order_findById_oid (Refund.orderId (fields r)).
End Models.

(** ** Route handlers (routes/auth.js) *)

Section Routes.
Context `{Runtime}.

Local Open Scope handler_scope.

(** The refund mails interpolate [refundRequest.orderId._id], where
    [orderId] is the populated Order or [null]. *)
Definition refund_mail_template (o : option (doc Order.t))
    : result unit :=
  match o with
  | Some _ => Ok tt
  | None => Throw TypeError
  end.

(** [POST /refundRequests] *)
Definition refundRequests (b : RefundReq.t) : Store -> Store * Response :=
  handler
    (if negb (truthy (RefundReq.orderId b))
        || negb (truthy (RefundReq.clientEmail b))
        || negb (truthy (RefundReq.clientName b))
        || negb (truthy (RefundReq.amount b))
        || negb (truthy (RefundReq.reason b))
     then ret (respond 400 "All refund request fields are required.")
     else
       order <- Order_findById (RefundReq.orderId b) ;;
       match order with
       | None => ret (respond 404 "Order not found.")
       | Some order =>
           if String.eqb (Order.status (fields order)) "Refunded"
           then ret (respond 409 "This order has already been refunded.")
           else
             newRefundRequest <-
               Refund_create (Order.userId (fields order))
                 (RefundReq.orderId b)
                 (RefundReq.clientEmail b) (RefundReq.clientName b)
                 (RefundReq.amount b) (RefundReq.reason b)
                 (JStr "Pending") ;;
             i <- lift (castObjectId (RefundReq.orderId b)) ;;
             _ <- Order_findByIdAndUpdate_status i "Refund Pending" ;;
             ret (mkResponse 201
                    "Refund request submitted successfully! We will review it shortly."
                    (RefundPayload newRefundRequest))
       end)
    (fun err =>
       mkResponse 500 "Server error during refund request"
         (ErrorPayload err)).

(** [PATCH /updateRefund/:id] *)
Definition updateRefund (id : string) (b : RefundReview.t)
    : Store -> Store * Response :=
  handler
    (if negb (ObjectId_isValid id)
     then ret (respond 400 "Invalid refund ID format.")
     else if negb (includes ["Approved"; "Rejected"] (RefundReview.status b))
     then ret (respond 400
                 "Invalid status provided. Must be 'Approved' or 'Rejected'.")
     else
       found <- Refund_findByIdAndUpdate id b ;;
       match found with
       | None => ret (respond 404 "Refund request not found.")
       | Some refundRequest =>
           order <- populate_orderId refundRequest ;;
           _ <- (if is_str (RefundReview.status b) "Approved" then
                   _ <- Order_findByIdAndUpdate_status
                          (_id <$> order) "Refunded" ;;
                   lift (refund_mail_template order)
                 else if is_str (RefundReview.status b) "Rejected" then
                   _ <- Order_findByIdAndUpdate_status
                          (_id <$> order) "Refund Rejected" ;;
                   lift (refund_mail_template order)
                 else ret tt) ;;
           ret (mkResponse 200
                  ("Refund request updated to "
                   ++ default "" (castString (RefundReview.status b)))
                  (PopulatedRefundPayload refundRequest order))
       end)
    (fun err =>
       mkResponse 500 "Server error updating refund request"
         (ErrorPayload err)).

(** [amount === undefined] *)
Definition is_undefined (v : jsval) : bool :=
  match v with
  | JUndefined => true
  | _ => false
  end.

(** [POST /createPayment] *)
Definition createPayment (b : PaymentReq.t) : Store -> Store * Response :=
  handler
    (if negb (truthy (PaymentReq.orderId b))
        || negb (truthy (PaymentReq.clientName b))
        || negb (truthy (PaymentReq.clientEmail b))
        || is_undefined (PaymentReq.amount b)
        || negb (truthy (PaymentReq.paymentMethod b))
        || negb (truthy (PaymentReq.transactionId b))
     then ret (respond 400 "Missing one or more required payment fields.")
     else
       newPayment <-
         Payment_create
           (PaymentReq.with_status
              (js_or (PaymentReq.status b) (JStr "Pending")) b) ;;
       orderToUpdate <- Order_findById (PaymentReq.orderId b) ;;
       _ <- match orderToUpdate with
            | Some orderToUpdate =>
                Order_save (Order_set_status "Payment Pending" orderToUpdate)
            | None => ret tt
            end ;;
       ret (mkResponse 201 "Payment record created successfully"
              (PaymentPayload newPayment)))
    (fun err =>
       if is_code_11000 err
       then mkResponse 409
              "A payment with this transaction ID already exists for this method."
              (ErrorPayload err)
       else mkResponse 500 "Server error during payment creation"
              (ErrorPayload err)).

(** The test that guards the transition to [In Progress]. *)
Definition may_start (s : string) : bool :=
  negb (String.eqb s "Completed")
  && negb (String.eqb s "Cancelled")
  && negb (String.eqb s "Refunded")
  && negb (String.eqb s "Failed")
  && negb (String.eqb s "In Progress").

(** [updatedPayment.status === "Approved"] *)
Definition is_approved (p : doc Payment.t) : bool :=
  match Payment.status (fields p) with
  | Some s => String.eqb s "Approved"
  | None => false
  end.

(** [PATCH /updatePayment/:id] *)
Definition updatePayment (id : string) (updates : PaymentReq.t)
    : Store -> Store * Response :=
  handler
    (if negb (ObjectId_isValid id)
     then ret (respond 400 "Invalid payment ID format.")
     else
       found <- Payment_findByIdAndUpdate id updates ;;
       match found with
       | None => ret (respond 404 "Payment not found.")
       | Some updatedPayment =>
           _ <- (if is_approved updatedPayment then
                   orderToUpdate <-
                     Order_findById_oid
                       (Payment.orderId (fields updatedPayment)) ;;
                   match orderToUpdate with
                   | Some orderToUpdate =>
                       if may_start (Order.status (fields orderToUpdate))
                       then Order_save
                              (Order_set_status "In Progress" orderToUpdate)
                       else ret tt
                   | None => ret tt
                   end
                 else ret tt) ;;
           ret (mkResponse 200 "Payment updated successfully"
                  (PaymentPayload updatedPayment))
       end)
    (fun err =>
       mkResponse 500 "Server error updating payment" (ErrorPayload err)).
End Routes.

(** ** Order routes (routes/auth.js) *)

(** [req.body] of [POST /createOrder] and of [PATCH /updateOrder/:id]: the
    properties that are paths of the Order schema. [PATCH /updateOrder/:id]
    hands its body to [findByIdAndUpdate] as it is: a body of this type
    names paths only, which Mongoose turns into a [$set]; a body that has
    an update operator ([$inc], [$max], ...) among its keys is not of this
    type, and the update validators do not run on such operators. *)
Module OrderReq.
Record t : Type := mk {
  name : jsval;
  email : jsval;
  phoneNumber : jsval;
  postLink : jsval;
  profileLink : jsval;
  requiredFollowers : jsval;
  platform : jsval;
  socialId : jsval;
  service : jsval;
  price : jsval;
  status : jsval
}.

(** [{ ...body, status: s }] *)
Definition with_status (s : jsval) (b : t) : t :=
  mk (name b) (email b) (phoneNumber b) (postLink b) (profileLink b)
     (requiredFollowers b) (platform b) (socialId b) (service b) (price b) s.
End OrderReq.

(** The answer of a route that sends a document (or none) with its
    message. *)
Record Reply (A : Type) : Type := mkReply {
  reply_code : Z;
  reply_msg : string;
  reply_doc : option A
}.
Arguments mkReply {A} _ _ _.
Arguments reply_code {A} _.
Arguments reply_msg {A} _.
Arguments reply_doc {A} _.

(** A handler that answers with a [Reply]. *)
Definition handler_of {R : Type} (try : M R) (catch : exn -> R)
    (st : Store) : Store * R :=
  match try st with
  | (st', Ok r) => (st', r)
  | (st', Throw e) => (st', catch e)
  end.

(** [err.name === "ValidationError"] *)
Definition is_ValidationError (e : exn) : bool :=
  match e with
  | ValidationError => true
  | _ => false
  end.

Section OrderRoutes.
Context `{Runtime}.

Local Open Scope result_scope.

(** [isNaN(v)]: [Number(v)] is [NaN]. [Number] of [null], of a boolean and
    of the empty string is a number; of [undefined] it is [NaN]. *)
Definition js_isNaN (v : jsval) : bool :=
  match v with
  | JUndefined => true
  | JNull | JBool _ | JNum _ => false
  | JStr s =>
      if String.eqb s "" then false
      else match Number_ofString s with
           | Some _ => false
           | None => true
           end
  end.

Definition Order_cast_name (v : jsval) : result string :=
  required_string (set_trim (castString v)).

Definition Order_cast_email (v : jsval) : result string :=
  e <- required_string (set_trim (set_lowercase (castString v))) ;;
  _ <- check (match_ok (RegExp.test orderEmailRe) e) ;;
  Ok e.

Definition Order_cast_phoneNumber (v : jsval) : result string :=
  required_string (set_trim (castString v)).

Definition Order_cast_postLink (v : jsval) : result (option string) :=
  Ok (set_trim (castString v)).

Definition Order_cast_profileLink (v : jsval) : result string :=
  required_string (set_trim (castString v)).

Definition Order_cast_requiredFollowers (v : jsval) : result Z :=
  n <- castNumber v ;;
  n <- required_value n ;;
  _ <- check (1 <=? n) ;;
  Ok n.

Definition Order_cast_platform (v : jsval) : result string :=
  p <- required_string (set_trim (castString v)) ;;
  _ <- check (enum_ok Order.platform_enum (Some p)) ;;
  Ok p.

Definition Order_cast_socialId (v : jsval) : result (option string) :=
  Ok (set_trim (castString v)).

Definition Order_cast_service (v : jsval) : result string :=
  s <- required_string (set_trim (castString v)) ;;
  _ <- check (enum_ok Order.service_enum (Some s)) ;;
  Ok s.

Definition Order_cast_price (v : jsval) : result Z :=
  n <- castNumber v ;;
  n <- required_value n ;;
  _ <- check (0 <=? n) ;;
  Ok n.

Definition Order_cast_status (v : jsval) : result string :=
  s <- required_string (castString v) ;;
  _ <- check (enum_ok Order.status_enum (Some s)) ;;
  Ok s.

(** [new Order(b)] followed by [validate()]. [postLink] and [socialId]
    default to the empty string, [status] to [Pending]. *)
Definition Order_document (b : OrderReq.t) : result Order.t :=
  as_validation (
    nm <- Order_cast_name (OrderReq.name b) ;;
    em <- Order_cast_email (OrderReq.email b) ;;
    ph <- Order_cast_phoneNumber (OrderReq.phoneNumber b) ;;
    pl <- match OrderReq.postLink b with
          | JUndefined => Ok (Some ""%string)
          | v => Order_cast_postLink v
          end ;;
    pf <- Order_cast_profileLink (OrderReq.profileLink b) ;;
    rf <- Order_cast_requiredFollowers (OrderReq.requiredFollowers b) ;;
    pt <- Order_cast_platform (OrderReq.platform b) ;;
    si <- match OrderReq.socialId b with
          | JUndefined => Ok (Some ""%string)
          | v => Order_cast_socialId v
          end ;;
    sv <- Order_cast_service (OrderReq.service b) ;;
    pr <- Order_cast_price (OrderReq.price b) ;;
    s <- match OrderReq.status b with
         | JUndefined => Ok "Pending"%string
         | v => Order_cast_status v
         end ;;
    Ok (Order.mk nm em ph pl pf rf pt si sv pr s)).

(** [Order.create(b)]: no unique index besides [_id]. *)
Definition Order_create (b : OrderReq.t) : M (doc Order.t) :=
  fun st =>
    let i := fresh (dom (orders st)) in
    match Order_document b with
    | Throw e => (st, Throw e)
    | Ok o => (set_orders (insert i o) st, Ok (i, o))
    end.

(** The update document [u], which names paths only (a [$set]), cast and
    validated ([runValidators: true]). *)
Definition Order_castUpdate (u : OrderReq.t) : result (Order.t -> Order.t) :=
  nm <- patch Order_cast_name (OrderReq.name u) ;;
  em <- patch Order_cast_email (OrderReq.email u) ;;
  ph <- patch Order_cast_phoneNumber (OrderReq.phoneNumber u) ;;
  pl <- patch Order_cast_postLink (OrderReq.postLink u) ;;
  pf <- patch Order_cast_profileLink (OrderReq.profileLink u) ;;
  rf <- patch Order_cast_requiredFollowers (OrderReq.requiredFollowers u) ;;
  pt <- patch Order_cast_platform (OrderReq.platform u) ;;
  si <- patch Order_cast_socialId (OrderReq.socialId u) ;;
  sv <- patch Order_cast_service (OrderReq.service u) ;;
  pr <- patch Order_cast_price (OrderReq.price u) ;;
  s <- patch Order_cast_status (OrderReq.status u) ;;
  Ok (fun o =>
        Order.mk
          (default (Order.name o) nm)
          (default (Order.email o) em)
          (default (Order.phoneNumber o) ph)
          (default (Order.postLink o) pl)
          (default (Order.profileLink o) pf)
          (default (Order.requiredFollowers o) rf)
          (default (Order.platform o) pt)
          (default (Order.socialId o) si)
          (default (Order.service o) sv)
          (default (Order.price o) pr)
          (default (Order.status o) s)).

(** [Order.findByIdAndUpdate(id, u, { new: true, runValidators: true })] *)
Definition Order_findByIdAndUpdate (id : string) (u : OrderReq.t)
    : M (option (doc Order.t)) :=
  fun st =>
    match ObjectId_ofString id with
    | None => (st, Throw CastError)
    | Some i =>
        match Order_castUpdate u with
        | Throw e => (st, Throw e)
        | Ok f =>
            match orders st !! i with
            | None => (st, Ok None)
            | Some o => (set_orders (insert i (f o)) st, Ok (Some (i, f o)))
            end
        end
    end.

(** [Order.findByIdAndDelete(id)] *)
Definition Order_findByIdAndDelete (id : string) : M (option (doc Order.t)) :=
  fun st =>
    match ObjectId_ofString id with
    | None => (st, Throw CastError)
    | Some i =>
        match orders st !! i with
        | None => (st, Ok None)
        | Some o => (set_orders (delete i) st, Ok (Some (i, o)))
        end
    end.

Local Open Scope handler_scope.

(** [POST /createOrder] *)
Definition createOrder (b : OrderReq.t)
    : Store -> Store * Reply (doc Order.t) :=
  handler_of
    (if negb (truthy (OrderReq.name b))
        || negb (truthy (OrderReq.email b))
        || negb (truthy (OrderReq.phoneNumber b))
        || negb (truthy (OrderReq.profileLink b))
        || is_undefined (OrderReq.requiredFollowers b)
        || negb (truthy (OrderReq.platform b))
        || negb (truthy (OrderReq.service b))
        || is_undefined (OrderReq.price b)
     then ret (mkReply 400 "Missing one or more required order fields." None)
     else if js_isNaN (OrderReq.price b)
             || js_isNaN (OrderReq.requiredFollowers b)
     then ret (mkReply 400
                 "Price and Required Followers must be valid numbers." None)
     else
       newOrder <- Order_create (OrderReq.with_status (JStr "Pending") b) ;;
       ret (mkReply 201 "Order placed successfully" (Some newOrder)))
    (fun err =>
       if is_ValidationError err
       then mkReply 400 "Validation failed for order creation." None
       else if is_code_11000 err
       then mkReply 409
              "Duplicate entry detected. This order might already exist." None
       else mkReply 500
              "An unexpected server error occurred during order creation. Please try again later."
              None).

(** [GET /getOrder/:id] *)
Definition getOrder (id : string) : Store -> Store * Reply (doc Order.t) :=
  fun st =>
    if negb (ObjectId_isValid id)
    then (st, mkReply 400 "Invalid order ID format." None)
    else
      handler_of
        (order <- Order_findById (JStr id) ;;
         match order with
         | None => ret (mkReply 404 "Order not found." None)
         | Some order => ret (mkReply 200 "" (Some order))
         end)
        (fun err => mkReply 500 "Server error fetching order by ID" None)
        st.

(** [DELETE /deleteOrder/:id] *)
Definition deleteOrder (id : string)
    : Store -> Store * Reply (doc Order.t) :=
  handler_of
    (if negb (ObjectId_isValid id)
     then ret (mkReply 400 "Invalid order ID format." None)
     else
       order <- Order_findById (JStr id) ;;
       match order with
       | None => ret (mkReply 404 "Order not found." None)
       | Some _ =>
           _ <- Order_findByIdAndDelete id ;;
           ret (mkReply 200 "Order deleted successfully." None)
       end)
    (fun err => mkReply 500 "Server error deleting order" None).

(** [PATCH /updateOrder/:id] *)
Definition updateOrder (id : string) (updates : OrderReq.t)
    : Store -> Store * Reply (doc Order.t) :=
  handler_of
    (if negb (ObjectId_isValid id)
     then ret (mkReply 400 "Invalid order ID format." None)
     else
       updatedOrder <- Order_findByIdAndUpdate id updates ;;
       match updatedOrder with
       | None => ret (mkReply 404 "Order not found." None)
       | Some updatedOrder =>
           ret (mkReply 200 "Order updated successfully" (Some updatedOrder))
       end)
    (fun err => mkReply 500 "Server error updating order" None).
End OrderRoutes.

(** ** Blog posts (models/BlogPost.js, routes/auth.js) *)

Module BlogPost.
Record t : Type := mk {
  title : string;
  content : string;
  author : option string;
  snippet : option string;
  imageUrl : option string
}.

Definition author_default : string := "Admin".
Definition imageUrl_default : string := "".

(** [content.substring(0, 150) + (content.length > 150 ? "..." : "")], the
    right-hand side of the assignment of the hook, a string being the
    sequence of its code units. *)
Definition generated_snippet (content : string) : string :=
  String.substring 0 150 content
  ++ (if (150 <? String.length content)%nat then "..." else "").

(** The [pre("save")] hook: a post without snippet gets one from its
    content. The assignment [this.snippet = ...] goes through the setter of
    the path ([trim: true]); the hook runs after validation, so no
    validator sees the value it assigns. *)
Definition pre_save `{Runtime} (p : t) : t :=
  let no_snippet :=
    match snippet p with
    | Some s => String.eqb s ""
    | None => true
    end in
  if no_snippet && negb (String.eqb (content p) "")
  then mk (title p) (content p) (author p)
         (set_trim (Some (generated_snippet (content p)))) (imageUrl p)
  else p.
End BlogPost.

(** [req.body] of [POST /blogPosts]. *)
Module BlogReq.
Record t : Type := mk {
  title : jsval;
  content : jsval;
  author : jsval;
  snippet : jsval;
  imageUrl : jsval
}.

(** [{ ...body, author: a }] *)
Definition with_author (a : jsval) (b : t) : t :=
  mk (title b) (content b) a (snippet b) (imageUrl b).
End BlogReq.

Section BlogRoutes.
Context `{Runtime}.

Local Open Scope result_scope.

(** [maxlength: 300]: the validator lets [null] through. *)
Definition maxlength_ok (n : nat) (v : option string) : bool :=
  match v with
  | Some s => (String.length s <=? n)%nat
  | None => true
  end.

Definition BlogPost_cast_snippet (v : jsval) : result (option string) :=
  let s := set_trim (castString v) in
  _ <- check (maxlength_ok 300 s) ;; Ok s.

(** [new BlogPost(b)] followed by [validate()]. *)
Definition BlogPost_document (b : BlogReq.t) : result BlogPost.t :=
  as_validation (
    ti <- required_string (set_trim (castString (BlogReq.title b))) ;;
    co <- required_string (castString (BlogReq.content b)) ;;
    au <- match BlogReq.author b with
          | JUndefined => Ok (Some BlogPost.author_default)
          | v => Ok (set_trim (castString v))
          end ;;
    sn <- BlogPost_cast_snippet (BlogReq.snippet b) ;;
    im <- match BlogReq.imageUrl b with
          | JUndefined => Ok (Some BlogPost.imageUrl_default)
          | v => Ok (set_trim (castString v))
          end ;;
    Ok (BlogPost.mk ti co au sn im)).

(** The unique index on [title]. *)
Definition BlogPost_title_taken (posts : gmap ObjectId BlogPost.t)
    (title : string) : bool :=
  existsb (fun ip : ObjectId * BlogPost.t =>
             String.eqb (BlogPost.title (snd ip)) title)
    (map_to_list posts).

(** [BlogPost.create(b)]: validation, then the [pre("save")] hook, then
    the insertion, which the unique index on [title] can refuse. *)
Definition BlogPost_create (b : BlogReq.t) (posts : gmap ObjectId BlogPost.t)
    : gmap ObjectId BlogPost.t * result (doc BlogPost.t) :=
  let i := fresh (dom posts) in
  match BlogPost_document b with
  | Throw e => (posts, Throw e)
  | Ok p =>
      let p := BlogPost.pre_save p in
      if BlogPost_title_taken posts (BlogPost.title p)
      then (posts, Throw DuplicateKey)
      else (<[i := p]> posts, Ok (i, p))
  end.

(** [POST /blogPosts] *)
Definition createBlogPost (b : BlogReq.t) (posts : gmap ObjectId BlogPost.t)
    : gmap ObjectId BlogPost.t * Reply (doc BlogPost.t) :=
  if negb (truthy (BlogReq.title b)) || negb (truthy (BlogReq.content b))
  then (posts,
        mkReply 400 "Title and content are required for a blog post." None)
  else
    match BlogPost_create
            (BlogReq.with_author (js_or (BlogReq.author b) (JStr "Admin")) b)
            posts with
    | (posts', Ok newPost) =>
        (posts', mkReply 201 "Blog post created successfully" (Some newPost))
    | (posts', Throw err) =>
        if is_code_11000 err
        then (posts',
              mkReply 409 "A blog post with this title already exists." None)
        else (posts', mkReply 500 "Server error creating blog post." None)
    end.

(** [GET /blogPosts/:id] *)
Definition getBlogPost (id : string) (posts : gmap ObjectId BlogPost.t)
    : Reply (doc BlogPost.t) :=
  if negb (ObjectId_isValid id)
  then mkReply 400 "Invalid blog post ID format." None
  else
    match ObjectId_ofString id with
    | None => mkReply 500 "Server error fetching blog post." None
    | Some i =>
        match posts !! i with
        | None => mkReply 404 "Blog post not found." None
        | Some post => mkReply 200 "" (Some (i, post))
        end
    end.
End BlogRoutes.

(** ** A reference runtime

    A concrete [Runtime] for the worked examples. ObjectIds are written as
    24 hexadecimal digits. [Number(s)] reads the numeric literals of
    JavaScript whose value is an integer, and [String(n)] writes an integer
    in decimal digits, as JavaScript does below 10^21 for the integers a
    number holds exactly (up to 2^53). [trim] removes the blanks and line
    ends among the code units below 256, that is 9 to 13, 32 and 160;
    [toLowerCase] acts on ASCII. *)
Module Node.
Definition hex_digit (x : ascii) : option N :=
  let n := N_of_ascii x in
  if RegExp.in_range 48 57 x then Some (n - 48)%N
  else if RegExp.in_range 97 102 x then Some (n - 87)%N
  else if RegExp.in_range 65 70 x then Some (n - 55)%N
  else None.

Fixpoint hex_value (acc : N) (s : string) : option N :=
  match s with
  | EmptyString => Some acc
  | String x s' =>
      match hex_digit x with
      | Some d => hex_value (16 * acc + d)%N s'
      | None => None
      end
  end.

Definition ObjectId_ofString (s : string) : option ObjectId :=
  if Nat.eqb (String.length s) 24 then hex_value 0%N s else None.

Fixpoint dec_value (acc : Z) (s : string) : option Z :=
  match s with
  | EmptyString => Some acc
  | String x s' =>
      if RegExp.in_range 48 57 x
      then dec_value (10 * acc + (Z.of_N (N_of_ascii x) - 48)) s'
      else None
  end.


Fixpoint dec_digits (fuel : nat) (n : N) (acc : string) : string :=
  match fuel with
  | O => acc
  | S fuel =>
      let acc' := String (ascii_of_N (48 + n mod 10)%N) acc in
      if (n <? 10)%N then acc' else dec_digits fuel (n / 10)%N acc'
  end.

Definition Number_toString (n : Z) : string :=
  let digits := dec_digits (S (N.to_nat (N.log2 (Z.abs_N n))))
                  (Z.abs_N n) "" in
  if n <? 0 then String "-" digits else digits.

Definition is_space (x : ascii) : bool :=
  RegExp.in_range 9 13 x || RegExp.is_char " " x
  || RegExp.in_range 160 160 x.

Fixpoint trim_start (s : string) : string :=
  match s with
  | String x s' => if is_space x then trim_start s' else s
  | EmptyString => EmptyString
  end.

Fixpoint trim_end (s : string) : string :=
  match s with
  | String x s' =>
      match trim_end s' with
      | EmptyString => if is_space x then EmptyString else String x EmptyString
      | t => String x t
      end
  | EmptyString => EmptyString
  end.

Definition String_trim (s : string) : string := trim_end (trim_start s).

(** The digits at the head of [s], and what follows them. *)
Fixpoint span_digits (s : string) : string * string :=
  match s with
  | String x s' =>
      if RegExp.in_range 48 57 x
      then let '(d, r) := span_digits s' in (String x d, r)
      else (EmptyString, s)
  | EmptyString => (EmptyString, EmptyString)
  end.

Definition radix_digit (base : N) (x : ascii) : option N :=
  match hex_digit x with
  | Some d => if (d <? base)%N then Some d else None
  | None => None
  end.

Fixpoint radix_value (base : N) (acc : N) (s : string) : option N :=
  match s with
  | EmptyString => Some acc
  | String x s' =>
      match radix_digit base x with
      | Some d => radix_value base (base * acc + d)%N s'
      | None => None
      end
  end.

(** [0x...], [0o...], [0b...]: at least one digit. *)
Definition radix_literal (base : N) (digits : string) : option Z :=
  match digits with
  | EmptyString => None
  | _ => Z.of_N <$> radix_value base 0%N digits
  end.

(** The exponent part: nothing, or [e] or [E], an optional sign and at
    least one digit. *)
Definition exponent (s : string) : option Z :=
  match s with
  | EmptyString => Some 0
  | String e s' =>
      if RegExp.is_char "e" e || RegExp.is_char "E" e then
        match s' with
        | String "-" (String _ _ as d) => Z.opp <$> dec_value 0 d
        | String "+" (String _ _ as d) => dec_value 0 d
        | String _ _ => dec_value 0 s'
        | EmptyString => None
        end
      else None
  end.

(** An unsigned decimal literal: digits, an optional fraction, an optional
    exponent, with a digit before or after the dot. *)
Definition decimal_literal (s : string) : option Z :=
  let '(int, r1) := span_digits s in
  let '(frac, r2) :=
    match r1 with
    | String "." r => span_digits r
    | _ => (EmptyString, r1)
    end in
  if String.eqb int "" && String.eqb frac "" then None
  else
    match exponent r2 with
    | None => None
    | Some e =>
        let m := default 0 (dec_value 0 (int ++ frac)) in
        let scale := e - Z.of_nat (String.length frac) in
        if 0 <=? scale then Some (m * 10 ^ scale)
        else if m mod 10 ^ (- scale) =? 0 then Some (m / 10 ^ (- scale))
        else None
    end.

(** [Number(s)]: the blanks around the literal are dropped; the empty
    literal is 0; a literal is a hexadecimal, octal or binary integer, or
    a decimal with an optional sign. [None] is [NaN]; a literal whose value
    is not an integer, and [Infinity], have no value among the numbers of
    this model and are [None] too. *)
Definition Number_ofString (s : string) : option Z :=
  match String_trim s with
  | EmptyString => Some 0
  | String "0" (String "x" d) | String "0" (String "X" d) =>
      radix_literal 16 d
  | String "0" (String "o" d) | String "0" (String "O" d) =>
      radix_literal 8 d
  | String "0" (String "b" d) | String "0" (String "B" d) =>
      radix_literal 2 d
  | String "-" d => Z.opp <$> decimal_literal d
  | String "+" d => decimal_literal d
  | t => decimal_literal t
  end.

Definition lower (x : ascii) : ascii :=
  if RegExp.in_range 65 90 x then ascii_of_N (N_of_ascii x + 32) else x.

Fixpoint String_toLowerCase (s : string) : string :=
  match s with
  | String x s' => String (lower x) (String_toLowerCase s')
  | EmptyString => EmptyString
  end.

Definition runtime : Runtime :=
  Build_Runtime ObjectId_ofString Number_ofString Number_toString
    String_trim String_toLowerCase.
End Node.

(** ** Worked data *)
Module Sample.
#[local] Existing Instance Node.runtime.

Definition order_id : string := "64b7f3a2c1d2e3f4a5b6c701".
Definition other_id : string := "64b7f3a2c1d2e3f4a5b6c7ff".
Definition payment_id : string := "000000000000000000000000".
Definition refund_id : string := "000000000000000000000000".

Definition oid (s : string) : ObjectId := default 0%N (ObjectId_ofString s).

Definition order (s : string) : Order.t :=
  Order.mk "Ali Khan" "ali.khan@example.com" "03001234567"
    (Some "") "https://instagram.com/alikhan" 500 "Instagram" (Some "")
    "Followers" 1500 s.

Definition payment (s : string) : Payment.t :=
  Payment.mk (oid order_id) "Ali Khan"
    "ali.khan@example.com" 1500 "paypal" "T1" None
    (Some Payment.remarks_default) (Some s).

Definition refund (s : string) : Refund.t :=
  Refund.mk (oid other_id) (oid order_id) "Ali Khan"
    "ali.khan@example.com" 1500 "Service not delivered" (Some s)
    (Some Refund.adminRemarks_default).

(** A ledger with one Order in status [s] and nothing else. *)
Definition ledger (s : string) : Store :=
  mkStore {[ oid order_id := order s ]} ∅ ∅.

(** The same with a Payment (status [ps]) for the Order. *)
Definition ledger_paid (s ps : string) : Store :=
  mkStore {[ oid order_id := order s ]}
    {[ oid payment_id := payment ps ]} ∅.

(** The same with a pending Refund for the Order. *)
Definition ledger_refund (s : string) : Store :=
  mkStore {[ oid order_id := order s ]} ∅
    {[ oid refund_id := refund "Pending" ]}.

Definition payment_req_for (orderId method txn : string) (status : jsval)
    : PaymentReq.t :=
  PaymentReq.mk (JStr orderId) (JStr "Ali Khan")
    (JStr "Ali.Khan@example.com") (JNum 1500) (JStr method) (JStr txn)
    JUndefined JUndefined status.

Definition payment_req (txn : string) (status : jsval) : PaymentReq.t :=
  payment_req_for order_id "paypal" txn status.

(** The Payment documents these submissions make. *)
Definition payment_via (method : string) (s : string) : Payment.t :=
  Payment.mk (oid order_id) "Ali Khan" "ali.khan@example.com" 1500 method
    "T1" None (Some Payment.remarks_default) (Some s).

Definition refund_req (orderId : string) (amount : Z) : RefundReq.t :=
  RefundReq.mk (JStr orderId) (JStr "ali.khan@example.com")
    (JStr "Ali Khan") (JNum amount) (JStr "Service not delivered").

Definition review (status : string) : PaymentReq.t :=
  PaymentReq.mk JUndefined JUndefined JUndefined JUndefined JUndefined
    JUndefined JUndefined JUndefined (JStr status).
End Sample.

(** ** Further worked data *)
Module Cases.
#[local] Existing Instance Node.runtime.

Definition order_req (followers : Z) : OrderReq.t :=
  OrderReq.mk (JStr "Sara Malik") (JStr " Sara@Example.com ")
    (JStr "03007654321") JUndefined (JStr "https://tiktok.com/@sara")
    (JNum followers) (JStr "TikTok") JUndefined (JStr "Likes") (JNum 900)
    JUndefined.

(** The Order that [order_req 200] makes. *)
Definition sara_order (s : string) : Order.t :=
  Order.mk "Sara Malik" "sara@example.com" "03007654321" (Some "")
    "https://tiktok.com/@sara" 200 "TikTok" (Some "") "Likes" 900 s.

(** An Order that no longer passes its schema: its price is negative. *)
Definition broken_order : Order.t :=
  Order.mk "Ali Khan" "ali.khan@example.com" "03001234567" (Some "")
    "https://instagram.com/alikhan" 500 "Instagram" (Some "") "Followers"
    (-1) "Pending".

(** A ledger with one Order in status [s], a pending Payment and a pending
    Refund for it. *)
Definition ledger_full (s : string) : Store :=
  mkStore {[ Sample.oid Sample.order_id := Sample.order s ]}
    {[ Sample.oid Sample.payment_id := Sample.payment "Pending" ]}
    {[ Sample.oid Sample.refund_id := Sample.refund "Pending" ]}.

(** A ledger whose Refund and Payment reference an Order that is gone. *)
Definition ledger_orphans : Store :=
  mkStore ∅
    {[ Sample.oid Sample.payment_id := Sample.payment "Pending" ]}
    {[ Sample.oid Sample.refund_id := Sample.refund "Pending" ]}.

(** A ledger whose only Order is [broken_order]. *)
Definition ledger_broken : Store :=
  mkStore {[ Sample.oid Sample.order_id := broken_order ]} ∅ ∅.

(** The same with a pending Payment for it. *)
Definition ledger_broken_paid : Store :=
  mkStore {[ Sample.oid Sample.order_id := broken_order ]}
    {[ Sample.oid Sample.payment_id := Sample.payment "Pending" ]} ∅.

(** The same once the Payment is approved. *)
Definition ledger_broken_approved : Store :=
  mkStore {[ Sample.oid Sample.order_id := broken_order ]}
    {[ Sample.oid Sample.payment_id := Sample.payment "Approved" ]} ∅.

(** The ledger with the broken Order, a pending Payment and a pending
    Refund for it. *)
Definition ledger_broken_full : Store :=
  mkStore {[ Sample.oid Sample.order_id := broken_order ]}
    {[ Sample.oid Sample.payment_id := Sample.payment "Pending" ]}
    {[ Sample.oid Sample.refund_id := Sample.refund "Pending" ]}.

(** A payment submission for the sample Order with the given amount. *)
Definition payment_req_of (amount : Z) : PaymentReq.t :=
  PaymentReq.mk (JStr Sample.order_id) (JStr "Ali Khan")
    (JStr "Ali.Khan@example.com") (JNum amount) (JStr "paypal") (JStr "T1")
    JUndefined JUndefined JUndefined.

(** The fresh id of the first Order of an empty ledger, written out. *)
Definition first_id : string := "000000000000000000000000".

Definition empty_ledger : Store := mkStore ∅ ∅ ∅.

Definition blog_req (content : string) (snippet : jsval) : BlogReq.t :=
  BlogReq.mk (JStr " Growing on TikTok ") (JStr content) JUndefined snippet
    JUndefined.
End Cases.

(** ** Vocabulary of the statements *)

(** A property of a body counts as missing when the handlers' test [!v]
    holds of it: absent, [null], [false], [0] or the empty string. *)
Definition missing (v : jsval) : Prop := truthy v = false.
Definition present (v : jsval) : Prop := truthy v = true.

(** Some, respectively none, of the five properties of a refund submission
    is missing. *)
Definition RefundReq_incomplete (b : RefundReq.t) : Prop :=
  missing (RefundReq.orderId b) \/ missing (RefundReq.clientEmail b)
  \/ missing (RefundReq.clientName b) \/ missing (RefundReq.amount b)
  \/ missing (RefundReq.reason b).

Definition RefundReq_complete (b : RefundReq.t) : Prop :=
  present (RefundReq.orderId b) /\ present (RefundReq.clientEmail b)
  /\ present (RefundReq.clientName b) /\ present (RefundReq.amount b)
  /\ present (RefundReq.reason b).

(** No Order of the store is designated by the value [v]. *)
Definition references_no_order `{Runtime} (st : Store) (v : jsval) : Prop :=
  forall i, castObjectId v = Ok (Some i) -> orders st !! i = None.

(** The three failure cases of a refund submission, read one after the
    other as the handler tests them. The second one comes in two forms: for
    any [orderId] that designates no Order, and for an [orderId] that is a
    well-formed ObjectId designating no Order. *)
Definition refund_fails_incomplete `{Runtime} (b : RefundReq.t) (st : Store)
    : Prop :=
  RefundReq_incomplete b ->
  fst (refundRequests b st) = st
  /\ code (snd (refundRequests b st)) = InvalidArgument.

Definition refund_fails_unknown_order `{Runtime} (b : RefundReq.t)
    (st : Store) : Prop :=
  RefundReq_complete b ->
  references_no_order st (RefundReq.orderId b) ->
  fst (refundRequests b st) = st
  /\ code (snd (refundRequests b st)) = NotFound.

Definition refund_fails_unknown_wellformed_order `{Runtime}
    (b : RefundReq.t) (st : Store) : Prop :=
  RefundReq_complete b ->
  forall i, castObjectId (RefundReq.orderId b) = Ok (Some i) ->
  orders st !! i = None ->
  fst (refundRequests b st) = st
  /\ code (snd (refundRequests b st)) = NotFound.

Definition refund_fails_refunded `{Runtime} (b : RefundReq.t) (st : Store)
    : Prop :=
  RefundReq_complete b ->
  forall i o, castObjectId (RefundReq.orderId b) = Ok (Some i) ->
  orders st !! i = Some o ->
  Order.status o = "Refunded" ->
  fst (refundRequests b st) = st
  /\ code (snd (refundRequests b st)) = Conflict.

(** The intake test of a payment submission passes. *)
Definition PaymentReq_complete (b : PaymentReq.t) : Prop :=
  present (PaymentReq.orderId b) /\ present (PaymentReq.clientName b)
  /\ present (PaymentReq.clientEmail b)
  /\ PaymentReq.amount b <> JUndefined
  /\ present (PaymentReq.paymentMethod b)
  /\ present (PaymentReq.transactionId b).

(** The object the handler hands to [Payment.create]. *)
Definition PaymentReq_defaulted (b : PaymentReq.t) : PaymentReq.t :=
  PaymentReq.with_status (js_or (PaymentReq.status b) (JStr "Pending")) b.

(** A valid payment submission: it passes the intake test and the Payment
    schema, which makes the document [p] of it. *)
Definition valid_payment_submission `{Runtime} (b : PaymentReq.t)
    (p : Payment.t) : Prop :=
  PaymentReq_complete b /\ Payment_document (PaymentReq_defaulted b) = Ok p.

(** The pair (transactionId, paymentMethod) of [p] is on a stored Payment. *)
Definition pair_exists (st : Store) (p : Payment.t) : Prop :=
  exists j q, payments st !! j = Some q
    /\ Payment.transactionId q = Payment.transactionId p
    /\ Payment.paymentMethod q = Payment.paymentMethod p.

(** The transactionId of [p] is on no stored Payment. *)
Definition transactionId_is_new (st : Store) (p : Payment.t) : Prop :=
  forall j q, payments st !! j = Some q ->
    Payment.transactionId q <> Payment.transactionId p.

(** The statuses from which a payment approval does not move an Order. *)
Definition started_or_closed : list string :=
  ["Completed"; "Cancelled"; "Refunded"; "Failed"; "In Progress"].

(** What an accepted review writes on the Refund. *)
Definition reviewed `{Runtime} (b : RefundReview.t) (r : Refund.t)
    : Refund.t :=
  Refund.mk (Refund.userId r) (Refund.orderId r) (Refund.clientName r)
    (Refund.clientEmail r) (Refund.amount r) (Refund.reason r)
    (castString (RefundReview.status b))
    (match RefundReview.adminRemarks b with
     | JUndefined => Refund.adminRemarks r
     | v => castString v
     end).

(** The failure cases of a refund submission as the specification lists
    them. *)
Definition refund_failures_as_stated `{Runtime} (b : RefundReq.t)
    (st : Store) : Prop :=
  refund_fails_incomplete b st
  /\ refund_fails_unknown_order b st
  /\ refund_fails_refunded b st.

(** The outcome of a payment submission as the specification states it: a
    valid submission with a new (transactionId, paymentMethod) pair creates
    a Payment with status [Pending] and puts the referenced Order, when
    there is one, in [Payment Pending]. *)
Definition payment_created_pending_as_stated `{Runtime} (b : PaymentReq.t)
    (st : Store) : Prop :=
  forall p, valid_payment_submission b p ->
    ~ pair_exists st p ->
    exists i p',
      data (snd (createPayment b st)) = PaymentPayload (i, p')
      /\ payments (fst (createPayment b st)) !! i = Some p'
      /\ Payment.status p' = Some "Pending"
      /\ forall o, orders st !! Payment.orderId p' = Some o ->
           Order.status <$> orders (fst (createPayment b st))
                              !! Payment.orderId p'
           = Some "Payment Pending".

(** The outcome of a payment approval as the specification states it: an
    existing Order whose status is none of the five is moved to
    [In Progress], and one whose status is among them is left as it is. *)
Definition payment_approval_as_stated `{Runtime} (id : string)
    (updates : PaymentReq.t) (st : Store) : Prop :=
  forall st1 p o,
    Payment_findByIdAndUpdate id updates st = (st1, Ok (Some p)) ->
    Payment.status (fields p) = Some "Approved" ->
    orders st !! Payment.orderId (fields p) = Some o ->
    (Order.status o ∉ started_or_closed ->
     Order.status <$> orders (fst (updatePayment id updates st))
                        !! Payment.orderId (fields p)
     = Some "In Progress")
    /\ (Order.status o ∈ started_or_closed ->
        orders (fst (updatePayment id updates st)) = orders st).

(** ** Vocabulary of the further statements *)

(** Every stored Order has a status that its schema declares. *)
Definition statuses_declared (st : Store) : Prop :=
  forall i o, orders st !! i = Some o ->
    Order.status_valid (Order.status o) = true.

(** No two stored Payments carry the same transactionId. *)
Definition transactionIds_unique (st : Store) : Prop :=
  forall i j p q, payments st !! i = Some p -> payments st !! j = Some q ->
    Payment.transactionId p = Payment.transactionId q -> i = j.

(** [trim()] only removes characters. *)
Definition trim_shortens `{Runtime} : Prop :=
  forall s, (String.length (String_trim s) <= String.length s)%nat.

(** The update [{ status: s }] of a payment review. *)
Definition PaymentReq_status_only (s : string) : PaymentReq.t :=
  PaymentReq.mk JUndefined JUndefined JUndefined JUndefined JUndefined
    JUndefined JUndefined JUndefined (JStr s).

(** The update [{ status: s }] of an Order. *)
Definition OrderReq_status_only (s : jsval) : OrderReq.t :=
  OrderReq.mk JUndefined JUndefined JUndefined JUndefined JUndefined
    JUndefined JUndefined JUndefined JUndefined JUndefined s.

(** [payment.status = s] *)
Definition Payment_set_status (s : option string) (p : Payment.t)
    : Payment.t :=
  Payment.mk (Payment.orderId p) (Payment.clientName p)
    (Payment.clientEmail p) (Payment.amount p) (Payment.paymentMethod p)
    (Payment.transactionId p) (Payment.screenshotUrl p) (Payment.remarks p) s.

(** The strings a pattern stands for. *)
Inductive lang : RegExp.t -> string -> Prop :=
| lang_Empty : lang RegExp.Empty ""
| lang_Class c x : c x = true -> lang (RegExp.Class c) (String x "")
| lang_Seq a b s1 s2 :
    lang a s1 -> lang b s2 -> lang (RegExp.Seq a b) (s1 ++ s2)
| lang_Or_l a b s : lang a s -> lang (RegExp.Or a b) s
| lang_Or_r a b s : lang b s -> lang (RegExp.Or a b) s
| lang_Star_nil a : lang (RegExp.Star a) ""
| lang_Star_cons a s1 s2 :
    lang a s1 -> lang (RegExp.Star a) s2 -> lang (RegExp.Star a) (s1 ++ s2).

(** Every character of [s] is in the class [c]. *)
Fixpoint all_chars (c : ascii -> bool) (s : string) : bool :=
  match s with
  | EmptyString => true
  | String x s' => c x && all_chars c s'
  end.

(** Every character class of the pattern [r] lies within [c]. *)
Fixpoint within (c : ascii -> bool) (r : RegExp.t) : Prop :=
  match r with
  | RegExp.Never | RegExp.Empty => True
  | RegExp.Class c' => forall x, c' x = true -> c x = true
  | RegExp.Seq a b | RegExp.Or a b => within c a /\ within c b
  | RegExp.Star a => within c a
  end.

(** [[\w.-]] and [[\w-]] *)
Definition addr_char (x : ascii) : bool :=
  RegExp.word x || RegExp.is_char "." x || RegExp.is_char "-" x.

Definition label_char (x : ascii) : bool :=
  RegExp.word x || RegExp.is_char "-" x.

(** [local@domain.tld]: [local] and [domain] are not empty and made of
    letters, digits, [_], [.] and [-]; [tld] has between [lo] and [hi]
    characters, all of the class [tld_char]. *)
Definition email_shape (tld_char : ascii -> bool) (lo hi : nat) (s : string)
    : Prop :=
  exists local domain tld,
    s = local ++ "@" ++ domain ++ "." ++ tld
    /\ local <> "" /\ domain <> ""
    /\ all_chars addr_char local = true
    /\ all_chars addr_char domain = true
    /\ all_chars tld_char tld = true
    /\ (lo <= String.length tld <= hi)%nat.

(** * Properties of the lifecycle *)

(** ** Elementary facts *)

Lemma is_str_true (v : jsval) (lit : string) :
  is_str v lit = true <-> v = JStr lit.
Proof.
  destruct v; simpl; try (split; [discriminate | intros E; discriminate E]).
  rewrite String.eqb_eq. split; [intros -> | intros [= ->]]; reflexivity.
Qed.

Lemma includes_approved_rejected (v : jsval) :
  includes ["Approved"; "Rejected"] v = true
  <-> v = JStr "Approved" \/ v = JStr "Rejected".
Proof.
  unfold includes. simpl. rewrite orb_false_r, orb_true_iff.
  rewrite !is_str_true. reflexivity.
Qed.

Section Lifecycle.
Context `{Runtime}.

(** *** The Payment collection *)

Lemma Payment_unique_conflict_true (ps : gmap ObjectId Payment.t)
    (i : ObjectId) (txn method : string) :
  Payment_unique_conflict ps i txn method = true
  <-> exists j q, ps !! j = Some q /\ j <> i
        /\ Payment.transactionId q = txn.
Proof.
  unfold Payment_unique_conflict. rewrite existsb_exists. split.
  - intros [[j q] [Hin Hc]]. simpl in Hc.
    apply list_elem_of_In, elem_of_map_to_list in Hin.
    apply andb_true_iff in Hc as [Hne Hk].
    apply negb_true_iff, N.eqb_neq in Hne.
    exists j, q. repeat split; [assumption | assumption |].
    apply orb_true_iff in Hk as [Hk | Hk].
    + apply String.eqb_eq in Hk. assumption.
    + apply andb_true_iff in Hk as [Hk _].
      apply String.eqb_eq in Hk. assumption.
  - intros (j & q & Hq & Hne & Htx). exists (j, q). split.
    + apply list_elem_of_In, elem_of_map_to_list. assumption.
    + simpl. apply andb_true_iff. split.
      * apply negb_true_iff, N.eqb_neq. assumption.
      * apply orb_true_iff. left. apply String.eqb_eq. assumption.
Qed.

Lemma fresh_payment_id (st : Store) :
  payments st !! fresh (dom (payments st)) = None.
Proof. apply not_elem_of_dom, is_fresh. Qed.

Lemma Payment_create_conflict (st : Store) (p : Payment.t) :
  pair_exists st p ->
  Payment_unique_conflict (payments st) (fresh (dom (payments st)))
    (Payment.transactionId p) (Payment.paymentMethod p) = true.
Proof.
  intros (j & q & Hq & Htx & _).
  apply Payment_unique_conflict_true. exists j, q.
  repeat split; [assumption | | assumption].
  intros ->. rewrite fresh_payment_id in Hq. discriminate.
Qed.

Lemma Payment_create_no_conflict (st : Store) (p : Payment.t) :
  transactionId_is_new st p ->
  Payment_unique_conflict (payments st) (fresh (dom (payments st)))
    (Payment.transactionId p) (Payment.paymentMethod p) = false.
Proof.
  intros Hnew. apply not_true_is_false. intros Hc.
  apply Payment_unique_conflict_true in Hc as (j & q & Hq & _ & Htx).
  exact (Hnew j q Hq Htx).
Qed.

Lemma PaymentReq_complete_test (b : PaymentReq.t) :
  PaymentReq_complete b ->
  negb (truthy (PaymentReq.orderId b))
  || negb (truthy (PaymentReq.clientName b))
  || negb (truthy (PaymentReq.clientEmail b))
  || is_undefined (PaymentReq.amount b)
  || negb (truthy (PaymentReq.paymentMethod b))
  || negb (truthy (PaymentReq.transactionId b)) = false.
Proof.
  unfold PaymentReq_complete, present.
  intros (-> & -> & -> & Ha & -> & ->).
  destruct (PaymentReq.amount b); [contradiction | ..]; reflexivity.
Qed.

(** A document that passed the schema carries the cast of the submitted
    [orderId]. *)
Lemma Payment_document_orderId (b : PaymentReq.t) (p : Payment.t) :
  Payment_document b = Ok p ->
  castObjectId (PaymentReq.orderId b) = Ok (Some (Payment.orderId p)).
Proof.
  unfold Payment_document, as_validation, Payment_cast_orderId.
  destruct (castObjectId (PaymentReq.orderId b)) as [[i |] | e];
    simpl; try discriminate.
  repeat match goal with
         | |- context [result_bind ?r _] =>
             destruct r; simpl; try discriminate
         end.
  intros [= <-]. reflexivity.
Qed.

Lemma Payment_cast_status_ok (v : jsval) (s : option string) :
  Payment_cast_status v = Ok s -> s = castString v.
Proof.
  unfold Payment_cast_status.
  destruct (check _); simpl; [intros [= <-]; reflexivity | discriminate].
Qed.

(** ... and the cast of the submitted [status]. *)
Lemma Payment_document_status (b : PaymentReq.t) (p : Payment.t) :
  Payment_document b = Ok p ->
  PaymentReq.status b <> JUndefined ->
  Payment.status p = castString (PaymentReq.status b).
Proof.
  intros Hd Hs. unfold Payment_document, as_validation in Hd.
  repeat match type of Hd with
         | context [result_bind ?r _] =>
             destruct r eqn:?; cbn [result_bind] in Hd; try discriminate
         end.
  injection Hd as <-. cbn [Payment.status].
  destruct (PaymentReq.status b); [contradiction | ..];
    eauto using Payment_cast_status_ok.
Qed.

(** C8. A refund review whose requested status is neither [Approved] nor
    [Rejected] is answered with 400 (InvalidArgument) and leaves the whole
    store, Refund and Orders included, as it was. *)
Theorem refund_review_rejects_other_status
    (id : string) (b : RefundReview.t) (st : Store) :
  RefundReview.status b <> JStr "Approved" ->
  RefundReview.status b <> JStr "Rejected" ->
  fst (updateRefund id b st) = st
  /\ code (snd (updateRefund id b st)) = InvalidArgument.
Proof.
  intros Ha Hr.
  assert (Hin : includes ["Approved"; "Rejected"] (RefundReview.status b)
                = false).
  { destruct (includes _ _) eqn:E; [| reflexivity].
    apply includes_approved_rejected in E. tauto. }
  unfold updateRefund, handler. rewrite Hin.
  destruct (ObjectId_isValid id); simpl; split; reflexivity.
Qed.

(** C10. A refund submission whose [amount] is the number 0 is answered
    with the 400 "all fields are required" response whatever the store
    holds, and the store is returned untouched; the Refund schema itself
    accepts 0 (and any other number) on its [amount] path. *)
Theorem refund_amount_zero_is_missing (b : RefundReq.t) (st : Store) :
  RefundReq.amount b = JNum 0 ->
  refundRequests b st
  = (st, respond InvalidArgument "All refund request fields are required.")
  /\ (forall n : Z, Refund_cast_amount (JNum n) = Ok n).
Proof.
  intros Hz. split; [| reflexivity].
  unfold refundRequests, handler. rewrite Hz. simpl.
  destruct (truthy (RefundReq.orderId b)),
           (truthy (RefundReq.clientEmail b)),
           (truthy (RefundReq.clientName b)); reflexivity.
Qed.

Lemma RefundReq_complete_test (b : RefundReq.t) :
  RefundReq_complete b ->
  negb (truthy (RefundReq.orderId b))
  || negb (truthy (RefundReq.clientEmail b))
  || negb (truthy (RefundReq.clientName b))
  || negb (truthy (RefundReq.amount b))
  || negb (truthy (RefundReq.reason b)) = false.
Proof.
  unfold RefundReq_complete, present.
  intros (-> & -> & -> & -> & ->). reflexivity.
Qed.

Lemma RefundReq_incomplete_test (b : RefundReq.t) :
  RefundReq_incomplete b ->
  negb (truthy (RefundReq.orderId b))
  || negb (truthy (RefundReq.clientEmail b))
  || negb (truthy (RefundReq.clientName b))
  || negb (truthy (RefundReq.amount b))
  || negb (truthy (RefundReq.reason b)) = true.
Proof.
  unfold RefundReq_incomplete, missing.
  intros [-> | [-> | [-> | [-> | ->]]]]; simpl;
    rewrite ?orb_true_r; reflexivity.
Qed.


(** *** Payment submission *)

Lemma Order_validate_set_status (s : string) (o : Order.t) :
  Order.paths_valid o = true ->
  Order.status_valid s = true ->
  Order.validate (Order.set_status s o) = true.
Proof.
  intros Hp Hs. unfold Order.validate. destruct o. simpl in *.
  rewrite Hs. unfold Order.paths_valid in *. simpl in *. rewrite Hp.
  reflexivity.
Qed.

(** C6. A payment submission that is valid but whose (transactionId,
    paymentMethod) pair is already on a stored Payment is answered with
    409 (Conflict); the store is left as it was, so no Payment is
    persisted and the Order keeps its status. *)
Theorem duplicate_payment_is_conflict
    (b : PaymentReq.t) (st : Store) (p : Payment.t) :
  valid_payment_submission b p ->
  pair_exists st p ->
  createPayment b st
  = (st, mkResponse Conflict
           "A payment with this transaction ID already exists for this method."
           (ErrorPayload DuplicateKey)).
Proof.
  intros [Hc Hd] Hex. unfold createPayment, handler.
  rewrite (PaymentReq_complete_test b Hc).
  unfold bind, Payment_create. fold (PaymentReq_defaulted b). rewrite Hd.
  rewrite (Payment_create_conflict st p Hex). reflexivity.
Qed.

(** The run of an accepted submission whose Order is not in the store. *)
Lemma createPayment_without_order
    (b : PaymentReq.t) (st : Store) (p : Payment.t) :
  valid_payment_submission b p ->
  transactionId_is_new st p ->
  orders st !! Payment.orderId p = None ->
  createPayment b st
  = (set_payments (insert (fresh (dom (payments st))) p) st,
     mkResponse 201 "Payment record created successfully"
       (PaymentPayload (fresh (dom (payments st)), p))).
Proof.
  intros [Hc Hd] Hnew Hno. unfold createPayment, handler.
  rewrite (PaymentReq_complete_test b Hc).
  unfold bind, Payment_create. fold (PaymentReq_defaulted b). rewrite Hd.
  rewrite (Payment_create_no_conflict st p Hnew).
  unfold Order_findById.
  rewrite (Payment_document_orderId _ _ Hd : castObjectId
             (PaymentReq.orderId b) = _).
  simpl. rewrite Hno. reflexivity.
Qed.

(** The run of an accepted submission whose Order is in the store and
    passes the schema on the paths other than [status]. *)
Lemma createPayment_with_order
    (b : PaymentReq.t) (st : Store) (p : Payment.t) (o : Order.t) :
  valid_payment_submission b p ->
  transactionId_is_new st p ->
  orders st !! Payment.orderId p = Some o ->
  Order.paths_valid o = true ->
  createPayment b st
  = (set_orders
       (insert (Payment.orderId p) (Order.set_status "Payment Pending" o))
       (set_payments (insert (fresh (dom (payments st))) p) st),
     mkResponse 201 "Payment record created successfully"
       (PaymentPayload (fresh (dom (payments st)), p))).
Proof.
  intros [Hc Hd] Hnew Ho Hv. unfold createPayment, handler.
  rewrite (PaymentReq_complete_test b Hc).
  unfold bind, Payment_create. fold (PaymentReq_defaulted b). rewrite Hd.
  rewrite (Payment_create_no_conflict st p Hnew).
  unfold Order_findById.
  rewrite (Payment_document_orderId _ _ Hd : castObjectId
             (PaymentReq.orderId b) = _).
  simpl. rewrite Ho. simpl. unfold Order_save. simpl.
  rewrite (Order_validate_set_status "Payment Pending" o Hv eq_refl).
  reflexivity.
Qed.

(** The run of an accepted submission whose Order is in the store and
    fails the schema on a path other than [status]. *)
Lemma createPayment_with_failing_order
    (b : PaymentReq.t) (st : Store) (p : Payment.t) (o : Order.t) :
  valid_payment_submission b p ->
  transactionId_is_new st p ->
  orders st !! Payment.orderId p = Some o ->
  Order.paths_valid o = false ->
  createPayment b st
  = (set_payments (insert (fresh (dom (payments st))) p) st,
     mkResponse 500 "Server error during payment creation"
       (ErrorPayload ValidationError)).
Proof.
  intros [Hc Hd] Hnew Ho Hbad. unfold createPayment, handler.
  rewrite (PaymentReq_complete_test b Hc).
  unfold bind, Payment_create. fold (PaymentReq_defaulted b). rewrite Hd.
  rewrite (Payment_create_no_conflict st p Hnew).
  unfold Order_findById.
  rewrite (Payment_document_orderId _ _ Hd : castObjectId
             (PaymentReq.orderId b) = _).
  simpl. rewrite Ho. simpl. unfold Order_save, Order.validate. simpl.
  change (Order.paths_valid (Order.set_status "Payment Pending" o))
    with (Order.paths_valid o).
  rewrite Hbad. reflexivity.
Qed.

(** The status of the document of a submission: the one submitted, and
    [Pending] when none (or a falsy one) is. *)
Lemma submitted_status (b : PaymentReq.t) (p : Payment.t) :
  valid_payment_submission b p ->
  (missing (PaymentReq.status b) -> Payment.status p = Some "Pending")
  /\ (present (PaymentReq.status b) ->
      Payment.status p = castString (PaymentReq.status b)).
Proof.
  intros [_ Hd]. split.
  - intros Hm. unfold missing in Hm.
    apply Payment_document_status in Hd.
    + rewrite Hd. simpl. unfold js_or. rewrite Hm. reflexivity.
    + simpl. unfold js_or. rewrite Hm. discriminate.
  - intros Hp. unfold present in Hp.
    apply Payment_document_status in Hd.
    + rewrite Hd. simpl. unfold js_or. rewrite Hp. reflexivity.
    + simpl. unfold js_or. rewrite Hp. intros E. rewrite E in Hp.
      discriminate.
Qed.

(** C9. A valid payment submission with a new transactionId whose Order
    does not exist still creates and keeps the Payment, writes no Order,
    and is answered with 201 and the created Payment. *)
Theorem payment_without_order_is_kept
    (b : PaymentReq.t) (st : Store) (p : Payment.t) :
  valid_payment_submission b p ->
  transactionId_is_new st p ->
  orders st !! Payment.orderId p = None ->
  let i := fresh (dom (payments st)) in
  payments (fst (createPayment b st)) = <[i := p]> (payments st)
  /\ orders (fst (createPayment b st)) = orders st
  /\ snd (createPayment b st)
     = mkResponse 201 "Payment record created successfully"
         (PaymentPayload (i, p)).
Proof.
  intros Hv Hnew Hno i.
  rewrite (createPayment_without_order b st p Hv Hnew Hno).
  repeat split; reflexivity.
Qed.


(** *** Payment review *)

Lemma may_start_spec (s : string) :
  may_start s = true <-> s ∉ started_or_closed.
Proof.
  unfold may_start, started_or_closed.
  rewrite !not_elem_of_cons, !andb_true_iff, !negb_true_iff, !String.eqb_neq.
  pose proof (not_elem_of_nil s). tauto.
Qed.

Lemma may_start_closed (s : string) :
  s ∈ started_or_closed -> may_start s = false.
Proof.
  intros Hin. apply not_true_is_false. intros Hs.
  apply may_start_spec in Hs. contradiction.
Qed.

(** The Payment update writes to the Payment collection only, and only
    for an id that is valid. *)
Lemma Payment_findByIdAndUpdate_frame
    (id : string) (u : PaymentReq.t) (st st1 : Store)
    (r : result (option (doc Payment.t))) :
  Payment_findByIdAndUpdate id u st = (st1, r) ->
  orders st1 = orders st /\ refunds st1 = refunds st.
Proof.
  unfold Payment_findByIdAndUpdate.
  destruct (ObjectId_ofString id); [| intros [= <- _]; auto].
  destruct (Payment_castUpdate u); [| intros [= <- _]; auto].
  destruct (payments st !! o); [| intros [= <- _]; auto].
  destruct (_ && _); intros [= <- _]; auto.
Qed.

Lemma Payment_findByIdAndUpdate_valid
    (id : string) (u : PaymentReq.t) (st st1 : Store)
    (p : option (doc Payment.t)) :
  Payment_findByIdAndUpdate id u st = (st1, Ok p) ->
  ObjectId_isValid id = true.
Proof.
  unfold Payment_findByIdAndUpdate, ObjectId_isValid.
  destruct (ObjectId_ofString id); [reflexivity | discriminate].
Qed.

Lemma Payment_findByIdAndUpdate_stored
    (id : string) (u : PaymentReq.t) (st st1 : Store) (p : doc Payment.t) :
  Payment_findByIdAndUpdate id u st = (st1, Ok (Some p)) ->
  payments st1 !! _id p = Some (fields p).
Proof.
  unfold Payment_findByIdAndUpdate.
  destruct (ObjectId_ofString id) as [i |]; [| discriminate].
  destruct (Payment_castUpdate u) as [f | e]; [| discriminate].
  destruct (payments st !! i) as [q |]; [| discriminate].
  destruct (_ && _); [discriminate |].
  intros [= <- <-]. simpl. apply lookup_insert_eq.
Qed.

Lemma Order_validate_set_status_fails (s : string) (o : Order.t) :
  Order.paths_valid o = false ->
  Order.validate (Order.set_status s o) = false.
Proof.
  intros Hp. unfold Order.validate.
  change (Order.paths_valid (Order.set_status s o))
    with (Order.paths_valid o).
  rewrite Hp. reflexivity.
Qed.


(** *** Refund review *)

Lemma Refund_castUpdate_accepted (b : RefundReview.t) :
  includes ["Approved"; "Rejected"] (RefundReview.status b) = true ->
  exists f, Refund_castUpdate b = Ok f /\ forall r, f r = reviewed b r.
Proof.
  intros Hin. apply includes_approved_rejected in Hin.
  unfold Refund_castUpdate, reviewed.
  destruct Hin as [-> | ->]; simpl;
    destruct (RefundReview.adminRemarks b); simpl;
    eexists; split; try reflexivity; intros r; reflexivity.
Qed.

(** An accepted review of a stored Refund whose Order exists: the Refund
    is updated, the Order gets the status that goes with the decision,
    and the answer is 200. *)
Lemma updateRefund_accepted
    (id : string) (b : RefundReview.t) (st : Store)
    (i : ObjectId) (r : Refund.t) (o : Order.t) (decision next : string) :
  ObjectId_ofString id = Some i ->
  refunds st !! i = Some r ->
  orders st !! Refund.orderId r = Some o ->
  RefundReview.status b = JStr decision ->
  (decision = "Approved" /\ next = "Refunded"
   \/ decision = "Rejected" /\ next = "Refund Rejected") ->
  updateRefund id b st
  = (set_orders (insert (Refund.orderId r) (Order.set_status next o))
       (set_refunds (insert i (reviewed b r)) st),
     mkResponse 200 ("Refund request updated to " ++ decision)
       (PopulatedRefundPayload (i, reviewed b r)
          (Some (Refund.orderId r, o)))).
Proof.
  intros Hid Hr Ho Hs Hd.
  assert (Hin : includes ["Approved"; "Rejected"] (RefundReview.status b)
                = true).
  { apply includes_approved_rejected. rewrite Hs.
    destruct Hd as [[-> _] | [-> _]]; auto. }
  destruct (Refund_castUpdate_accepted b Hin) as (f & Hf & Hfr).
  unfold updateRefund, handler, ObjectId_isValid. rewrite Hid, Hin. simpl.
  unfold bind at 1. unfold Refund_findByIdAndUpdate.
  rewrite Hid, Hf, Hr, Hfr.
  unfold bind at 1. unfold populate_orderId, Order_findById_oid. simpl.
  rewrite Ho. simpl. rewrite Hs.
  destruct Hd as [[-> ->] | [-> ->]]; simpl;
    unfold bind, Order_findByIdAndUpdate_status; simpl;
    rewrite Ho; reflexivity.
Qed.

(** C5. A refund review of a stored Refund whose Order exists sets that
    Order's status to [Refunded] when the decision is [Approved], and to
    [Refund Rejected] when it is [Rejected], whatever the status was; no
    other Order is written, and the answer is 200. *)
Theorem refund_review_moves_order
    (id : string) (b : RefundReview.t) (st : Store)
    (i : ObjectId) (r : Refund.t) (o : Order.t) :
  ObjectId_ofString id = Some i ->
  refunds st !! i = Some r ->
  orders st !! Refund.orderId r = Some o ->
  (RefundReview.status b = JStr "Approved" ->
   orders (fst (updateRefund id b st))
   = <[Refund.orderId r := Order.set_status "Refunded" o]> (orders st)
   /\ code (snd (updateRefund id b st)) = 200)
  /\ (RefundReview.status b = JStr "Rejected" ->
      orders (fst (updateRefund id b st))
      = <[Refund.orderId r := Order.set_status "Refund Rejected" o]>
          (orders st)
      /\ code (snd (updateRefund id b st)) = 200).
Proof.
  intros Hid Hr Ho. split; intros Hs.
  - rewrite (updateRefund_accepted id b st i r o "Approved" "Refunded")
      by auto.
    split; reflexivity.
  - rewrite (updateRefund_accepted id b st i r o "Rejected"
               "Refund Rejected") by auto.
    split; reflexivity.
Qed.

(** C2, on the code. Rejecting the refund of a stored Order writes
    [Refund Rejected] as its status, whatever the status was: the update
    runs no validator, and the value is not among those the Order schema
    declares, so the stored document no longer passes its own schema. *)
Theorem refund_rejection_leaves_status_enum
    (id : string) (b : RefundReview.t) (st : Store)
    (i : ObjectId) (r : Refund.t) (o : Order.t) :
  ObjectId_ofString id = Some i ->
  refunds st !! i = Some r ->
  orders st !! Refund.orderId r = Some o ->
  RefundReview.status b = JStr "Rejected" ->
  exists o',
    orders (fst (updateRefund id b st)) !! Refund.orderId r = Some o'
    /\ Order.status o' = "Refund Rejected"
    /\ (Order.status o' ∉ Order.status_enum)
    /\ Order.status_valid (Order.status o') = false.
Proof.
  intros Hid Hr Ho Hs.
  rewrite (updateRefund_accepted id b st i r o "Rejected" "Refund Rejected")
    by auto.
  exists (Order.set_status "Refund Rejected" o). simpl.
  rewrite lookup_insert_eq. repeat split.
  intros Hin. unfold Order.status_enum in Hin.
  repeat (apply elem_of_cons in Hin as [Hin | Hin]; [discriminate Hin |]).
  apply elem_of_nil in Hin. exact Hin.
Qed.

(** *** Refund submission *)

(** The document of a refund submission cannot be built without a
    [userId]. *)
Lemma Refund_document_requires_userId
    (orderId clientEmail clientName amount reason status : jsval) :
  Refund_document JUndefined orderId clientEmail clientName amount reason
    status = Throw ValidationError.
Proof. reflexivity. Qed.

(** C4, as the code has it. A complete refund submission for an existing
    Order that is not [Refunded] reaches [Refund.create] with
    [order.userId], which is [undefined]; the required [userId] path
    refuses the document, the handler answers 500, and the store is left
    as it was: no Refund is created and the Order keeps its status. *)
Theorem refund_submission_never_succeeds
    (b : RefundReq.t) (st : Store) (i : ObjectId) (o : Order.t) :
  RefundReq_complete b ->
  castObjectId (RefundReq.orderId b) = Ok (Some i) ->
  orders st !! i = Some o ->
  Order.status o <> "Refunded" ->
  refundRequests b st
  = (st, mkResponse ServerError "Server error during refund request"
           (ErrorPayload ValidationError)).
Proof.
  intros Hc Hi Ho Hs. unfold refundRequests, handler.
  rewrite (RefundReq_complete_test b Hc).
  unfold bind at 1. unfold Order_findById. rewrite Hi, Ho. simpl.
  apply String.eqb_neq in Hs. rewrite Hs.
  unfold bind, Refund_create.
  rewrite Refund_document_requires_userId. reflexivity.
Qed.
End Lifecycle.

(** * Further properties of the handlers *)

(** ** Results and validators *)

Lemma result_bind_Ok {A B} (r : result A) (k : A -> result B) (b : B) :
  result_bind r k = Ok b -> exists a, r = Ok a /\ k a = Ok b.
Proof. destruct r as [a | e]; simpl; [eauto | discriminate]. Qed.

Lemma as_validation_Ok {A} (r : result A) (a : A) :
  as_validation r = Ok a -> r = Ok a.
Proof. destruct r; simpl; [auto | discriminate]. Qed.

Lemma as_validation_Throw {A} (r : result A) (e : exn) :
  as_validation r = Throw e -> e = ValidationError.
Proof. destruct r; simpl; [discriminate | intros [= <-]; reflexivity]. Qed.

Lemma check_Ok (b : bool) (u : unit) : check b = Ok u -> b = true.
Proof. destruct b; [reflexivity | discriminate]. Qed.

Lemma required_string_Ok (v : option string) (s : string) :
  required_string v = Ok s -> v = Some s /\ String.eqb s "" = false.
Proof.
  destruct v as [t |]; simpl; [| discriminate].
  destruct (String.eqb t "") eqn:E; [discriminate |].
  intros [= <-]. auto.
Qed.

(** Peels the binds of a successful validation, one hypothesis per step. *)
Ltac peel H :=
  repeat match type of H with
         | result_bind _ _ = Ok _ =>
             let a := fresh "a" in
             let Ha := fresh "Hstep" in
             apply result_bind_Ok in H as (a & Ha & H)
         end.

Section OrderProperties.
Context `{Runtime}.

(** ** Creating an Order *)

Lemma required_trimmed_Ok (v : option string) (s : string) :
  required_string v = Ok s -> String.eqb s "" = false.
Proof. intros Hr. apply required_string_Ok in Hr. tauto. Qed.

Lemma Order_cast_email_Ok (v : jsval) (e : string) :
  Order_cast_email v = Ok e ->
  String.eqb e "" = false /\ match_ok (RegExp.test orderEmailRe) e = true.
Proof.
  unfold Order_cast_email. intros Hc. peel Hc. injection Hc as <-.
  split; [eapply required_trimmed_Ok | eapply check_Ok]; eassumption.
Qed.

Lemma Order_cast_requiredFollowers_Ok (v : jsval) (n : Z) :
  Order_cast_requiredFollowers v = Ok n -> (1 <=? n) = true.
Proof.
  unfold Order_cast_requiredFollowers. intros Hc. peel Hc.
  injection Hc as <-. eapply check_Ok. eassumption.
Qed.

Lemma Order_cast_price_Ok (v : jsval) (n : Z) :
  Order_cast_price v = Ok n -> (0 <=? n) = true.
Proof.
  unfold Order_cast_price. intros Hc. peel Hc.
  injection Hc as <-. eapply check_Ok. eassumption.
Qed.

Lemma Order_cast_platform_Ok (v : jsval) (p : string) :
  Order_cast_platform v = Ok p ->
  String.eqb p "" = false
  /\ existsb (String.eqb p) Order.platform_enum = true.
Proof.
  unfold Order_cast_platform. intros Hc. peel Hc. injection Hc as <-.
  split; [eapply required_trimmed_Ok | eapply check_Ok]; eassumption.
Qed.

Lemma Order_cast_service_Ok (v : jsval) (s : string) :
  Order_cast_service v = Ok s ->
  String.eqb s "" = false
  /\ existsb (String.eqb s) Order.service_enum = true.
Proof.
  unfold Order_cast_service. intros Hc. peel Hc. injection Hc as <-.
  split; [eapply required_trimmed_Ok | eapply check_Ok]; eassumption.
Qed.

Lemma Order_cast_status_Ok (v : jsval) (s : string) :
  Order_cast_status v = Ok s -> Order.status_valid s = true.
Proof.
  unfold Order_cast_status, Order.status_valid. intros Hc. peel Hc.
  injection Hc as <-.
  match goal with
  | Hr : required_string _ = Ok _, Hk : check _ = Ok _ |- _ =>
      apply required_trimmed_Ok in Hr; apply check_Ok in Hk;
      unfold enum_ok in Hk; rewrite Hr, Hk
  end.
  reflexivity.
Qed.

(** A document that passes the schema on [create] passes it again on every
    later [save()]. *)
Lemma Order_document_validate (b : OrderReq.t) (o : Order.t) :
  Order_document b = Ok o -> Order.validate o = true.
Proof.
  intros Hd. apply as_validation_Ok in Hd. peel Hd. injection Hd as <-.
  repeat match goal with
         | Hc : Order_cast_name _ = Ok _ |- _ =>
             apply required_trimmed_Ok in Hc
         | Hc : Order_cast_phoneNumber _ = Ok _ |- _ =>
             apply required_trimmed_Ok in Hc
         | Hc : Order_cast_profileLink _ = Ok _ |- _ =>
             apply required_trimmed_Ok in Hc
         | Hc : Order_cast_email _ = Ok _ |- _ =>
             apply Order_cast_email_Ok in Hc as [? ?]
         | Hc : Order_cast_requiredFollowers _ = Ok _ |- _ =>
             apply Order_cast_requiredFollowers_Ok in Hc
         | Hc : Order_cast_price _ = Ok _ |- _ =>
             apply Order_cast_price_Ok in Hc
         | Hc : Order_cast_platform _ = Ok _ |- _ =>
             apply Order_cast_platform_Ok in Hc as [? ?]
         | Hc : Order_cast_service _ = Ok _ |- _ =>
             apply Order_cast_service_Ok in Hc as [? ?]
         end.
  match goal with
  | Hs : match OrderReq.status b with _ => _ end = Ok ?s |- _ =>
      assert (Hst : Order.status_valid s = true)
        by (destruct (OrderReq.status b);
            try (injection Hs as <-; reflexivity);
            exact (Order_cast_status_Ok _ _ Hs))
  end.
  unfold Order.validate, Order.paths_valid.
  cbn [Order.name Order.email Order.phoneNumber Order.profileLink
       Order.requiredFollowers Order.platform Order.service Order.price
       Order.status].
  repeat match goal with
         | Hb : _ = _ :> bool |- _ => rewrite Hb; clear Hb
         end.
  reflexivity.
Qed.

Lemma Order_document_pending (b : OrderReq.t) (o : Order.t) :
  Order_document (OrderReq.with_status (JStr "Pending") b) = Ok o ->
  Order.status o = "Pending".
Proof.
  intros Hd. apply as_validation_Ok in Hd. peel Hd. injection Hd as <-.
  match goal with
  | Hs : match OrderReq.status _ with _ => _ end = Ok _ |- _ =>
      cbn in Hs; injection Hs as <-
  end.
  reflexivity.
Qed.

(** The three ways [POST /createOrder] ends: one of its two 400 answers
    before the model is called, the 400 of a schema failure, or the
    insertion of the document under a fresh id. *)
Lemma createOrder_cases (b : OrderReq.t) (st : Store) :
  (fst (createOrder b st) = st
   /\ reply_code (snd (createOrder b st)) = 400
   /\ reply_doc (snd (createOrder b st)) = None)
  \/ (exists o,
        Order_document (OrderReq.with_status (JStr "Pending") b) = Ok o
        /\ createOrder b st
           = (set_orders (insert (fresh (dom (orders st))) o) st,
              mkReply 201 "Order placed successfully"
                (Some (fresh (dom (orders st)), o)))).
Proof.
  unfold createOrder, handler_of.
  destruct (_ || _); [left; repeat split |].
  destruct (_ || _); [left; repeat split |].
  unfold bind, Order_create.
  destruct (Order_document _) as [o | e] eqn:Hd.
  - right. exists o. split; reflexivity.
  - left. apply as_validation_Throw in Hd. subst e. repeat split.
Qed.

Lemma fresh_order_id (st : Store) :
  orders st !! fresh (dom (orders st)) = None.
Proof. apply not_elem_of_dom, is_fresh. Qed.

(** X1. An Order that [POST /createOrder] answers 201 for was not in the store,
    is now stored under the id the answer carries, has status [Pending], and
    passes the Order schema as a whole; the rest of the store is as it was. *)
Theorem createOrder_created (b : OrderReq.t) (st : Store) :
  reply_code (snd (createOrder b st)) = 201 ->
  exists i o,
    reply_doc (snd (createOrder b st)) = Some (i, o)
    /\ orders st !! i = None
    /\ fst (createOrder b st) = set_orders (insert i o) st
    /\ Order.status o = "Pending"
    /\ Order.validate o = true.
Proof.
  intros Hcode.
  destruct (createOrder_cases b st) as [(_ & H400 & _) | (o & Hd & Hrun)].
  - rewrite H400 in Hcode. discriminate Hcode.
  - exists (fresh (dom (orders st))), o. rewrite Hrun. simpl.
    repeat split.
    + apply fresh_order_id.
    + exact (Order_document_pending b o Hd).
    + exact (Order_document_validate _ o Hd).
Qed.

(** X2. [POST /createOrder] answers 201 or 400, never 409 or 500, and a 400
    leaves the store as it was. *)
Theorem createOrder_answers (b : OrderReq.t) (st : Store) :
  reply_code (snd (createOrder b st)) = 201
  \/ (reply_code (snd (createOrder b st)) = 400
      /\ fst (createOrder b st) = st).
Proof.
  destruct (createOrder_cases b st) as [(Hst & H400 & _) | (o & _ & Hrun)].
  - right. split; assumption.
  - left. rewrite Hrun. reflexivity.
Qed.

(** X3. A quantity below 1 is refused with 400 and nothing is stored, also the
    quantity 0, which the intake test of the handler lets through. *)
Theorem createOrder_needs_one_follower
    (b : OrderReq.t) (st : Store) (n : Z) :
  OrderReq.requiredFollowers b = JNum n ->
  n < 1 ->
  reply_code (snd (createOrder b st)) = 400
  /\ fst (createOrder b st) = st.
Proof.
  intros Hn Hlt.
  destruct (createOrder_cases b st) as [(Hst & H400 & _) | (o & Hd & _)].
  - split; assumption.
  - exfalso. apply as_validation_Ok in Hd. peel Hd.
    match goal with
    | Hc : Order_cast_requiredFollowers _ = Ok _ |- _ =>
        cbn [OrderReq.requiredFollowers OrderReq.with_status] in Hc;
        rewrite Hn in Hc; unfold Order_cast_requiredFollowers in Hc;
        cbn in Hc; destruct (1 <=? n) eqn:E; [| discriminate Hc]
    end.
    apply Z.leb_le in E. apply (Z.lt_irrefl n).
    apply Z.lt_le_trans with 1; assumption.
Qed.

(** ** Reading and deleting an Order *)

Lemma ObjectId_isValid_of (id : string) (i : ObjectId) :
  ObjectId_ofString id = Some i -> ObjectId_isValid id = true.
Proof. unfold ObjectId_isValid. intros ->. reflexivity. Qed.

(** [GET /getOrder/:id] on a stored Order. *)
Lemma getOrder_found (id : string) (st : Store) (i : ObjectId)
    (o : Order.t) :
  ObjectId_ofString id = Some i ->
  orders st !! i = Some o ->
  getOrder id st = (st, mkReply 200 "" (Some (i, o))).
Proof.
  intros Hid Ho. unfold getOrder. rewrite (ObjectId_isValid_of id i Hid).
  unfold handler_of, bind, Order_findById. simpl. rewrite Hid, Ho.
  reflexivity.
Qed.

(** X4. The Order that [POST /createOrder] has just answered with is the one
    [GET /getOrder/:id] returns for its id, and reading it does not change the
    store. *)
Theorem getOrder_after_createOrder
    (b : OrderReq.t) (st : Store) (id : string) (i : ObjectId)
    (o : Order.t) :
  reply_doc (snd (createOrder b st)) = Some (i, o) ->
  ObjectId_ofString id = Some i ->
  getOrder id (fst (createOrder b st))
  = (fst (createOrder b st), mkReply 200 "" (Some (i, o))).
Proof.
  intros Hdoc Hid.
  destruct (createOrder_cases b st) as [(_ & _ & Hnone) | (o' & _ & Hrun)].
  - rewrite Hnone in Hdoc. discriminate Hdoc.
  - rewrite Hrun in *. simpl in Hdoc. injection Hdoc as <- <-.
    apply getOrder_found; [assumption |]. simpl. apply lookup_insert_eq.
Qed.

(** [DELETE /deleteOrder/:id] on a stored Order. *)
Lemma deleteOrder_stored (id : string) (st : Store) (i : ObjectId)
    (o : Order.t) :
  ObjectId_ofString id = Some i ->
  orders st !! i = Some o ->
  deleteOrder id st
  = (mkStore (delete i (orders st)) (payments st) (refunds st),
     mkReply 200 "Order deleted successfully." None).
Proof.
  intros Hid Ho. unfold deleteOrder, handler_of.
  rewrite (ObjectId_isValid_of id i Hid).
  unfold bind, Order_findById, Order_findByIdAndDelete. simpl.
  rewrite Hid, Ho. simpl. rewrite Ho. reflexivity.
Qed.

(** X5. [DELETE /deleteOrder/:id]: 400 for an id that is no ObjectId, 404 for
    one of no Order, both with the store as it was; otherwise the Order is
    removed and nothing else is written: the Payments and Refunds that reference
    it stay. *)
Theorem deleteOrder_outcomes (id : string) (st : Store) :
  (ObjectId_ofString id = None ->
   deleteOrder id st = (st, mkReply 400 "Invalid order ID format." None))
  /\ (forall i, ObjectId_ofString id = Some i ->
      orders st !! i = None ->
      deleteOrder id st = (st, mkReply 404 "Order not found." None))
  /\ (forall i o, ObjectId_ofString id = Some i ->
      orders st !! i = Some o ->
      deleteOrder id st
      = (mkStore (delete i (orders st)) (payments st) (refunds st),
         mkReply 200 "Order deleted successfully." None)).
Proof.
  split; [| split].
  - intros Hid. unfold deleteOrder, handler_of, ObjectId_isValid.
    rewrite Hid. reflexivity.
  - intros i Hid Ho. unfold deleteOrder, handler_of.
    rewrite (ObjectId_isValid_of id i Hid).
    unfold bind, Order_findById. simpl. rewrite Hid, Ho. reflexivity.
  - intros i o. apply deleteOrder_stored.
Qed.

(** X6. Deleting the Order that [POST /createOrder] has just created gives the
    store back as it was before the creation. *)
Theorem deleteOrder_after_createOrder
    (b : OrderReq.t) (st : Store) (id : string) (i : ObjectId)
    (o : Order.t) :
  reply_doc (snd (createOrder b st)) = Some (i, o) ->
  ObjectId_ofString id = Some i ->
  fst (deleteOrder id (fst (createOrder b st))) = st.
Proof.
  intros Hdoc Hid.
  destruct (createOrder_cases b st) as [(_ & _ & Hnone) | (o' & _ & Hrun)].
  - rewrite Hnone in Hdoc. discriminate Hdoc.
  - rewrite Hrun in *. simpl in Hdoc. injection Hdoc as <- <-.
    cbn [fst].
    rewrite (deleteOrder_stored id _ _ o' Hid)
      by (simpl; apply lookup_insert_eq).
    simpl. rewrite delete_insert_eq, (delete_id _ _ (fresh_order_id st)).
    destruct st; reflexivity.
Qed.

(** ** Updating an Order *)

Lemma status_valid_spec (s : string) :
  Order.status_valid s = true <-> s ∈ Order.status_enum.
Proof.
  unfold Order.status_valid, Order.status_enum. cbn [existsb].
  rewrite orb_false_r.
  rewrite !elem_of_cons, elem_of_nil, andb_true_iff, negb_true_iff,
    !orb_true_iff, !String.eqb_eq, String.eqb_neq.
  split.
  - intros [_ Hin]. tauto.
  - intros Hin. split; [| tauto].
    intros ->. repeat (destruct Hin as [Hin | Hin]; [discriminate Hin |]).
    exact Hin.
Qed.

Lemma Order_cast_status_str (s : string) :
  Order_cast_status (JStr s)
  = if Order.status_valid s then Ok s else Throw ValidationError.
Proof.
  unfold Order_cast_status, Order.status_valid. simpl.
  destruct (String.eqb s "") eqn:E; simpl; [reflexivity |].
  destruct (_ || _); reflexivity.
Qed.

(** X7. [PATCH /updateOrder/:id] with the body [{ status: s }] puts a stored
    Order in any status the schema declares, whatever status it had, and answers
    200; with any other string it answers 500 and writes nothing. *)
Theorem updateOrder_status
    (id : string) (st : Store) (i : ObjectId) (o : Order.t) (s : string) :
  ObjectId_ofString id = Some i ->
  orders st !! i = Some o ->
  (s ∈ Order.status_enum ->
   updateOrder id (OrderReq_status_only (JStr s)) st
   = (set_orders (insert i (Order.set_status s o)) st,
      mkReply 200 "Order updated successfully"
        (Some (i, Order.set_status s o))))
  /\ (s ∉ Order.status_enum ->
      updateOrder id (OrderReq_status_only (JStr s)) st
      = (st, mkReply 500 "Server error updating order" None)).
Proof.
  intros Hid Ho. split; intros Hs.
  - apply status_valid_spec in Hs.
    unfold updateOrder, handler_of. rewrite (ObjectId_isValid_of id i Hid).
    unfold bind, Order_findByIdAndUpdate, Order_castUpdate. simpl.
    rewrite Hid, Order_cast_status_str, Hs. simpl. rewrite Ho.
    destruct o; reflexivity.
  - assert (Hv : Order.status_valid s = false).
    { apply not_true_is_false. intros Hv. apply status_valid_spec in Hv.
      contradiction. }
    unfold updateOrder, handler_of. rewrite (ObjectId_isValid_of id i Hid).
    unfold bind, Order_findByIdAndUpdate, Order_castUpdate. simpl.
    rewrite Hid, Order_cast_status_str, Hv. reflexivity.
Qed.

(** An accepted update leaves the status alone or sets one the schema
    declares. *)
Lemma Order_castUpdate_status (u : OrderReq.t) (f : Order.t -> Order.t) :
  Order_castUpdate u = Ok f ->
  forall o, Order.status_valid (Order.status o) = true ->
            Order.status_valid (Order.status (f o)) = true.
Proof.
  unfold Order_castUpdate. intros Hu o Ho. peel Hu. injection Hu as <-.
  cbn [Order.status].
  match goal with
  | Hs : patch Order_cast_status _ = Ok ?s |- _ =>
      unfold patch in Hs; destruct (OrderReq.status u);
      try (injection Hs as <-; exact Ho);
      peel Hs; injection Hs as <-; simpl;
      eapply Order_cast_status_Ok; eassumption
  end.
Qed.

Lemma patch_Ok {A} (cast : jsval -> result A) (v : jsval) (x : option A) :
  patch cast v = Ok x ->
  x = None \/ exists a, x = Some a /\ cast v = Ok a.
Proof.
  unfold patch. destruct v; try (intros [= <-]; left; reflexivity);
    intros Hp; peel Hp; injection Hp as <-; right; eauto.
Qed.

(** An accepted update turns a document that passes the schema into one
    that passes it. *)
Lemma Order_castUpdate_validate (u : OrderReq.t) (f : Order.t -> Order.t)
    (o : Order.t) :
  Order_castUpdate u = Ok f ->
  Order.validate o = true -> Order.validate (f o) = true.
Proof.
  unfold Order_castUpdate. intros Hu Hv. peel Hu. injection Hu as <-.
  unfold Order.validate, Order.paths_valid in Hv.
  rewrite !andb_true_iff in Hv.
  destruct Hv as [[[[[[[[[[[Hn He] Hm] Hp] Hl] Hf] Hpl] Hple] Hs] Hse] Hpr]
                    Hst].
  repeat match goal with
         | Hc : patch _ _ = Ok _ |- _ => apply patch_Ok in Hc
         end.
  unfold Order.validate, Order.paths_valid.
  cbn [Order.name Order.email Order.phoneNumber Order.profileLink
       Order.requiredFollowers Order.platform Order.service Order.price
       Order.status].
  rewrite !andb_true_iff.
  repeat split;
    match goal with
    | Hc : ?x = None \/ _ |- context [default _ ?x] =>
        destruct Hc as [-> | (w & -> & Hw)]
    end;
    try assumption; cbn [default from_option id].
  - apply required_trimmed_Ok in Hw. rewrite Hw. reflexivity.
  - apply Order_cast_email_Ok in Hw as [Hw _]. rewrite Hw. reflexivity.
  - apply Order_cast_email_Ok in Hw as [_ Hw]. exact Hw.
  - apply required_trimmed_Ok in Hw. rewrite Hw. reflexivity.
  - apply required_trimmed_Ok in Hw. rewrite Hw. reflexivity.
  - apply Order_cast_requiredFollowers_Ok in Hw. exact Hw.
  - apply Order_cast_platform_Ok in Hw as [Hw _]. rewrite Hw. reflexivity.
  - apply Order_cast_platform_Ok in Hw as [_ Hw]. exact Hw.
  - apply Order_cast_service_Ok in Hw as [Hw _]. rewrite Hw. reflexivity.
  - apply Order_cast_service_Ok in Hw as [_ Hw]. exact Hw.
  - apply Order_cast_price_Ok in Hw. exact Hw.
  - apply Order_cast_status_Ok in Hw. exact Hw.
Qed.

(** X8. For an update body that names paths of the schema (no update operator):
    whatever [PATCH /updateOrder/:id] answers with an Order, that Order was
    stored under the id, it is now stored as answered, and it passes the Order
    schema if the stored one did: the validators run on every path of the update
    ([runValidators: true]). *)
Theorem updateOrder_keeps_schema (id : string) (u : OrderReq.t) (st : Store)
    (i : ObjectId) (o' : Order.t) :
  reply_doc (snd (updateOrder id u st)) = Some (i, o') ->
  exists o,
    orders st !! i = Some o
    /\ fst (updateOrder id u st) = set_orders (insert i o') st
    /\ (Order.validate o = true -> Order.validate o' = true).
Proof.
  unfold updateOrder, handler_of.
  destruct (negb (ObjectId_isValid id)); [discriminate |].
  unfold bind, Order_findByIdAndUpdate.
  destruct (ObjectId_ofString id) as [j |]; [| discriminate].
  destruct (Order_castUpdate u) as [f | e] eqn:Hf; [| discriminate].
  destruct (orders st !! j) as [o |] eqn:Ho; simpl; [| discriminate].
  intros [= <- <-]. exists o. split; [exact Ho |]. split; [reflexivity |].
  exact (Order_castUpdate_validate u f o Hf).
Qed.

(** ** What the handlers write *)

Lemma Payment_create_frame (b : PaymentReq.t) (st st1 : Store)
    (r : result (doc Payment.t)) :
  Payment_create b st = (st1, r) ->
  orders st1 = orders st /\ refunds st1 = refunds st.
Proof.
  unfold Payment_create. destruct (Payment_document b).
  - destruct (Payment_unique_conflict _ _ _ _); intros [= <- _]; auto.
  - intros [= <- _]; auto.
Qed.

Lemma Order_set_status_status (s : string) (o : Order.t) :
  Order.status (Order.set_status s o) = s.
Proof. reflexivity. Qed.

Lemma refundRequests_run (b : RefundReq.t) (st : Store) :
  let '(st', r) := refundRequests b st in st' = st /\ code r <> 201.
Proof.
  unfold refundRequests, handler.
  destruct (_ || _); [split; [reflexivity | discriminate] |].
  unfold bind at 1. unfold Order_findById.
  destruct (castObjectId (RefundReq.orderId b)) as [[i |] | e];
    try (split; [reflexivity | discriminate]).
  destruct (orders st !! i) as [o |]; simpl;
    [| split; [reflexivity | discriminate]].
  destruct (String.eqb (Order.status o) "Refunded");
    split; try reflexivity; discriminate.
Qed.

(** X11. [POST /refundRequests] never writes: whatever the body and the store,
    the store is returned as it was, and the answer is never 201. *)
Theorem refundRequests_never_writes (b : RefundReq.t) (st : Store) :
  fst (refundRequests b st) = st
  /\ code (snd (refundRequests b st)) <> 201.
Proof.
  pose proof (refundRequests_run b st) as Hrun.
  destruct (refundRequests b st) as [st' r]. exact Hrun.
Qed.

Lemma updatePayment_run
    (id : string) (updates : PaymentReq.t) (st : Store) :
  let '(st', _) := updatePayment id updates st in
  refunds st' = refunds st
  /\ (orders st' = orders st
      \/ exists i o,
           orders st !! i = Some o
           /\ may_start (Order.status o) = true
           /\ orders st' = <[i := Order.set_status "In Progress" o]>
                             (orders st)).
Proof.
  unfold updatePayment, handler.
  destruct (negb (ObjectId_isValid id)); [simpl; auto |].
  unfold bind at 1.
  destruct (Payment_findByIdAndUpdate id updates st) as [st1 r] eqn:Hu.
  destruct (Payment_findByIdAndUpdate_frame _ _ _ _ _ Hu) as [Hord Href].
  destruct r as [[p |] | e]; simpl; try (rewrite Hord, Href; auto).
  unfold bind at 1.
  destruct (is_approved p); [| simpl; rewrite Hord, Href; auto].
  unfold bind at 1. unfold Order_findById_oid.
  destruct (orders st1 !! Payment.orderId (fields p)) as [o |] eqn:Ho;
    simpl; [| rewrite Hord, Href; auto].
  destruct (may_start (Order.status o)) eqn:Hm;
    [| simpl; rewrite Hord, Href; auto].
  unfold Order_save. simpl.
  destruct (Order.validate _); simpl; rewrite ?Hord, Href; auto.
  split; [reflexivity |]. right.
  exists (Payment.orderId (fields p)), o. rewrite <- Hord. auto.
Qed.

(** X12. [PATCH /updatePayment/:id] never creates or deletes an Order and never
    writes a Refund; the one change it can make to the Orders is to put in [In
    Progress] an Order whose status is none of Completed, Cancelled, Refunded,
    Failed, In Progress. *)
Theorem updatePayment_footprint
    (id : string) (updates : PaymentReq.t) (st : Store) :
  refunds (fst (updatePayment id updates st)) = refunds st
  /\ (orders (fst (updatePayment id updates st)) = orders st
      \/ exists i o,
           orders st !! i = Some o
           /\ (Order.status o ∉ started_or_closed)
           /\ orders (fst (updatePayment id updates st))
              = <[i := Order.set_status "In Progress" o]> (orders st)).
Proof.
  pose proof (updatePayment_run id updates st) as Hrun.
  destruct (updatePayment id updates st) as [st' r]. simpl.
  destruct Hrun as [Href [Hsame | (i & o & Ho & Hm & Hins)]].
  - auto.
  - split; [assumption |]. right. exists i, o.
    apply may_start_spec in Hm. auto.
Qed.

Lemma createPayment_run (b : PaymentReq.t) (st : Store) :
  let '(st', _) := createPayment b st in
  refunds st' = refunds st
  /\ (payments st' = payments st
      \/ exists p, payments st'
                   = <[fresh (dom (payments st)) := p]> (payments st))
  /\ (orders st' = orders st
      \/ exists i o,
           orders st !! i = Some o
           /\ orders st' = <[i := Order.set_status "Payment Pending" o]>
                             (orders st)).
Proof.
  unfold createPayment, handler.
  destruct (_ || _); [simpl; auto |].
  unfold bind at 1. unfold Payment_create.
  destruct (Payment_document _) as [p | e]; [| simpl; auto].
  destruct (Payment_unique_conflict _ _ _ _); [simpl; auto |].
  unfold bind at 1. unfold Order_findById.
  destruct (castObjectId (PaymentReq.orderId b)) as [[i |] | e];
    simpl; eauto 6.
  destruct (orders st !! i) as [o |] eqn:Ho; simpl; eauto 6.
  unfold Order_save. simpl.
  destruct (Order.validate _); simpl; eauto 8.
  split; [reflexivity |]. split; [eauto |]. right. exists i, o. auto.
Qed.

(** X13. [POST /createPayment] never deletes an Order, never writes a Refund and
    adds at most one Payment; the one change it can make to the Orders is to put
    a stored Order in [Payment Pending]. *)
Theorem createPayment_footprint (b : PaymentReq.t) (st : Store) :
  refunds (fst (createPayment b st)) = refunds st
  /\ (payments (fst (createPayment b st)) = payments st
      \/ exists p, payments (fst (createPayment b st))
                   = <[fresh (dom (payments st)) := p]> (payments st))
  /\ (orders (fst (createPayment b st)) = orders st
      \/ exists i o,
           orders st !! i = Some o
           /\ orders (fst (createPayment b st))
              = <[i := Order.set_status "Payment Pending" o]> (orders st)).
Proof.
  pose proof (createPayment_run b st) as Hrun.
  destruct (createPayment b st) as [st' r]. exact Hrun.
Qed.

(** ** Invariants of the store *)

Lemma updateOrder_run (id : string) (u : OrderReq.t) (st : Store) :
  let '(st', _) := updateOrder id u st in
  orders st' = orders st
  \/ exists i o f,
       Order_castUpdate u = Ok f
       /\ orders st !! i = Some o
       /\ orders st' = <[i := f o]> (orders st).
Proof.
  unfold updateOrder, handler_of.
  destruct (negb (ObjectId_isValid id)); [simpl; auto |].
  unfold bind, Order_findByIdAndUpdate.
  destruct (ObjectId_ofString id) as [i |]; [| simpl; auto].
  destruct (Order_castUpdate u) as [f | e] eqn:Hf; [| simpl; auto].
  destruct (orders st !! i) as [o |] eqn:Ho; simpl; [| auto].
  right. exists i, o, f. auto.
Qed.

Lemma deleteOrder_run (id : string) (st : Store) :
  let '(st', _) := deleteOrder id st in
  orders st' = orders st \/ exists i, orders st' = delete i (orders st).
Proof.
  unfold deleteOrder, handler_of.
  destruct (negb (ObjectId_isValid id)); [simpl; auto |].
  unfold bind at 1. unfold Order_findById. simpl.
  destruct (ObjectId_ofString id) as [i |] eqn:Hid; [| simpl; auto].
  destruct (orders st !! i) as [o |] eqn:Ho; simpl; [| auto].
  unfold bind, Order_findByIdAndDelete. rewrite Hid, Ho. simpl. eauto.
Qed.

Lemma statuses_declared_insert (st st' : Store) (i : ObjectId)
    (o : Order.t) :
  statuses_declared st ->
  Order.status_valid (Order.status o) = true ->
  orders st' = <[i := o]> (orders st) ->
  statuses_declared st'.
Proof.
  intros Hinv Ho Hst' j o' Hj. rewrite Hst' in Hj.
  apply lookup_insert_Some in Hj as [[_ <-] | [_ Hj]];
    [assumption | exact (Hinv j o' Hj)].
Qed.

Lemma statuses_declared_same (st st' : Store) :
  statuses_declared st -> orders st' = orders st -> statuses_declared st'.
Proof. intros Hinv Hst' j o' Hj. rewrite Hst' in Hj. exact (Hinv j o' Hj). Qed.

(** X9. If every stored Order has a status that the Order schema declares, this
    is still so after any request to [createOrder], [deleteOrder],
    [createPayment], [updatePayment] or [refundRequests], and after any request
    to [updateOrder] whose body names paths of the schema (no update operator):
    of the handlers that write Orders, [updateRefund] stores a status outside
    the enum. *)
Theorem statuses_declared_kept (st : Store) :
  statuses_declared st ->
  (forall b, statuses_declared (fst (createOrder b st)))
  /\ (forall id u, statuses_declared (fst (updateOrder id u st)))
  /\ (forall id, statuses_declared (fst (deleteOrder id st)))
  /\ (forall b, statuses_declared (fst (createPayment b st)))
  /\ (forall id u, statuses_declared (fst (updatePayment id u st)))
  /\ (forall b, statuses_declared (fst (refundRequests b st))).
Proof.
  intros Hinv. repeat split.
  - intros b.
    destruct (createOrder_cases b st) as [(Hst & _) | (o & Hd & Hrun)].
    + rewrite Hst. assumption.
    + rewrite Hrun. simpl.
      eapply statuses_declared_insert; [eassumption | | reflexivity].
      rewrite (Order_document_pending b o Hd). reflexivity.
  - intros id u. pose proof (updateOrder_run id u st) as Hrun.
    destruct (updateOrder id u st) as [st' r]. simpl.
    destruct Hrun as [Hsame | (i & o & f & Hf & Ho & Hins)].
    + eapply statuses_declared_same; eassumption.
    + eapply statuses_declared_insert; [eassumption | | eassumption].
      apply (Order_castUpdate_status u f Hf). exact (Hinv i o Ho).
  - intros id. pose proof (deleteOrder_run id st) as Hrun.
    destruct (deleteOrder id st) as [st' r]. simpl.
    destruct Hrun as [Hsame | (i & Hdel)].
    + eapply statuses_declared_same; eassumption.
    + intros j o Hj. rewrite Hdel in Hj.
      apply lookup_delete_Some in Hj as [_ Hj]. exact (Hinv j o Hj).
  - intros b. pose proof (createPayment_run b st) as Hrun.
    destruct (createPayment b st) as [st' r]. simpl.
    destruct Hrun as (_ & _ & [Hsame | (i & o & Ho & Hins)]).
    + eapply statuses_declared_same; eassumption.
    + eapply statuses_declared_insert; [eassumption | | eassumption].
      reflexivity.
  - intros id u. pose proof (updatePayment_run id u st) as Hrun.
    destruct (updatePayment id u st) as [st' r]. simpl.
    destruct Hrun as (_ & [Hsame | (i & o & Ho & _ & Hins)]).
    + eapply statuses_declared_same; eassumption.
    + eapply statuses_declared_insert; [eassumption | | eassumption].
      reflexivity.
  - intros b. pose proof (refundRequests_run b st) as Hrun.
    destruct (refundRequests b st) as [st' r]. simpl.
    destruct Hrun as [-> _]. assumption.
Qed.

Lemma transactionId_clear (ps : gmap ObjectId Payment.t) (i : ObjectId)
    (txn method : string) :
  Payment_unique_conflict ps i txn method = false ->
  forall j q, ps !! j = Some q -> j <> i -> Payment.transactionId q <> txn.
Proof.
  intros Hc j q Hq Hne Htx.
  assert (Ht : Payment_unique_conflict ps i txn method = true)
    by (apply Payment_unique_conflict_true; eauto).
  rewrite Ht in Hc. discriminate Hc.
Qed.

Lemma transactionIds_unique_insert (st st' : Store) (i : ObjectId)
    (p : Payment.t) :
  transactionIds_unique st ->
  (forall j q, payments st !! j = Some q -> j <> i ->
               Payment.transactionId q <> Payment.transactionId p) ->
  payments st' = <[i := p]> (payments st) ->
  transactionIds_unique st'.
Proof.
  intros Hinv Hclear Hst' j k q q' Hj Hk Htx. rewrite Hst' in Hj, Hk.
  apply lookup_insert_Some in Hj as [[<- <-] | [Hji Hj]];
    apply lookup_insert_Some in Hk as [[<- <-] | [Hki Hk]].
  - reflexivity.
  - exfalso. apply (Hclear k q' Hk); [congruence | congruence].
  - exfalso. apply (Hclear j q Hj); [congruence | congruence].
  - exact (Hinv j k q q' Hj Hk Htx).
Qed.

Lemma createPayment_payments (b : PaymentReq.t) (st : Store) :
  let '(st', _) := createPayment b st in
  payments st' = payments st
  \/ exists p,
       Payment_unique_conflict (payments st) (fresh (dom (payments st)))
         (Payment.transactionId p) (Payment.paymentMethod p) = false
       /\ payments st' = <[fresh (dom (payments st)) := p]> (payments st).
Proof.
  unfold createPayment, handler.
  destruct (_ || _); [simpl; auto |].
  unfold bind at 1. unfold Payment_create.
  destruct (Payment_document _) as [p | e]; [| simpl; auto].
  destruct (Payment_unique_conflict _ _ _ _) eqn:Hc; [simpl; auto |].
  unfold bind at 1. unfold Order_findById.
  destruct (castObjectId (PaymentReq.orderId b)) as [[i |] | e];
    simpl; eauto.
  destruct (orders st !! i) as [o |] eqn:Ho; simpl; eauto.
  unfold Order_save. simpl.
  destruct (Order.validate _); simpl; eauto.
Qed.

Lemma Payment_findByIdAndUpdate_payments
    (id : string) (u : PaymentReq.t) (st st1 : Store)
    (r : result (option (doc Payment.t))) :
  Payment_findByIdAndUpdate id u st = (st1, r) ->
  payments st1 = payments st
  \/ exists i p p',
       payments st !! i = Some p
       /\ payments st1 = <[i := p']> (payments st)
       /\ (Payment.transactionId p' = Payment.transactionId p
           \/ Payment_unique_conflict (payments st) i
                (Payment.transactionId p') (Payment.paymentMethod p')
              = false).
Proof.
  unfold Payment_findByIdAndUpdate.
  destruct (ObjectId_ofString id) as [i |]; [| intros [= <- _]; auto].
  destruct (Payment_castUpdate u) as [f | e]; [| intros [= <- _]; auto].
  destruct (payments st !! i) as [p |] eqn:Hp; [| intros [= <- _]; auto].
  destruct (negb _) eqn:Hmoved; simpl.
  - destruct (Payment_unique_conflict _ _ _ _) eqn:Hc;
      intros [= <- _]; [auto |].
    right. exists i, p, (f p). auto.
  - intros [= <- _]. right. exists i, p, (f p).
    apply negb_false_iff, andb_true_iff in Hmoved as [Htx _].
    apply String.eqb_eq in Htx. auto.
Qed.

Lemma updatePayment_payments
    (id : string) (u : PaymentReq.t) (st : Store) :
  let '(st', _) := updatePayment id u st in
  payments st' = payments st
  \/ exists i p p',
       payments st !! i = Some p
       /\ payments st' = <[i := p']> (payments st)
       /\ (Payment.transactionId p' = Payment.transactionId p
           \/ Payment_unique_conflict (payments st) i
                (Payment.transactionId p') (Payment.paymentMethod p')
              = false).
Proof.
  unfold updatePayment, handler.
  destruct (negb (ObjectId_isValid id)); [simpl; auto |].
  unfold bind at 1.
  destruct (Payment_findByIdAndUpdate id u st) as [st1 r] eqn:Hu.
  pose proof (Payment_findByIdAndUpdate_payments _ _ _ _ _ Hu) as Hpay.
  destruct r as [[p |] | e]; simpl; try exact Hpay.
  unfold bind at 1.
  destruct (is_approved p); [| simpl; exact Hpay].
  unfold bind at 1. unfold Order_findById_oid.
  destruct (orders st1 !! Payment.orderId (fields p)) as [o |];
    simpl; [| exact Hpay].
  destruct (may_start (Order.status o)); [| simpl; exact Hpay].
  unfold Order_save. simpl.
  destruct (Order.validate _); simpl; exact Hpay.
Qed.

(** X10. If no two stored Payments carry the same transactionId, this is still
    so after any request to [createPayment] or [updatePayment]. *)
Theorem transactionIds_unique_kept (st : Store) :
  transactionIds_unique st ->
  (forall b, transactionIds_unique (fst (createPayment b st)))
  /\ (forall id u, transactionIds_unique (fst (updatePayment id u st))).
Proof.
  intros Hinv. split.
  - intros b. pose proof (createPayment_payments b st) as Hrun.
    destruct (createPayment b st) as [st' r]. simpl.
    destruct Hrun as [Hsame | (p & Hc & Hins)].
    + intros i j q q' Hi Hj. rewrite Hsame in Hi, Hj. eauto.
    + eapply transactionIds_unique_insert; [eassumption | | eassumption].
      exact (transactionId_clear _ _ _ _ Hc).
  - intros id u. pose proof (updatePayment_payments id u st) as Hrun.
    destruct (updatePayment id u st) as [st' r]. simpl.
    destruct Hrun as [Hsame | (i & p & p' & Hp & Hins & [Htx | Hc])].
    + intros k j q q' Hk Hj. rewrite Hsame in Hk, Hj. eauto.
    + eapply transactionIds_unique_insert; [eassumption | | eassumption].
      intros j q Hq Hne Heq. apply Hne.
      apply (Hinv j i q p Hq Hp). congruence.
    + eapply transactionIds_unique_insert; [eassumption | | eassumption].
      exact (transactionId_clear _ _ _ _ Hc).
Qed.

(** ** Payment submission: failures and repetition *)

(** X14. A complete submission that the Payment schema refuses (a negative
    amount, an unknown paymentMethod, a malformed clientEmail or orderId) is
    answered with 500, not 400, and nothing is stored. *)
Theorem createPayment_schema_failure
    (b : PaymentReq.t) (st : Store) (e : exn) :
  PaymentReq_complete b ->
  Payment_document (PaymentReq_defaulted b) = Throw e ->
  createPayment b st
  = (st, mkResponse ServerError "Server error during payment creation"
           (ErrorPayload ValidationError)).
Proof.
  intros Hc Hd. unfold createPayment, handler.
  rewrite (PaymentReq_complete_test b Hc).
  unfold bind, Payment_create. fold (PaymentReq_defaulted b). rewrite Hd.
  unfold Payment_document in Hd. apply as_validation_Throw in Hd. subst e.
  reflexivity.
Qed.

(** A negative amount is such a failure. *)
Lemma Payment_document_negative_amount (b : PaymentReq.t) (n : Z) :
  PaymentReq.amount b = JNum n -> n < 0 ->
  Payment_document (PaymentReq_defaulted b) = Throw ValidationError.
Proof.
  intros Ha Hn. unfold Payment_document.
  cbn [PaymentReq_defaulted PaymentReq.with_status PaymentReq.orderId
       PaymentReq.clientName PaymentReq.clientEmail PaymentReq.amount].
  rewrite Ha.
  assert (Hamt : Payment_cast_amount (JNum n) = Throw ValidationError).
  { unfold Payment_cast_amount. simpl.
    destruct (0 <=? n) eqn:E; [| reflexivity].
    apply Z.leb_le in E. exfalso. apply (Z.lt_irrefl n).
    apply Z.lt_le_trans with 0; assumption. }
  rewrite Hamt.
  destruct (Payment_cast_orderId _); [| reflexivity].
  destruct (Payment_cast_clientName _); [| reflexivity].
  destruct (Payment_cast_clientEmail _); reflexivity.
Qed.

(** The Payment of a valid submission with a new transactionId is stored
    whatever happens to the Order afterwards. *)
Lemma createPayment_stores (b : PaymentReq.t) (st : Store) (p : Payment.t) :
  valid_payment_submission b p ->
  transactionId_is_new st p ->
  payments (fst (createPayment b st))
  = <[fresh (dom (payments st)) := p]> (payments st)
  /\ refunds (fst (createPayment b st)) = refunds st.
Proof.
  intros [Hc Hd] Hnew. unfold createPayment, handler.
  rewrite (PaymentReq_complete_test b Hc).
  unfold bind, Payment_create. fold (PaymentReq_defaulted b). rewrite Hd.
  rewrite (Payment_create_no_conflict st p Hnew).
  unfold Order_findById.
  rewrite (Payment_document_orderId _ _ Hd : castObjectId
             (PaymentReq.orderId b) = _).
  simpl. destruct (orders st !! Payment.orderId p) as [o |]; simpl;
    [| auto].
  unfold Order_save. simpl. destruct (Order.validate _); simpl; auto.
Qed.

(** A stored pair (transactionId, paymentMethod) makes the submission a
    conflict. *)
Lemma createPayment_duplicate (b : PaymentReq.t) (st : Store)
    (p : Payment.t) :
  valid_payment_submission b p ->
  pair_exists st p ->
  createPayment b st
  = (st, mkResponse Conflict
           "A payment with this transaction ID already exists for this method."
           (ErrorPayload DuplicateKey)).
Proof.
  intros [Hc Hd] Hex. unfold createPayment, handler.
  rewrite (PaymentReq_complete_test b Hc).
  unfold bind, Payment_create. fold (PaymentReq_defaulted b). rewrite Hd.
  rewrite (Payment_create_conflict st p Hex). reflexivity.
Qed.

(** X15. Sending a valid payment submission a second time is answered with 409
    and changes nothing more: the first one stored its Payment, whether or not
    the Order could be updated. *)
Theorem createPayment_twice (b : PaymentReq.t) (st : Store) (p : Payment.t) :
  valid_payment_submission b p ->
  transactionId_is_new st p ->
  createPayment b (fst (createPayment b st))
  = (fst (createPayment b st),
     mkResponse Conflict
       "A payment with this transaction ID already exists for this method."
       (ErrorPayload DuplicateKey)).
Proof.
  intros Hv Hnew. apply (createPayment_duplicate b _ p Hv).
  destruct (createPayment_stores b st p Hv Hnew) as [Hpay _].
  exists (fresh (dom (payments st))), p. rewrite Hpay.
  rewrite lookup_insert_eq. auto.
Qed.

(** X16. No compensation: when the referenced Order is stored but does not pass
    its own schema, [save()] rejects, the answer is 500, and the Payment created
    just before stays in the store. *)
Theorem createPayment_keeps_payment_on_order_failure
    (b : PaymentReq.t) (st : Store) (p : Payment.t) (o : Order.t) :
  valid_payment_submission b p ->
  transactionId_is_new st p ->
  orders st !! Payment.orderId p = Some o ->
  Order.paths_valid o = false ->
  createPayment b st
  = (set_payments (insert (fresh (dom (payments st))) p) st,
     mkResponse ServerError "Server error during payment creation"
       (ErrorPayload ValidationError)).
Proof.
  intros [Hc Hd] Hnew Ho Hbad. unfold createPayment, handler.
  rewrite (PaymentReq_complete_test b Hc).
  unfold bind, Payment_create. fold (PaymentReq_defaulted b). rewrite Hd.
  rewrite (Payment_create_no_conflict st p Hnew).
  unfold Order_findById.
  rewrite (Payment_document_orderId _ _ Hd : castObjectId
             (PaymentReq.orderId b) = _).
  simpl. rewrite Ho. simpl. unfold Order_save, Order.validate. simpl.
  replace (Order.paths_valid (Order.set_status "Payment Pending" o))
    with (Order.paths_valid o) by (destruct o; reflexivity).
  rewrite Hbad. reflexivity.
Qed.

(** ** Payment review: runs and repetition *)

(** What [PATCH /updatePayment/:id] does once the Payment is updated. *)
Lemma updatePayment_found
    (id : string) (u : PaymentReq.t) (st st1 : Store) (p : doc Payment.t) :
  Payment_findByIdAndUpdate id u st = (st1, Ok (Some p)) ->
  updatePayment id u st
  = let ok := mkResponse 200 "Payment updated successfully"
                (PaymentPayload p) in
    if is_approved p then
      match orders st1 !! Payment.orderId (fields p) with
      | Some o =>
          if may_start (Order.status o) then
            if Order.validate (Order.set_status "In Progress" o)
            then (set_orders
                    (insert (Payment.orderId (fields p))
                       (Order.set_status "In Progress" o)) st1, ok)
            else (st1, mkResponse 500 "Server error updating payment"
                         (ErrorPayload ValidationError))
          else (st1, ok)
      | None => (st1, ok)
      end
    else (st1, ok).
Proof.
  intros Hu.
  pose proof (Payment_findByIdAndUpdate_valid _ _ _ _ _ Hu) as Hid.
  unfold updatePayment, handler. rewrite Hid. simpl.
  unfold bind at 1. rewrite Hu. unfold bind at 1.
  destruct (is_approved p); [| reflexivity].
  unfold bind, Order_findById_oid.
  destruct (orders st1 !! Payment.orderId (fields p)) as [o |]; simpl;
    [| reflexivity].
  destruct (may_start (Order.status o)); [| reflexivity].
  unfold Order_save. simpl. destruct (Order.validate _); reflexivity.
Qed.

(** Applying an accepted update twice is applying it once. *)
Lemma Payment_castUpdate_idempotent
    (u : PaymentReq.t) (f : Payment.t -> Payment.t) :
  Payment_castUpdate u = Ok f -> forall p, f (f p) = f p.
Proof.
  unfold Payment_castUpdate. intros Hu p. peel Hu. injection Hu as <-.
  cbn [Payment.orderId Payment.clientName Payment.clientEmail
       Payment.amount Payment.paymentMethod Payment.transactionId
       Payment.screenshotUrl Payment.remarks Payment.status].
  f_equal;
    match goal with
    | |- default (default _ ?a) ?a = _ => destruct a; reflexivity
    end.
Qed.

(** The Payment update on a store that already holds its result. *)
Lemma Payment_findByIdAndUpdate_again
    (id : string) (u : PaymentReq.t) (st st1 st2 : Store)
    (p : doc Payment.t) :
  Payment_findByIdAndUpdate id u st = (st1, Ok (Some p)) ->
  payments st2 = payments st1 ->
  Payment_findByIdAndUpdate id u st2 = (st2, Ok (Some p)).
Proof.
  unfold Payment_findByIdAndUpdate. intros Hu Hpay.
  destruct (ObjectId_ofString id) as [i |]; [| discriminate Hu].
  destruct (Payment_castUpdate u) as [f | e] eqn:Hf; [| discriminate Hu].
  destruct (payments st !! i) as [p0 |]; [| discriminate Hu].
  destruct (_ && _); [discriminate Hu |].
  injection Hu as <- <-.
  assert (Hp : payments st2 !! i = Some (f p0)).
  { rewrite Hpay. simpl. apply lookup_insert_eq. }
  rewrite Hp, (Payment_castUpdate_idempotent u f Hf), !String.eqb_refl.
  simpl. f_equal. destruct st2 as [os ps rs]. unfold set_payments. simpl in *.
  f_equal. apply insert_id. assumption.
Qed.

(** X17. For an update body that names paths of the schema (no update operator):
    repeating a payment review that was answered with 200 gives the same answer
    and leaves the store as the first one left it: the Order it started stays
    [In Progress], and nothing else is written. *)
Theorem updatePayment_twice (id : string) (u : PaymentReq.t) (st : Store) :
  code (snd (updatePayment id u st)) = 200 ->
  updatePayment id u (fst (updatePayment id u st)) = updatePayment id u st.
Proof.
  intros Hcode.
  destruct (Payment_findByIdAndUpdate id u st) as [st1 [[p |] | e]] eqn:Hu.
  - rewrite (updatePayment_found id u st st1 p Hu) in *. cbv zeta in *.
    destruct (is_approved p) eqn:Ha.
    + destruct (orders st1 !! Payment.orderId (fields p)) as [o |] eqn:Ho.
      * destruct (may_start (Order.status o)) eqn:Hm.
        -- destruct (Order.validate (Order.set_status "In Progress" o));
             [| discriminate Hcode].
           cbn [fst].
           rewrite (updatePayment_found id u _ _ p
                      (Payment_findByIdAndUpdate_again id u st st1
                         (set_orders
                            (insert (Payment.orderId (fields p))
                               (Order.set_status "In Progress" o)) st1)
                         p Hu eq_refl)).
           cbv zeta. rewrite Ha. simpl. rewrite lookup_insert_eq. simpl.
           reflexivity.
        -- cbn [fst].
           rewrite (updatePayment_found id u _ _ p
                      (Payment_findByIdAndUpdate_again id u st st1 st1 p Hu
                         eq_refl)).
           cbv zeta. rewrite Ha, Ho, Hm. reflexivity.
      * cbn [fst].
        rewrite (updatePayment_found id u _ _ p
                   (Payment_findByIdAndUpdate_again id u st st1 st1 p Hu
                      eq_refl)).
        cbv zeta. rewrite Ha, Ho. reflexivity.
    + cbn [fst].
      rewrite (updatePayment_found id u _ _ p
                 (Payment_findByIdAndUpdate_again id u st st1 st1 p Hu
                    eq_refl)).
      cbv zeta. rewrite Ha. reflexivity.
  - exfalso. revert Hcode. unfold updatePayment, handler.
    destruct (negb (ObjectId_isValid id)); [discriminate |].
    unfold bind. rewrite Hu. discriminate.
  - exfalso. revert Hcode. unfold updatePayment, handler.
    destruct (negb (ObjectId_isValid id)); [discriminate |].
    unfold bind. rewrite Hu. discriminate.
Qed.

(** ** Reviews against the other collections *)

(** X18. A refund review of a stored Refund whose Order is gone: the Refund is
    updated all the same, the Order update finds nothing, and the mail template
    then reads [_id] of [null], so the answer is 500. *)
Theorem updateRefund_order_missing
    (id : string) (b : RefundReview.t) (st : Store)
    (i : ObjectId) (r : Refund.t) :
  ObjectId_ofString id = Some i ->
  refunds st !! i = Some r ->
  orders st !! Refund.orderId r = None ->
  RefundReview.status b = JStr "Approved"
  \/ RefundReview.status b = JStr "Rejected" ->
  updateRefund id b st
  = (set_refunds (insert i (reviewed b r)) st,
     mkResponse ServerError "Server error updating refund request"
       (ErrorPayload TypeError)).
Proof.
  intros Hid Hr Ho Hs.
  assert (Hin : includes ["Approved"; "Rejected"] (RefundReview.status b)
                = true) by (apply includes_approved_rejected; exact Hs).
  destruct (Refund_castUpdate_accepted b Hin) as (f & Hf & Hfr).
  unfold updateRefund, handler, ObjectId_isValid. rewrite Hid, Hin. simpl.
  unfold bind at 1. unfold Refund_findByIdAndUpdate.
  rewrite Hid, Hf, Hr, Hfr.
  unfold bind at 1. unfold populate_orderId, Order_findById_oid. simpl.
  rewrite Ho. simpl.
  destruct Hs as [-> | ->]; reflexivity.
Qed.

(** The Payment update of the review [{ status: "Approved" }]. *)
Lemma Payment_approve_update
    (id : string) (st : Store) (i : ObjectId) (p : Payment.t) :
  ObjectId_ofString id = Some i ->
  payments st !! i = Some p ->
  Payment_findByIdAndUpdate id (PaymentReq_status_only "Approved") st
  = (set_payments (insert i (Payment_set_status (Some "Approved") p)) st,
     Ok (Some (i, Payment_set_status (Some "Approved") p))).
Proof.
  intros Hid Hp. unfold Payment_findByIdAndUpdate. rewrite Hid. simpl.
  rewrite Hp. simpl. rewrite !String.eqb_refl. reflexivity.
Qed.

Lemma Order_set_status_twice (s t : string) (o : Order.t) :
  Order.set_status s (Order.set_status t o) = Order.set_status s o.
Proof. reflexivity. Qed.

Lemma Order_paths_valid_set_status (s : string) (o : Order.t) :
  Order.paths_valid (Order.set_status s o) = Order.paths_valid o.
Proof. reflexivity. Qed.

(** X19. A rejected refund does not close the Order: a payment approval that
    follows it puts the Order in [In Progress] when the Order passes the
    schema on its paths other than [status]; when it does not, the approval
    is answered with 500 and the Order stays [Refund Rejected]. After an
    approved refund the same approval leaves the Order [Refunded]. *)
Theorem payment_approval_after_refund_review
    (rid pid : string) (remarks : jsval) (st : Store)
    (ri pi : ObjectId) (r : Refund.t) (p : Payment.t) (o : Order.t) :
  ObjectId_ofString rid = Some ri ->
  ObjectId_ofString pid = Some pi ->
  refunds st !! ri = Some r ->
  payments st !! pi = Some p ->
  Payment.orderId p = Refund.orderId r ->
  orders st !! Refund.orderId r = Some o ->
  (Order.paths_valid o = true ->
   orders (fst (updatePayment pid (PaymentReq_status_only "Approved")
                  (fst (updateRefund rid
                          (RefundReview.mk (JStr "Rejected") remarks) st))))
   = <[Refund.orderId r := Order.set_status "In Progress" o]> (orders st))
  /\ (Order.paths_valid o = false ->
      orders (fst (updatePayment pid (PaymentReq_status_only "Approved")
                     (fst (updateRefund rid
                             (RefundReview.mk (JStr "Rejected") remarks)
                             st))))
      = <[Refund.orderId r := Order.set_status "Refund Rejected" o]>
          (orders st)
      /\ code (snd (updatePayment pid (PaymentReq_status_only "Approved")
                      (fst (updateRefund rid
                              (RefundReview.mk (JStr "Rejected") remarks)
                              st)))) = 500)
  /\ orders (fst (updatePayment pid (PaymentReq_status_only "Approved")
                    (fst (updateRefund rid
                            (RefundReview.mk (JStr "Approved") remarks)
                            st))))
     = <[Refund.orderId r := Order.set_status "Refunded" o]> (orders st).
Proof.
  intros Hrid Hpid Hr Hp Hoid Ho. split; [| split].
  - intros Hv.
    rewrite (updateRefund_accepted rid _ st ri r o "Rejected"
               "Refund Rejected") by auto.
    cbn [fst].
    match goal with
    | |- context [updatePayment _ _ ?s] =>
        rewrite (updatePayment_found pid _ s _ _
                   (Payment_approve_update pid s pi p Hpid Hp))
    end.
    cbv zeta. simpl. rewrite Hoid, lookup_insert_eq. simpl.
    rewrite (Order_validate_set_status "In Progress"
               (Order.set_status "Refund Rejected" o) Hv eq_refl).
    simpl. rewrite insert_insert_eq. reflexivity.
  - intros Hbad.
    rewrite (updateRefund_accepted rid _ st ri r o "Rejected"
               "Refund Rejected") by auto.
    cbn [fst].
    match goal with
    | |- context [updatePayment _ _ ?s] =>
        rewrite (updatePayment_found pid _ s _ _
                   (Payment_approve_update pid s pi p Hpid Hp))
    end.
    cbv zeta. simpl. rewrite Hoid, lookup_insert_eq. simpl.
    rewrite (Order_validate_set_status_fails "In Progress"
               (Order.set_status "Refund Rejected" o) Hbad).
    simpl. split; reflexivity.
  - rewrite (updateRefund_accepted rid _ st ri r o "Approved" "Refunded")
      by auto.
    cbn [fst].
    match goal with
    | |- context [updatePayment _ _ ?s] =>
        rewrite (updatePayment_found pid _ s _ _
                   (Payment_approve_update pid s pi p Hpid Hp))
    end.
    cbv zeta. simpl. rewrite Hoid, lookup_insert_eq. simpl.
    reflexivity.
Qed.

(** X20. Deleting an Order does not touch its Payments, and approving one of
    them afterwards is answered with 200, marks the Payment [Approved] and
    brings no Order back. *)
Theorem payment_approval_after_deleteOrder
    (oid pid : string) (st : Store)
    (i pi : ObjectId) (o : Order.t) (p : Payment.t) :
  ObjectId_ofString oid = Some i ->
  orders st !! i = Some o ->
  ObjectId_ofString pid = Some pi ->
  payments st !! pi = Some p ->
  Payment.orderId p = i ->
  updatePayment pid (PaymentReq_status_only "Approved")
    (fst (deleteOrder oid st))
  = (mkStore (delete i (orders st))
       (<[pi := Payment_set_status (Some "Approved") p]> (payments st))
       (refunds st),
     mkResponse 200 "Payment updated successfully"
       (PaymentPayload (pi, Payment_set_status (Some "Approved") p))).
Proof.
  intros Hoid Ho Hpid Hp Hpo.
  rewrite (deleteOrder_stored oid st i o Hoid Ho). cbn [fst].
  match goal with
  | |- context [updatePayment _ _ ?s] =>
      rewrite (updatePayment_found pid _ s _ _
                 (Payment_approve_update pid s pi p Hpid Hp))
  end.
  cbv zeta. simpl. rewrite Hpo, lookup_delete_eq. reflexivity.
Qed.
End OrderProperties.

(** ** Blog posts *)

Lemma String_length_append (s t : string) :
  String.length (s ++ t) = (String.length s + String.length t)%nat.
Proof.
  induction s as [| c s IH]; [reflexivity |].
  change (S (String.length (s ++ t))
          = S (String.length s + String.length t)).
  now rewrite IH.
Qed.

Lemma String_length_prefix (n : nat) (s : string) :
  String.length (String.substring 0 n s) = Nat.min n (String.length s).
Proof.
  revert s. induction n as [| n IH]; intros [| c s]; simpl;
    try reflexivity.
  now rewrite IH.
Qed.

Lemma String_prefix_all (n : nat) (s : string) :
  (String.length s <= n)%nat -> String.substring 0 n s = s.
Proof.
  revert s. induction n as [| n IH]; intros [| c s] Hle; simpl in *;
    try reflexivity.
  - inversion Hle.
  - f_equal. apply IH. apply le_S_n. exact Hle.
Qed.

Lemma String_append_empty (s : string) : s ++ "" = s.
Proof.
  induction s as [| c s IH]; [reflexivity |].
  change (String c (s ++ "") = String c s). now rewrite IH.
Qed.

Lemma generated_snippet_length (content : string) :
  (String.length (BlogPost.generated_snippet content) <= 153)%nat.
Proof.
  unfold BlogPost.generated_snippet.
  rewrite String_length_append, String_length_prefix.
  destruct (150 <? String.length content)%nat.
  - apply (Nat.add_le_mono _ 150 _ 3); [apply Nat.le_min_l | apply Nat.le_refl].
  - apply Nat.le_trans with 150%nat.
    + rewrite Nat.add_0_r. apply Nat.le_min_l.
    + repeat constructor.
Qed.

(** The right-hand side of the assignment of the hook: the content itself
    when it has at most 150 characters, else 153 characters, the first 150
    of the content and three dots. *)
Lemma generated_snippet_cases (content : string) :
  ((String.length content <= 150)%nat ->
   BlogPost.generated_snippet content = content)
  /\ ((150 < String.length content)%nat ->
      BlogPost.generated_snippet content
      = String.substring 0 150 content ++ "..."
      /\ String.length (BlogPost.generated_snippet content) = 153%nat)
  /\ (String.length (BlogPost.generated_snippet content) <= 153)%nat.
Proof.
  unfold BlogPost.generated_snippet.
  destruct (150 <? String.length content)%nat eqn:E.
  - apply Nat.ltb_lt in E.
    assert (Hlen : String.length (String.substring 0 150 content ++ "...")
                   = 153%nat).
    { rewrite String_length_append, String_length_prefix.
      rewrite Nat.min_l by (apply Nat.lt_le_incl; exact E). reflexivity. }
    split; [| split].
    + intros Hle. exfalso. apply (Nat.lt_irrefl 150).
      apply Nat.lt_le_trans with (String.length content); assumption.
    + intros _. split; [reflexivity | exact Hlen].
    + rewrite Hlen. apply Nat.le_refl.
  - apply Nat.ltb_ge in E. split; [| split].
    + intros _. rewrite String_append_empty.
      apply String_prefix_all. exact E.
    + intros Hlt. exfalso. apply (Nat.lt_irrefl 150).
      apply Nat.lt_le_trans with (String.length content); assumption.
    + rewrite String_append_empty, String_length_prefix.
      apply Nat.le_trans with 150%nat; [apply Nat.le_min_l |].
      repeat constructor.
Qed.

Section BlogProperties.
Context `{Runtime}.

Lemma generated_snippet_nonempty (content : string) :
  String.eqb content "" = false ->
  String.eqb (BlogPost.generated_snippet content) "" = false.
Proof.
  destruct content as [| c s]; [discriminate |]. intros _. reflexivity.
Qed.

Lemma BlogPost_title_taken_true (posts : gmap ObjectId BlogPost.t)
    (title : string) :
  BlogPost_title_taken posts title = true
  <-> exists i p, posts !! i = Some p /\ BlogPost.title p = title.
Proof.
  unfold BlogPost_title_taken. rewrite existsb_exists. split.
  - intros [[i p] [Hin Ht]].
    apply list_elem_of_In, elem_of_map_to_list in Hin.
    apply String.eqb_eq in Ht. eauto.
  - intros (i & p & Hp & Ht). exists (i, p). split.
    + apply list_elem_of_In, elem_of_map_to_list. assumption.
    + apply String.eqb_eq. assumption.
Qed.

(** The ways [POST /blogPosts] ends. *)
Lemma createBlogPost_cases (b : BlogReq.t)
    (posts : gmap ObjectId BlogPost.t) :
  (fst (createBlogPost b posts) = posts
   /\ reply_code (snd (createBlogPost b posts)) <> 201
   /\ reply_doc (snd (createBlogPost b posts)) = None)
  \/ (exists p,
        BlogPost_document
          (BlogReq.with_author (js_or (BlogReq.author b) (JStr "Admin")) b)
        = Ok p
        /\ BlogPost_title_taken posts (BlogPost.title (BlogPost.pre_save p))
           = false
        /\ createBlogPost b posts
           = (<[fresh (dom posts) := BlogPost.pre_save p]> posts,
              mkReply 201 "Blog post created successfully"
                (Some (fresh (dom posts), BlogPost.pre_save p)))).
Proof.
  unfold createBlogPost.
  destruct (_ || _); [left; repeat split; discriminate |].
  unfold BlogPost_create.
  destruct (BlogPost_document _) as [p | e] eqn:Hd.
  - destruct (BlogPost_title_taken _ _) eqn:Ht.
    + left. repeat split; discriminate.
    + right. exists p. auto.
  - left. unfold BlogPost_document in Hd.
    apply as_validation_Throw in Hd. subst e. repeat split; discriminate.
Qed.

Lemma set_trim_generated (content : string) :
  String.eqb content "" = false ->
  set_trim (Some (BlogPost.generated_snippet content))
  = Some (String_trim (BlogPost.generated_snippet content)).
Proof.
  intros Hc. unfold set_trim.
  rewrite (generated_snippet_nonempty content Hc). reflexivity.
Qed.

(** X21. The [pre("save")] hook of a blog post leaves a post with a non-empty
    snippet, and a post without content, as it is. To any other post it
    gives as snippet the trimmed content when the content has at most 150
    characters, and otherwise the trimmed string made of the first 150
    characters of the content and three dots; as [trim()] only removes
    characters, that snippet has at most 153 characters. *)
Theorem pre_save_snippet (p : BlogPost.t) :
  (forall s, BlogPost.snippet p = Some s -> s <> "" ->
             BlogPost.pre_save p = p)
  /\ (BlogPost.content p = "" -> BlogPost.pre_save p = p)
  /\ (BlogPost.snippet p = None \/ BlogPost.snippet p = Some "" ->
      BlogPost.content p <> "" ->
      ((String.length (BlogPost.content p) <= 150)%nat ->
       BlogPost.snippet (BlogPost.pre_save p)
       = Some (String_trim (BlogPost.content p)))
      /\ ((150 < String.length (BlogPost.content p))%nat ->
          BlogPost.snippet (BlogPost.pre_save p)
          = Some (String_trim
                    (String.substring 0 150 (BlogPost.content p) ++ "...")))
      /\ (trim_shortens ->
          exists s, BlogPost.snippet (BlogPost.pre_save p) = Some s
                    /\ (String.length s <= 153)%nat)).
Proof.
  split; [| split].
  - intros s Hs Hne. unfold BlogPost.pre_save. rewrite Hs.
    apply String.eqb_neq in Hne. rewrite Hne. reflexivity.
  - intros Hc. unfold BlogPost.pre_save. rewrite Hc.
    rewrite andb_false_r. reflexivity.
  - intros Hs Hc. apply String.eqb_neq in Hc.
    assert (Hsn : BlogPost.snippet (BlogPost.pre_save p)
                  = Some (String_trim
                            (BlogPost.generated_snippet
                               (BlogPost.content p)))).
    { unfold BlogPost.pre_save.
      destruct Hs as [-> | ->]; rewrite ?String.eqb_refl, Hc;
        cbn [andb negb BlogPost.snippet];
        apply set_trim_generated; exact Hc. }
    destruct (generated_snippet_cases (BlogPost.content p))
      as (Hshort & Hlong & _).
    split; [| split].
    + intros Hle. rewrite Hsn, (Hshort Hle). reflexivity.
    + intros Hlt. rewrite Hsn. destruct (Hlong Hlt) as [-> _]. reflexivity.
    + intros Htrim. eexists. split; [exact Hsn |].
      apply Nat.le_trans
        with (String.length
                (BlogPost.generated_snippet (BlogPost.content p)));
        [apply Htrim | apply generated_snippet_length].
Qed.


(** X23. Sending again the body of a blog post that was just created is answered
    with 409, and the posts stay as the first request left them. *)
Theorem createBlogPost_twice (b : BlogReq.t)
    (posts : gmap ObjectId BlogPost.t) :
  reply_code (snd (createBlogPost b posts)) = 201 ->
  createBlogPost b (fst (createBlogPost b posts))
  = (fst (createBlogPost b posts),
     mkReply 409 "A blog post with this title already exists." None).
Proof.
  intros Hcode.
  destruct (createBlogPost_cases b posts)
    as [(_ & Hn & _) | (p & Hd & _ & Hrun)]; [contradiction |].
  rewrite Hrun. cbn [fst]. unfold createBlogPost.
  destruct (_ || _) eqn:Hi.
  - exfalso. revert Hrun. unfold createBlogPost. rewrite Hi.
    intros [= _ Hc]. 
  - unfold BlogPost_create. rewrite Hd.
    assert (Ht : BlogPost_title_taken
                   (<[fresh (dom posts) := BlogPost.pre_save p]> posts)
                   (BlogPost.title (BlogPost.pre_save p)) = true).
    { apply BlogPost_title_taken_true.
      exists (fresh (dom posts)), (BlogPost.pre_save p).
      split; [apply lookup_insert_eq | reflexivity]. }
    rewrite Ht. reflexivity.
Qed.
(** X24. The post that [POST /blogPosts] has just answered with is the one [GET
    /blogPosts/:id] returns for its id. *)
Theorem getBlogPost_after_createBlogPost
    (b : BlogReq.t) (posts : gmap ObjectId BlogPost.t) (id : string)
    (i : ObjectId) (p : BlogPost.t) :
  reply_doc (snd (createBlogPost b posts)) = Some (i, p) ->
  ObjectId_ofString id = Some i ->
  getBlogPost id (fst (createBlogPost b posts)) = mkReply 200 "" (Some (i, p)).
Proof.
  intros Hdoc Hid.
  destruct (createBlogPost_cases b posts)
    as [(_ & _ & Hnone) | (p' & _ & _ & Hrun)].
  - rewrite Hnone in Hdoc. discriminate Hdoc.
  - rewrite Hrun in *. simpl in Hdoc. injection Hdoc as <- <-.
    unfold getBlogPost. rewrite (ObjectId_isValid_of id _ Hid), Hid.
    cbn [negb fst]. rewrite lookup_insert_eq. reflexivity.
Qed.

End BlogProperties.

(** ** The e-mail patterns *)

Lemma String_append_assoc (s t u : string) : (s ++ t) ++ u = s ++ t ++ u.
Proof.
  induction s as [| c s IH]; [reflexivity |].
  change (String c ((s ++ t) ++ u) = String c (s ++ t ++ u)).
  now rewrite IH.
Qed.

Lemma String_append_nil_inv (s t : string) : s ++ t = "" -> s = "" /\ t = "".
Proof.
  destruct s as [| c s]; intros Hs.
  - change (t = "") in Hs. auto.
  - change (String c (s ++ t) = "") in Hs. discriminate Hs.
Qed.

Lemma all_chars_append (c : ascii -> bool) (s t : string) :
  all_chars c (s ++ t) = all_chars c s && all_chars c t.
Proof.
  induction s as [| x s IH]; [reflexivity |].
  change (c x && all_chars c (s ++ t) = c x && all_chars c s && all_chars c t).
  rewrite IH. apply andb_assoc.
Qed.

Lemma all_chars_weaken (c d : ascii -> bool) (s : string) :
  (forall x, c x = true -> d x = true) ->
  all_chars c s = true -> all_chars d s = true.
Proof.
  intros Hcd. induction s as [| x s IH]; [reflexivity |]. simpl.
  rewrite !andb_true_iff. intros [Hx Hs]. auto.
Qed.

(** *** The matcher finds the strings of the pattern *)

Lemma lang_Never (s : string) : ~ lang RegExp.Never s.
Proof. intros Hl. inversion Hl. Qed.

Lemma lang_Empty_inv (s : string) : lang RegExp.Empty s -> s = "".
Proof. intros Hl. inversion Hl. reflexivity. Qed.

Lemma lang_Class_inv (c : ascii -> bool) (s : string) :
  lang (RegExp.Class c) s -> exists x, s = String x "" /\ c x = true.
Proof. intros Hl. inversion Hl; subst. eauto. Qed.

Lemma lang_Seq_inv (a b : RegExp.t) (s : string) :
  lang (RegExp.Seq a b) s ->
  exists s1 s2, s = s1 ++ s2 /\ lang a s1 /\ lang b s2.
Proof. intros Hl. inversion Hl; subst. eauto. Qed.

Lemma lang_Or_inv (a b : RegExp.t) (s : string) :
  lang (RegExp.Or a b) s -> lang a s \/ lang b s.
Proof. intros Hl. inversion Hl; subst; auto. Qed.

Lemma lang_seq (a b : RegExp.t) (s : string) :
  lang (RegExp.seq a b) s -> lang (RegExp.Seq a b) s.
Proof.
  intros Hl.
  destruct a; try (exfalso; exact (lang_Never _ Hl));
    try (destruct b; try (exfalso; exact (lang_Never _ Hl)); exact Hl);
    destruct b; try (exfalso; exact (lang_Never _ Hl));
    exact (lang_Seq _ _ "" _ lang_Empty Hl).
Qed.

Lemma lang_or (a b : RegExp.t) (s : string) :
  lang (RegExp.or a b) s -> lang (RegExp.Or a b) s.
Proof.
  intros Hl.
  destruct a; try (apply lang_Or_r; exact Hl);
    destruct b; try (apply lang_Or_l; exact Hl); exact Hl.
Qed.

Lemma nullable_lang (r : RegExp.t) : RegExp.nullable r = true -> lang r "".
Proof.
  induction r as [| | c | a IHa b IHb | a IHa b IHb | a IHa]; simpl;
    try discriminate.
  - intros _. constructor.
  - rewrite andb_true_iff. intros [Ha Hb].
    exact (lang_Seq _ _ "" "" (IHa Ha) (IHb Hb)).
  - rewrite orb_true_iff. intros [Ha | Hb];
      [apply lang_Or_l | apply lang_Or_r]; auto.
  - intros _. constructor.
Qed.

Lemma lang_nullable (r : RegExp.t) (s : string) :
  lang r s -> s = "" -> RegExp.nullable r = true.
Proof.
  induction 1 as [| c x Hx | a b s1 s2 _ IHa _ IHb | a b s _ IH
                  | a b s _ IH | a | a s1 s2 _ _ _ _]; intros Hs; simpl;
    try reflexivity.
  - discriminate Hs.
  - apply String_append_nil_inv in Hs as [-> ->].
    rewrite IHa, IHb; reflexivity.
  - rewrite IH by exact Hs. reflexivity.
  - rewrite IH by exact Hs. apply orb_true_r.
Qed.

Lemma deriv_lang (x : ascii) (r : RegExp.t) (s : string) :
  lang (RegExp.deriv x r) s -> lang r (String x s).
Proof.
  revert s.
  induction r as [| | c | a IHa b IHb | a IHa b IHb | a IHa]; intros s Hl;
    simpl in Hl.
  - exfalso. exact (lang_Never _ Hl).
  - exfalso. exact (lang_Never _ Hl).
  - destruct (c x) eqn:Hx; [| exfalso; exact (lang_Never _ Hl)].
    apply lang_Empty_inv in Hl as ->. constructor. exact Hx.
  - apply lang_or, lang_Or_inv in Hl as [Hl | Hl].
    + apply lang_seq, lang_Seq_inv in Hl as (s1 & s2 & -> & H1 & H2).
      exact (lang_Seq _ _ (String x s1) s2 (IHa _ H1) H2).
    + destruct (RegExp.nullable a) eqn:Hn;
        [| exfalso; exact (lang_Never _ Hl)].
      exact (lang_Seq _ _ "" _ (nullable_lang _ Hn) (IHb _ Hl)).
  - apply lang_or, lang_Or_inv in Hl as [Hl | Hl];
      [apply lang_Or_l | apply lang_Or_r]; auto.
  - apply lang_seq, lang_Seq_inv in Hl as (s1 & s2 & -> & H1 & H2).
    exact (lang_Star_cons _ (String x s1) s2 (IHa _ H1) H2).
Qed.

Lemma matches_lang (r : RegExp.t) (s : string) :
  RegExp.matches r s = true -> lang r s.
Proof.
  revert r. induction s as [| x s IH]; intros r Hm; simpl in Hm.
  - apply nullable_lang. exact Hm.
  - apply deriv_lang, IH. exact Hm.
Qed.

(** *** What the strings of a pattern look like *)

Lemma lang_within (c : ascii -> bool) (r : RegExp.t) (s : string) :
  lang r s -> within c r -> all_chars c s = true.
Proof.
  induction 1 as [| c' x Hx | a b s1 s2 _ IHa _ IHb | a b s _ IH
                  | a b s _ IH | a | a s1 s2 _ IH1 _ IH2]; simpl; intros Hw;
    try reflexivity.
  - rewrite (Hw x Hx). reflexivity.
  - rewrite all_chars_append, IHa, IHb by tauto. reflexivity.
  - apply IH. tauto.
  - apply IH. tauto.
  - rewrite all_chars_append, IH1, IH2 by assumption. reflexivity.
Qed.

Lemma lang_not_empty (r : RegExp.t) (s : string) :
  lang r s -> RegExp.nullable r = false -> s <> "".
Proof.
  intros Hl Hn Hs. rewrite (lang_nullable r s Hl Hs) in Hn. discriminate Hn.
Qed.

(** The last round of a repetition. *)
Lemma lang_Star_last (a : RegExp.t) (r : RegExp.t) (s : string) :
  lang r s -> r = RegExp.Star a ->
  s = "" \/ exists s1 s2, s = s1 ++ s2 /\ lang (RegExp.Star a) s1 /\ lang a s2.
Proof.
  induction 1 as [| c' x Hx | a' b s1 s2 _ _ _ _ | a' b s _ _
                  | a' b s _ _ | a' | a' s1 s2 H1 _ H2 IH2]; intros Hr;
    try discriminate Hr.
  - left. reflexivity.
  - injection Hr as ->. right.
    destruct (IH2 eq_refl) as [-> | (t1 & t2 & -> & Ht1 & Ht2)].
    + exists "", s1. rewrite String_append_empty.
      split; [reflexivity |]. split; [constructor | exact H1].
    + exists (s1 ++ t1), t2. rewrite String_append_assoc.
      split; [reflexivity |]. split; [constructor; assumption | exact Ht2].
Qed.

Lemma lang_plus_last (a : RegExp.t) (s : string) :
  lang (RegExp.plus a) s ->
  exists s1 s2, s = s1 ++ s2 /\ lang (RegExp.Star a) s1 /\ lang a s2.
Proof.
  intros Hl. apply lang_Seq_inv in Hl as (s1 & s2 & -> & H1 & H2).
  destruct (lang_Star_last a _ _ H2 eq_refl)
    as [-> | (t1 & t2 & -> & Ht1 & Ht2)].
  - exists "", s1. rewrite String_append_empty.
    split; [reflexivity |]. split; [constructor | exact H1].
  - exists (s1 ++ t1), t2. rewrite String_append_assoc.
    split; [reflexivity |]. split; [constructor; assumption | exact Ht2].
Qed.

Lemma lang_times_length (c : ascii -> bool) (n : nat) (s : string) :
  lang (RegExp.times n (RegExp.Class c)) s -> String.length s = n.
Proof.
  revert s. induction n as [| n IH]; intros s Hl; simpl in Hl.
  - apply lang_Empty_inv in Hl as ->. reflexivity.
  - apply lang_Seq_inv in Hl as (s1 & s2 & -> & H1 & H2).
    apply lang_Class_inv in H1 as (x & -> & _).
    change (S (String.length s2) = S n). now rewrite (IH _ H2).
Qed.

Lemma lang_upto_length (c : ascii -> bool) (n : nat) (s : string) :
  lang (RegExp.upto n (RegExp.Class c)) s -> (String.length s <= n)%nat.
Proof.
  revert s. induction n as [| n IH]; intros s Hl; simpl in Hl.
  - apply lang_Empty_inv in Hl as ->. apply Nat.le_refl.
  - apply lang_Or_inv in Hl as [Hl | Hl].
    + apply lang_Empty_inv in Hl as ->. apply Nat.le_0_l.
    + apply lang_Seq_inv in Hl as (s1 & s2 & -> & H1 & H2).
      apply lang_Class_inv in H1 as (x & -> & _).
      change (S (String.length s2) <= S n)%nat.
      apply le_n_S, IH, H2.
Qed.

Lemma lang_between_length (c : ascii -> bool) (lo more : nat) (s : string) :
  lang (RegExp.between lo more (RegExp.Class c)) s ->
  (lo <= String.length s <= lo + more)%nat.
Proof.
  intros Hl. apply lang_Seq_inv in Hl as (s1 & s2 & -> & H1 & H2).
  apply lang_times_length in H1. apply lang_upto_length in H2.
  rewrite String_length_append, H1. split.
  - apply Nat.le_add_r.
  - apply Nat.add_le_mono_l. exact H2.
Qed.

Lemma within_times (c : ascii -> bool) (n : nat) (a : RegExp.t) :
  within c a -> within c (RegExp.times n a).
Proof. intros Ha. induction n; simpl; auto. Qed.

Lemma within_upto (c : ascii -> bool) (n : nat) (a : RegExp.t) :
  within c a -> within c (RegExp.upto n a).
Proof. intros Ha. induction n; simpl; auto. Qed.

Lemma word_addr_char (x : ascii) : RegExp.word x = true -> addr_char x = true.
Proof. unfold addr_char. intros ->. reflexivity. Qed.

Lemma label_addr_char (x : ascii) : label_char x = true -> addr_char x = true.
Proof.
  unfold addr_char, label_char. rewrite !orb_true_iff. tauto.
Qed.

Lemma dot_addr_char (x : ascii) :
  RegExp.is_char "." x = true -> addr_char x = true.
Proof. unfold addr_char. intros ->. rewrite orb_true_r. reflexivity. Qed.

(** X25. An address that the pattern of [Order.email] accepts is
    [local@domain.tld] with a [tld] of two or three letters, digits or [_]. *)
Theorem orderEmail_shape (s : string) :
  RegExp.test orderEmailRe s = true -> email_shape RegExp.word 2 3 s.
Proof.
  intros Ht. apply matches_lang in Ht. unfold orderEmailRe in Ht.
  cbv zeta in Ht.
  apply lang_Seq_inv in Ht as (w1 & r1 & -> & Hw1 & Ht).
  apply lang_Seq_inv in Ht as (t1 & r2 & -> & Ht1 & Ht).
  apply lang_Seq_inv in Ht as (at' & r3 & -> & Hat & Ht).
  apply lang_Seq_inv in Ht as (w2 & r4 & -> & Hw2 & Ht).
  apply lang_Seq_inv in Ht as (t2 & r5 & -> & Ht2 & Ht).
  apply lang_plus_last in Ht as (pre & last & -> & Hpre & Hlast).
  apply lang_Seq_inv in Hlast as (dot & tld & -> & Hdot & Htld).
  apply lang_Class_inv in Hat as (x & -> & Hx).
  apply Ascii.eqb_eq in Hx as <-.
  apply lang_Class_inv in Hdot as (y & -> & Hy).
  apply Ascii.eqb_eq in Hy as <-.
  exists (w1 ++ t1), (w2 ++ t2 ++ pre), tld.
  assert (Hword : within addr_char (RegExp.Class RegExp.word))
    by exact word_addr_char.
  assert (Hplus : within addr_char (RegExp.plus (RegExp.Class RegExp.word)))
    by (split; exact Hword).
  assert (Htail : forall t,
             lang (RegExp.Star
                     (RegExp.Seq
                        (RegExp.opt
                           (RegExp.Class
                              (fun x => RegExp.is_char "." x
                                        || RegExp.is_char "-" x)))
                        (RegExp.plus (RegExp.Class RegExp.word)))) t ->
             all_chars addr_char t = true).
  { intros t Hl. apply (lang_within _ _ _ Hl). simpl.
    split; [| exact Hplus]. split; [exact I |].
    intros z. unfold addr_char. rewrite !orb_true_iff. tauto. }
  repeat split.
  - rewrite !String_append_assoc. reflexivity.
  - intros Hs. apply String_append_nil_inv in Hs as [Hs _].
    exact (lang_not_empty _ _ Hw1 eq_refl Hs).
  - intros Hs. apply String_append_nil_inv in Hs as [Hs _].
    exact (lang_not_empty _ _ Hw2 eq_refl Hs).
  - rewrite all_chars_append, (lang_within _ _ _ Hw1 Hplus), (Htail _ Ht1).
    reflexivity.
  - rewrite !all_chars_append, (lang_within _ _ _ Hw2 Hplus), (Htail _ Ht2).
    rewrite (lang_within addr_char _ _ Hpre); [reflexivity |].
    simpl. repeat split;
      first [exact I | exact Hword | exact dot_addr_char].
  - apply (lang_within _ _ _ Htld).
    cbn [within RegExp.between RegExp.times RegExp.upto RegExp.opt].
    repeat split; first [exact I | intros z Hz; exact Hz].
  - apply (lang_between_length _ 2 1 _ Htld).
  - apply (lang_between_length _ 2 1 _ Htld).
Qed.

(** X26. An address that the pattern of [Payment.clientEmail] accepts is
    [local@domain.tld] with a [tld] of two to four letters, digits, [_] or [-].
    *)
Theorem paymentEmail_shape (s : string) :
  RegExp.test paymentEmailRe s = true -> email_shape label_char 2 4 s.
Proof.
  intros Ht. apply matches_lang in Ht. unfold paymentEmailRe in Ht.
  cbv zeta in Ht.
  apply lang_Seq_inv in Ht as (loc & r1 & -> & Hloc & Ht).
  apply lang_Seq_inv in Ht as (at' & r2 & -> & Hat & Ht).
  apply lang_Seq_inv in Ht as (dom & tld & -> & Hdom & Htld).
  apply lang_plus_last in Hdom as (pre & last & -> & Hpre & Hlast).
  apply lang_Seq_inv in Hlast as (lbl & dot & -> & Hlbl & Hdot).
  apply lang_Class_inv in Hat as (x & -> & Hx).
  apply Ascii.eqb_eq in Hx as <-.
  apply lang_Class_inv in Hdot as (y & -> & Hy).
  apply Ascii.eqb_eq in Hy as <-.
  exists loc, (pre ++ lbl), tld.
  assert (Hlabel : within addr_char
                     (RegExp.Class
                        (fun x => RegExp.word x || RegExp.is_char "-" x)))
    by exact label_addr_char.
  repeat split.
  - rewrite !String_append_assoc. reflexivity.
  - exact (lang_not_empty _ _ Hloc eq_refl).
  - intros Hs. apply String_append_nil_inv in Hs as [_ Hs].
    exact (lang_not_empty _ _ Hlbl eq_refl Hs).
  - apply (lang_within _ _ _ Hloc).
    assert (Hc : forall z,
               RegExp.word z || RegExp.is_char "-" z || RegExp.is_char "." z
               = true -> addr_char z = true).
    { intros z. unfold addr_char. rewrite !orb_true_iff. tauto. }
    split; exact Hc.
  - rewrite all_chars_append.
    rewrite (lang_within addr_char _ _ Hpre),
      (lang_within addr_char _ _ Hlbl); [reflexivity | |].
    + split; exact Hlabel.
    + split; [split; exact Hlabel | exact dot_addr_char].
  - apply (lang_within _ _ _ Htld).
    assert (Hc : forall z,
               RegExp.word z || RegExp.is_char "-" z = true ->
               label_char z = true) by (intros z Hz; exact Hz).
    cbn [within RegExp.between RegExp.times RegExp.upto RegExp.opt].
    repeat split; first [exact I | exact Hc].
  - apply (lang_between_length _ 2 2 _ Htld).
  - apply (lang_between_length _ 2 2 _ Htld).
Qed.

(** *** The matcher misses no string of the pattern *)

Lemma lang_seq_intro (a b : RegExp.t) (s1 s2 : string) :
  lang a s1 -> lang b s2 -> lang (RegExp.seq a b) (s1 ++ s2).
Proof.
  intros Ha Hb.
  destruct a; try (exfalso; exact (lang_Never _ Ha));
    try (apply lang_Empty_inv in Ha as ->; change (lang (RegExp.seq RegExp.Empty b) s2));
    destruct b; try (exfalso; exact (lang_Never _ Hb));
    first [exact Hb | exact (lang_Seq _ _ _ _ Ha Hb)].
Qed.

Lemma lang_or_intro (a b : RegExp.t) (s : string) :
  lang a s \/ lang b s -> lang (RegExp.or a b) s.
Proof.
  intros [Hl | Hl].
  - destruct a; try (exfalso; exact (lang_Never _ Hl));
      destruct b; first [exact Hl | apply lang_Or_l; exact Hl].
  - destruct b; try (exfalso; exact (lang_Never _ Hl));
      destruct a; first [exact Hl | apply lang_Or_r; exact Hl].
Qed.

(** The first round of a repetition that starts with [x]. *)
Lemma lang_Star_first (a r : RegExp.t) (x : ascii) (s t : string) :
  lang r t -> r = RegExp.Star a -> t = String x s ->
  exists s1 s2,
    s = s1 ++ s2 /\ lang a (String x s1) /\ lang (RegExp.Star a) s2.
Proof.
  induction 1 as [| c' y Hy | a' b s1 s2 _ _ _ _ | a' b s' _ _
                  | a' b s' _ _ | a' | a' s1 s2 H1 _ H2 IH2]; intros Hr Ht;
    try discriminate Hr.
  - discriminate Ht.
  - injection Hr as ->. destruct s1 as [| y s1].
    + exact (IH2 eq_refl Ht).
    + change (String y (s1 ++ s2) = String x s) in Ht.
      injection Ht as -> <-. eauto.
Qed.

Lemma lang_deriv (x : ascii) (r : RegExp.t) (s : string) :
  lang r (String x s) -> lang (RegExp.deriv x r) s.
Proof.
  revert s.
  induction r as [| | c | a IHa b IHb | a IHa b IHb | a IHa]; intros s Hl.
  - exfalso. exact (lang_Never _ Hl).
  - apply lang_Empty_inv in Hl. discriminate Hl.
  - apply lang_Class_inv in Hl as (y & [= <- ->] & Hy). simpl.
    rewrite Hy. constructor.
  - apply lang_Seq_inv in Hl as (s1 & s2 & Hs & H1 & H2). simpl.
    apply lang_or_intro. destruct s1 as [| y s1].
    + right. change (String x s = s2) in Hs. subst s2.
      rewrite (lang_nullable _ _ H1 eq_refl). apply IHb. exact H2.
    + left. change (String x s = String y (s1 ++ s2)) in Hs.
      injection Hs as <- ->. apply lang_seq_intro; [apply IHa |]; assumption.
  - apply lang_Or_inv in Hl. simpl. apply lang_or_intro.
    destruct Hl as [Hl | Hl]; [left | right]; auto.
  - destruct (lang_Star_first a _ x s _ Hl eq_refl eq_refl)
      as (s1 & s2 & -> & H1 & H2).
    simpl. apply lang_seq_intro; [apply IHa |]; assumption.
Qed.

Lemma lang_matches (r : RegExp.t) (s : string) :
  lang r s -> RegExp.matches r s = true.
Proof.
  revert r. induction s as [| x s IH]; intros r Hl; simpl.
  - exact (lang_nullable _ _ Hl eq_refl).
  - apply IH, lang_deriv. exact Hl.
Qed.

Lemma lang_Star_Class (c : ascii -> bool) (s : string) :
  all_chars c s = true -> lang (RegExp.Star (RegExp.Class c)) s.
Proof.
  induction s as [| x s IH]; simpl; [constructor |].
  rewrite andb_true_iff. intros [Hx Hs].
  exact (lang_Star_cons _ (String x "") s (lang_Class c x Hx) (IH Hs)).
Qed.

Lemma lang_plus_Class (c : ascii -> bool) (s : string) :
  s <> "" -> all_chars c s = true -> lang (RegExp.plus (RegExp.Class c)) s.
Proof.
  destruct s as [| x s]; [intros Hs; exfalso; exact (Hs eq_refl) |].
  intros _. simpl. rewrite andb_true_iff. intros [Hx Hs].
  exact (lang_Seq _ _ (String x "") s (lang_Class c x Hx)
           (lang_Star_Class c s Hs)).
Qed.

Lemma lang_upto_Class (c : ascii -> bool) (n : nat) (s : string) :
  all_chars c s = true -> (String.length s <= n)%nat ->
  lang (RegExp.upto n (RegExp.Class c)) s.
Proof.
  revert s. induction n as [| n IH]; intros [| x s]; simpl;
    intros Hc Hn.
  - constructor.
  - inversion Hn.
  - apply lang_Or_l. constructor.
  - apply andb_true_iff in Hc as [Hx Hs]. apply lang_Or_r.
    exact (lang_Seq _ _ (String x "") s (lang_Class c x Hx)
             (IH s Hs (le_S_n _ _ Hn))).
Qed.

Lemma lang_between_Class (c : ascii -> bool) (lo more : nat) (s : string) :
  all_chars c s = true ->
  (lo <= String.length s <= lo + more)%nat ->
  lang (RegExp.between lo more (RegExp.Class c)) s.
Proof.
  unfold RegExp.between. revert s.
  induction lo as [| lo IH]; intros s Hc [Hlo Hhi].
  - exact (lang_Seq _ _ "" s lang_Empty (lang_upto_Class c more s Hc Hhi)).
  - destruct s as [| x s]; [inversion Hlo |].
    simpl in Hc. apply andb_true_iff in Hc as [Hx Hs].
    assert (Hl : lang (RegExp.Seq (RegExp.times lo (RegExp.Class c))
                         (RegExp.upto more (RegExp.Class c))) s).
    { apply IH; [exact Hs |]. split; apply le_S_n; assumption. }
    apply lang_Seq_inv in Hl as (s1 & s2 & -> & H1 & H2).
    exact (lang_Seq _ _ (String x s1) s2
             (lang_Seq _ _ (String x "") s1 (lang_Class c x Hx) H1) H2).
Qed.

(** X27. Both patterns accept [local@label.tld] when [local] and [label] are
    non-empty and [local], [label] and [tld] consist of letters, digits and [_],
    with two or three of them in [tld]. *)
Theorem plain_address_accepted (local label tld : string) :
  local <> "" -> label <> "" ->
  all_chars RegExp.word local = true ->
  all_chars RegExp.word label = true ->
  all_chars RegExp.word tld = true ->
  (2 <= String.length tld <= 3)%nat ->
  RegExp.test orderEmailRe (local ++ "@" ++ label ++ "." ++ tld) = true
  /\ RegExp.test paymentEmailRe (local ++ "@" ++ label ++ "." ++ tld) = true.
Proof.
  intros Hlocal Hlabel Hcl Hcb Hct [Hlo Hhi].
  assert (Hat : lang (RegExp.char "@") "@")
    by (apply lang_Class; reflexivity).
  assert (Hdot : lang (RegExp.char ".") ".")
    by (apply lang_Class; reflexivity).
  assert (Hsuffix :
            lang (RegExp.plus
                    (RegExp.Seq (RegExp.char ".")
                       (RegExp.between 2 1 (RegExp.Class RegExp.word))))
              ("." ++ tld)).
  { rewrite <- (String_append_empty ("." ++ tld)).
    apply lang_Seq; [| apply lang_Star_nil].
    apply lang_Seq; [exact Hdot |].
    apply lang_between_Class; [exact Hct |].
    split; [exact Hlo | exact Hhi]. }
  split; apply lang_matches.
  - unfold orderEmailRe. cbv zeta.
    apply lang_Seq; [apply lang_plus_Class; assumption |].
    apply (lang_Seq _ _ ""); [apply lang_Star_nil |].
    apply (lang_Seq _ _ "@"); [exact Hat |].
    apply lang_Seq; [apply lang_plus_Class; assumption |].
    apply (lang_Seq _ _ ""); [apply lang_Star_nil |].
    exact Hsuffix.
  - unfold paymentEmailRe. cbv zeta.
    apply lang_Seq.
    { apply lang_plus_Class; [exact Hlocal |].
      apply (all_chars_weaken RegExp.word); [| exact Hcl].
      intros x ->. reflexivity. }
    apply (lang_Seq _ _ "@"); [exact Hat |].
    rewrite <- String_append_assoc.
    apply lang_Seq.
    + rewrite <- (String_append_empty (label ++ ".")).
      apply lang_Seq; [| apply lang_Star_nil].
      apply lang_Seq; [| exact Hdot].
      apply lang_plus_Class; [exact Hlabel |].
      apply (all_chars_weaken RegExp.word); [| exact Hcb].
      intros x ->. reflexivity.
    + apply lang_between_Class.
      * apply (all_chars_weaken RegExp.word); [| exact Hct].
        intros x ->. reflexivity.
      * split; [exact Hlo |]. apply Nat.le_trans with 3%nat; [exact Hhi |].
        repeat constructor.
Qed.

(** ** The statements at work on the sample ledger *)

#[local] Existing Instance Node.runtime.
Import Sample.



(** The rejected refund of an Order that is [In Progress]. *)
Lemma refund_rejection_leaves_status_enum_witness :
  exists o',
    orders (fst (updateRefund refund_id
                   (RefundReview.mk (JStr "Rejected") JUndefined)
                   (ledger_refund "In Progress"))) !! oid order_id = Some o'
    /\ Order.status o' = "Refund Rejected"
    /\ Order.status_valid (Order.status o') = false.
Proof.
  destruct (refund_rejection_leaves_status_enum refund_id
              (RefundReview.mk (JStr "Rejected") JUndefined)
              (ledger_refund "In Progress") (oid refund_id)
              (refund "Pending") (order "In Progress"))
    as (o' & Ho' & Hs & _ & Hv); try (vm_compute; reflexivity).
  exists o'. repeat split; assumption.
Defined.



(** A refund submission for an Order that is [In Progress]. *)
Lemma refund_submission_never_succeeds_witness :
  refundRequests (refund_req order_id 1500) (ledger "In Progress")
  = (ledger "In Progress",
     mkResponse 500 "Server error during refund request"
       (ErrorPayload ValidationError)).
Proof.
  apply (refund_submission_never_succeeds (refund_req order_id 1500)
           (ledger "In Progress") (oid order_id) (order "In Progress")).
  - vm_compute. repeat split; reflexivity.
  - vm_compute. reflexivity.
  - vm_compute. reflexivity.
  - simpl. discriminate.
Defined.

(** An approved refund of a [Completed] Order, a rejected one of an Order
    [In Progress]. *)
Lemma refund_review_moves_order_witness :
  orders (fst (updateRefund refund_id
                 (RefundReview.mk (JStr "Approved") (JStr "ok"))
                 (ledger_refund "Completed")))
  = <[oid order_id := order "Refunded"]>
      (orders (ledger_refund "Completed"))
  /\ orders (fst (updateRefund refund_id
                    (RefundReview.mk (JStr "Rejected") JUndefined)
                    (ledger_refund "In Progress")))
     = <[oid order_id := order "Refund Rejected"]>
         (orders (ledger_refund "In Progress")).
Proof.
  split.
  - apply (refund_review_moves_order refund_id
             (RefundReview.mk (JStr "Approved") (JStr "ok"))
             (ledger_refund "Completed") (oid refund_id) (refund "Pending")
             (order "Completed")); vm_compute; reflexivity.
  - apply (refund_review_moves_order refund_id
             (RefundReview.mk (JStr "Rejected") JUndefined)
             (ledger_refund "In Progress") (oid refund_id) (refund "Pending")
             (order "In Progress")); vm_compute; reflexivity.
Defined.

(** The same (transactionId, paymentMethod) submitted twice. *)
Lemma duplicate_payment_is_conflict_witness :
  createPayment (payment_req "T1" JUndefined) (ledger_paid "Pending" "Pending")
  = (ledger_paid "Pending" "Pending",
     mkResponse 409
       "A payment with this transaction ID already exists for this method."
       (ErrorPayload DuplicateKey)).
Proof.
  apply (duplicate_payment_is_conflict (payment_req "T1" JUndefined)
           (ledger_paid "Pending" "Pending") (payment "Pending")).
  - split; vm_compute; repeat split; discriminate.
  - exists (oid payment_id), (payment "Pending").
    vm_compute. repeat split; reflexivity.
Defined.



(** A review that asks for the status [Pending]. *)
Lemma refund_review_rejects_other_status_witness :
  fst (updateRefund refund_id (RefundReview.mk (JStr "Pending") JUndefined)
         (ledger_refund "In Progress"))
  = ledger_refund "In Progress"
  /\ code (snd (updateRefund refund_id
                  (RefundReview.mk (JStr "Pending") JUndefined)
                  (ledger_refund "In Progress"))) = 400.
Proof.
  apply (refund_review_rejects_other_status refund_id
           (RefundReview.mk (JStr "Pending") JUndefined)
           (ledger_refund "In Progress")); simpl; discriminate.
Defined.

(** A payment for an id under which no Order is stored. *)
Lemma payment_without_order_is_kept_witness :
  payments (fst (createPayment
                   (payment_req_for other_id "paypal" "T1" JUndefined)
                   (ledger "Pending")))
  = {[ 0%N := Payment.mk (oid other_id) "Ali Khan" "ali.khan@example.com"
                1500 "paypal" "T1" None (Some "No remarks.")
                (Some "Pending") ]}
  /\ orders (fst (createPayment
                    (payment_req_for other_id "paypal" "T1" JUndefined)
                    (ledger "Pending")))
     = orders (ledger "Pending")
  /\ code (snd (createPayment
                  (payment_req_for other_id "paypal" "T1" JUndefined)
                  (ledger "Pending"))) = 201.
Proof.
  destruct (payment_without_order_is_kept
              (payment_req_for other_id "paypal" "T1" JUndefined)
              (ledger "Pending")
              (Payment.mk (oid other_id) "Ali Khan" "ali.khan@example.com"
                 1500 "paypal" "T1" None (Some "No remarks.")
                 (Some "Pending")))
    as (Hpay & Hord & Hresp).
  - split; vm_compute; repeat split; discriminate.
  - intros j q Hq. simpl in Hq. rewrite lookup_empty in Hq. discriminate Hq.
  - vm_compute. reflexivity.
  - rewrite Hpay, Hord, Hresp. vm_compute. repeat split; reflexivity.
Defined.

(** A refund submission for the amount 0. *)
Lemma refund_amount_zero_is_missing_witness :
  refundRequests (refund_req order_id 0) (ledger "In Progress")
  = (ledger "In Progress",
     respond 400 "All refund request fields are required.").
Proof.
  apply (refund_amount_zero_is_missing (refund_req order_id 0)
           (ledger "In Progress")).
  reflexivity.
Defined.

(** ** The further statements at work *)

Import Cases.

(** An order for 200 likes, placed in an empty ledger. *)
Lemma createOrder_created_witness :
  exists i o,
    reply_doc (snd (createOrder (order_req 200) empty_ledger)) = Some (i, o)
    /\ orders empty_ledger !! i = None
    /\ fst (createOrder (order_req 200) empty_ledger)
       = set_orders (insert i o) empty_ledger
    /\ Order.status o = "Pending"
    /\ Order.validate o = true.
Proof.
  apply (createOrder_created (order_req 200) empty_ledger).
  vm_compute. reflexivity.
Defined.

(** An order for 0 likes. *)
Lemma createOrder_needs_one_follower_witness :
  reply_code (snd (createOrder (order_req 0) empty_ledger)) = 400
  /\ fst (createOrder (order_req 0) empty_ledger) = empty_ledger.
Proof.
  apply (createOrder_needs_one_follower (order_req 0) empty_ledger 0).
  - reflexivity.
  - reflexivity.
Defined.

(** The order just placed, read back. *)
Lemma getOrder_after_createOrder_witness :
  getOrder first_id (fst (createOrder (order_req 200) empty_ledger))
  = (mkStore {[ 0%N := sara_order "Pending" ]} ∅ ∅,
     mkReply 200 "" (Some (0%N, sara_order "Pending"))).
Proof.
  rewrite (getOrder_after_createOrder (order_req 200) empty_ledger first_id
             0%N (sara_order "Pending"));
    vm_compute; reflexivity.
Defined.

(** The three answers of a deletion. *)
Lemma deleteOrder_outcomes_witness :
  reply_code (snd (deleteOrder "abc" (ledger_full "Pending"))) = 400
  /\ reply_code (snd (deleteOrder other_id (ledger_full "Pending"))) = 404
  /\ deleteOrder order_id (ledger_full "Pending")
     = (ledger_orphans, mkReply 200 "Order deleted successfully." None).
Proof.
  destruct (deleteOrder_outcomes "abc" (ledger_full "Pending"))
    as (Hbad & _ & _).
  destruct (deleteOrder_outcomes other_id (ledger_full "Pending"))
    as (_ & Hnone & _).
  destruct (deleteOrder_outcomes order_id (ledger_full "Pending"))
    as (_ & _ & Hdel).
  rewrite Hbad by (vm_compute; reflexivity).
  rewrite (Hnone (oid other_id)) by (vm_compute; reflexivity).
  rewrite (Hdel (oid order_id) (order "Pending"))
    by (vm_compute; reflexivity).
  vm_compute. repeat split; reflexivity.
Defined.

(** The order just placed, deleted again. *)
Lemma deleteOrder_after_createOrder_witness :
  fst (deleteOrder first_id (fst (createOrder (order_req 200) empty_ledger)))
  = empty_ledger.
Proof.
  apply (deleteOrder_after_createOrder (order_req 200) empty_ledger first_id
           0%N (sara_order "Pending"));
    vm_compute; reflexivity.
Defined.

(** A [Completed] Order put back to [Pending], and an undeclared status
    refused. *)
Lemma updateOrder_status_witness :
  updateOrder order_id (OrderReq_status_only (JStr "Pending"))
    (ledger "Completed")
  = (ledger "Pending",
     mkReply 200 "Order updated successfully"
       (Some (oid order_id, order "Pending")))
  /\ updateOrder order_id (OrderReq_status_only (JStr "Refund Pending"))
       (ledger "Completed")
     = (ledger "Completed", mkReply 500 "Server error updating order" None).
Proof.
  destruct (updateOrder_status order_id (ledger "Completed") (oid order_id)
              (order "Completed") "Pending") as [Hok _];
    try (vm_compute; reflexivity).
  destruct (updateOrder_status order_id (ledger "Completed") (oid order_id)
              (order "Completed") "Refund Pending") as [_ Hbad];
    try (vm_compute; reflexivity).
  rewrite Hok, Hbad.
  - vm_compute. split; reflexivity.
  - intros Hin. unfold Order.status_enum in Hin.
    repeat (apply elem_of_cons in Hin as [Hin | Hin]; [discriminate Hin |]).
    apply elem_of_nil in Hin. exact Hin.
  - unfold Order.status_enum. apply elem_of_cons. left. reflexivity.
Defined.

Lemma ledger_full_statuses_declared : statuses_declared (ledger_full "Pending").
Proof.
  intros i o Ho. simpl in Ho.
  apply lookup_singleton_Some in Ho as [_ <-]. reflexivity.
Qed.

Lemma ledger_full_transactionIds_unique :
  transactionIds_unique (ledger_full "Pending").
Proof.
  intros i j p q Hp Hq _. simpl in Hp, Hq.
  apply lookup_singleton_Some in Hp as [<- _].
  apply lookup_singleton_Some in Hq as [<- _]. reflexivity.
Qed.

Lemma sample_submission_valid :
  valid_payment_submission (payment_req "T1" JUndefined) (payment "Pending").
Proof. split; vm_compute; repeat split; discriminate. Qed.

Lemma sample_transactionId_is_new (o : gmap ObjectId Order.t) :
  transactionId_is_new (mkStore o ∅ ∅) (payment "Pending").
Proof.
  intros j q Hq. simpl in Hq. rewrite lookup_empty in Hq. discriminate Hq.
Qed.

(** The ledger with an Order, a Payment and a Refund, after a new order and
    after the approval of the Payment. *)
Lemma statuses_declared_kept_witness :
  statuses_declared (fst (createOrder (order_req 200) (ledger_full "Pending")))
  /\ statuses_declared
       (fst (updatePayment payment_id (PaymentReq_status_only "Approved")
               (ledger_full "Pending"))).
Proof.
  destruct (statuses_declared_kept (ledger_full "Pending")
              ledger_full_statuses_declared)
    as (Hcreate & _ & _ & _ & Hpay & _).
  split; [apply Hcreate | apply Hpay].
Defined.

(** The same ledger after a second submission of the stored transactionId
    and after the approval of the Payment. *)
Lemma transactionIds_unique_kept_witness :
  transactionIds_unique
    (fst (createPayment (payment_req "T1" JUndefined) (ledger_full "Pending")))
  /\ transactionIds_unique
       (fst (updatePayment payment_id (PaymentReq_status_only "Approved")
               (ledger_full "Pending"))).
Proof.
  destruct (transactionIds_unique_kept (ledger_full "Pending")
              ledger_full_transactionIds_unique) as [Hcreate Hpay].
  split; [apply Hcreate | apply Hpay].
Defined.

(** A payment submission with a negative amount. *)
Lemma createPayment_schema_failure_witness :
  createPayment (payment_req_of (-5)) (ledger "Pending")
  = (ledger "Pending",
     mkResponse 500 "Server error during payment creation"
       (ErrorPayload ValidationError)).
Proof.
  apply (createPayment_schema_failure (payment_req_of (-5)) (ledger "Pending")
           ValidationError).
  - vm_compute. repeat split; discriminate.
  - vm_compute. reflexivity.
Defined.

(** The same payment submitted twice. *)
Lemma createPayment_twice_witness :
  createPayment (payment_req "T1" JUndefined)
    (fst (createPayment (payment_req "T1" JUndefined) (ledger "Pending")))
  = (ledger_paid "Payment Pending" "Pending",
     mkResponse 409
       "A payment with this transaction ID already exists for this method."
       (ErrorPayload DuplicateKey)).
Proof.
  rewrite (createPayment_twice (payment_req "T1" JUndefined)
             (ledger "Pending") (payment "Pending")
             sample_submission_valid (sample_transactionId_is_new _)).
  vm_compute. reflexivity.
Defined.

(** A payment for an Order whose price is negative. *)
Lemma createPayment_keeps_payment_on_order_failure_witness :
  createPayment (payment_req "T1" JUndefined) ledger_broken
  = (mkStore {[ oid order_id := broken_order ]}
       {[ 0%N := payment "Pending" ]} ∅,
     mkResponse 500 "Server error during payment creation"
       (ErrorPayload ValidationError)).
Proof.
  rewrite (createPayment_keeps_payment_on_order_failure
             (payment_req "T1" JUndefined) ledger_broken (payment "Pending")
             broken_order sample_submission_valid
             (sample_transactionId_is_new _));
    vm_compute; reflexivity.
Defined.

(** The approval of the sample Payment, sent twice. *)
Lemma updatePayment_twice_witness :
  updatePayment payment_id (PaymentReq_status_only "Approved")
    (fst (updatePayment payment_id (PaymentReq_status_only "Approved")
            (ledger_paid "Payment Pending" "Pending")))
  = (ledger_paid "In Progress" "Approved",
     mkResponse 200 "Payment updated successfully"
       (PaymentPayload (oid payment_id, payment "Approved"))).
Proof.
  rewrite (updatePayment_twice payment_id (PaymentReq_status_only "Approved")
             (ledger_paid "Payment Pending" "Pending"));
    vm_compute; reflexivity.
Defined.

(** The review of a Refund whose Order was deleted. *)
Lemma updateRefund_order_missing_witness :
  updateRefund refund_id (RefundReview.mk (JStr "Approved") JUndefined)
    ledger_orphans
  = (mkStore ∅ {[ oid payment_id := payment "Pending" ]}
       {[ oid refund_id := refund "Approved" ]},
     mkResponse 500 "Server error updating refund request"
       (ErrorPayload TypeError)).
Proof.
  rewrite (updateRefund_order_missing refund_id
             (RefundReview.mk (JStr "Approved") JUndefined) ledger_orphans
             (oid refund_id) (refund "Pending"));
    try (vm_compute; reflexivity).
  left. reflexivity.
Defined.

(** A refund review followed by the approval of the Payment of the same
    Order, for a [Completed] Order and for one whose price is negative. *)
Lemma payment_approval_after_refund_review_witness :
  orders (fst (updatePayment payment_id (PaymentReq_status_only "Approved")
                 (fst (updateRefund refund_id
                         (RefundReview.mk (JStr "Rejected") JUndefined)
                         (ledger_full "Completed")))))
  = {[ oid order_id := order "In Progress" ]}
  /\ orders (fst (updatePayment payment_id (PaymentReq_status_only "Approved")
                    (fst (updateRefund refund_id
                            (RefundReview.mk (JStr "Rejected") JUndefined)
                            ledger_broken_full))))
     = {[ oid order_id := Order.set_status "Refund Rejected" broken_order ]}
  /\ orders (fst (updatePayment payment_id (PaymentReq_status_only "Approved")
                    (fst (updateRefund refund_id
                            (RefundReview.mk (JStr "Approved") JUndefined)
                            (ledger_full "Completed")))))
     = {[ oid order_id := order "Refunded" ]}.
Proof.
  destruct (payment_approval_after_refund_review refund_id payment_id
              JUndefined (ledger_full "Completed") (oid refund_id)
              (oid payment_id) (refund "Pending") (payment "Pending")
              (order "Completed")) as (Hrej & _ & Happ);
    try (vm_compute; reflexivity).
  destruct (payment_approval_after_refund_review refund_id payment_id
              JUndefined ledger_broken_full (oid refund_id)
              (oid payment_id) (refund "Pending") (payment "Pending")
              broken_order) as (_ & Hbad & _);
    try (vm_compute; reflexivity).
  destruct (Hbad eq_refl) as [Hstays _].
  rewrite (Hrej eq_refl), Hstays, Happ. vm_compute. repeat split; reflexivity.
Defined.

(** The approval of a Payment whose Order was deleted. *)
Lemma payment_approval_after_deleteOrder_witness :
  updatePayment payment_id (PaymentReq_status_only "Approved")
    (fst (deleteOrder order_id (ledger_full "Pending")))
  = (mkStore ∅ {[ oid payment_id := payment "Approved" ]}
       {[ oid refund_id := refund "Pending" ]},
     mkResponse 200 "Payment updated successfully"
       (PaymentPayload (oid payment_id, payment "Approved"))).
Proof.
  rewrite (payment_approval_after_deleteOrder order_id payment_id
             (ledger_full "Pending") (oid order_id) (oid payment_id)
             (order "Pending") (payment "Pending"));
    vm_compute; reflexivity.
Defined.

Lemma Node_trim_start_length (s : string) :
  (String.length (Node.trim_start s) <= String.length s)%nat.
Proof.
  induction s as [| x s IH]; simpl; [apply Nat.le_refl |].
  destruct (Node.is_space x); [| apply Nat.le_refl].
  apply Nat.le_trans with (String.length s); [exact IH | apply Nat.le_succ_diag_r].
Qed.

Lemma Node_trim_end_length (s : string) :
  (String.length (Node.trim_end s) <= String.length s)%nat.
Proof.
  induction s as [| x s IH]; simpl; [apply Nat.le_refl |].
  destruct (Node.trim_end s) as [| y t].
  - destruct (Node.is_space x); simpl.
    + apply Nat.le_0_l.
    + apply le_n_S, Nat.le_0_l.
  - simpl. apply le_n_S. exact IH.
Qed.

Lemma Node_trim_shortens : trim_shortens.
Proof.
  intros s. apply Nat.le_trans with (String.length (Node.trim_start s)).
  - apply Node_trim_end_length.
  - apply Node_trim_start_length.
Qed.

(** A post with a content of eight characters, two of them blanks at its
    ends. *)
Lemma pre_save_snippet_witness :
  BlogPost.snippet
    (BlogPost.pre_save
       (BlogPost.mk "Growing on TikTok" " 5 tips " (Some "Admin") None
          (Some "")))
  = Some "5 tips".
Proof.
  destruct (pre_save_snippet
              (BlogPost.mk "Growing on TikTok" " 5 tips " (Some "Admin") None
                 (Some ""))) as (_ & _ & Hgen).
  destruct Hgen as (Hshort & _ & _).
  - left. reflexivity.
  - discriminate.
  - rewrite Hshort.
    + vm_compute. reflexivity.
    + vm_compute. repeat constructor.
Defined.


(** The same post sent twice. *)
Lemma createBlogPost_twice_witness :
  createBlogPost (blog_req "Five tips." JUndefined)
    (fst (createBlogPost (blog_req "Five tips." JUndefined) ∅))
  = ({[ 0%N := BlogPost.mk "Growing on TikTok" "Five tips." (Some "Admin")
                 (Some "Five tips.") (Some "") ]},
     mkReply 409 "A blog post with this title already exists." None).
Proof.
  rewrite (createBlogPost_twice (blog_req "Five tips." JUndefined) ∅);
    vm_compute; reflexivity.
Defined.

(** An update of the price of the sample Order. *)
Lemma updateOrder_keeps_schema_witness :
  exists o,
    orders (ledger "Pending") !! oid order_id = Some o
    /\ fst (updateOrder order_id
              (OrderReq.mk JUndefined JUndefined JUndefined JUndefined
                 JUndefined JUndefined JUndefined JUndefined JUndefined
                 (JNum 2000) JUndefined)
              (ledger "Pending"))
       = set_orders
           (insert (oid order_id)
              (Order.mk "Ali Khan" "ali.khan@example.com" "03001234567"
                 (Some "") "https://instagram.com/alikhan" 500 "Instagram"
                 (Some "") "Followers" 2000 "Pending"))
           (ledger "Pending")
    /\ (Order.validate o = true ->
        Order.validate
          (Order.mk "Ali Khan" "ali.khan@example.com" "03001234567"
             (Some "") "https://instagram.com/alikhan" 500 "Instagram"
             (Some "") "Followers" 2000 "Pending") = true).
Proof.
  apply (updateOrder_keeps_schema order_id
           (OrderReq.mk JUndefined JUndefined JUndefined JUndefined
              JUndefined JUndefined JUndefined JUndefined JUndefined
              (JNum 2000) JUndefined)
           (ledger "Pending") (oid order_id)).
  vm_compute. reflexivity.
Defined.

(** The address of the sample Order. *)
Lemma orderEmail_shape_witness :
  email_shape RegExp.word 2 3 "ali.khan@example.com".
Proof. apply orderEmail_shape. vm_compute. reflexivity. Defined.

(** An address with a label of four letters at its end. *)
Lemma paymentEmail_shape_witness :
  email_shape label_char 2 4 "ali.khan@shop.info".
Proof. apply paymentEmail_shape. vm_compute. reflexivity. Defined.

(** [sara@example.com] *)
Lemma plain_address_accepted_witness :
  RegExp.test orderEmailRe ("sara" ++ "@" ++ "example" ++ "." ++ "com") = true
  /\ RegExp.test paymentEmailRe
       ("sara" ++ "@" ++ "example" ++ "." ++ "com") = true.
Proof.
  apply (plain_address_accepted "sara" "example" "com");
    try discriminate; try reflexivity.
  split; repeat constructor.
Defined.

(** The post just created, read back. *)
Lemma getBlogPost_after_createBlogPost_witness :
  getBlogPost first_id
    (fst (createBlogPost (blog_req "Five tips." JUndefined) ∅))
  = mkReply 200 ""
      (Some (0%N, BlogPost.mk "Growing on TikTok" "Five tips." (Some "Admin")
                    (Some "Five tips.") (Some ""))).
Proof.
  apply (getBlogPost_after_createBlogPost (blog_req "Five tips." JUndefined)
           ∅ first_id);
    vm_compute; reflexivity.
Defined.
